(** * Transcript persistence of the Prepzo voice agent (main.py)

    A shallow embedding of the persistence subsystem of [main.py]: the
    in-memory Conversation Log, the single-message and batch writes against
    the remote store, the health probe, the retry queue with its processor,
    and the idle watchdog.

    The remote store, the clocks and the uuid generator are outside the
    program.  They are modelled by a [World] of oracles, each read through a
    cursor that advances at every call, so a store may fail on one call and
    succeed on the next.  Every function of the source becomes a function
    from a [State] to its result, the next state, and the list of the
    effects it performed, in the order it performed them.

    Each coroutine is run to completion: interleavings of other tasks at an
    [await] are not part of the model, with two exceptions that the
    definitions name: a single write changes the Log entry it was handed
    ([store_log_entry]), and the Log grows while the watchdog sleeps
    ([watched_rounds]). *)

From Stdlib Require Import List String Ascii ZArith Bool Arith Lia DecimalString.
Import ListNotations.
Local Open Scope string_scope.
Local Open Scope list_scope.

(** ** Python values *)

(** The values a message can hold.  [VObj] stands for any live object that
    [json.dumps] rejects with a [TypeError] (a coroutine, a datetime, ...). *)
#[warnings="-register-all"]
Inductive pyval : Type :=
| VNone
| VBool (b : bool)
| VInt (z : Z)
| VStr (s : string)
| VList (l : list pyval)
| VDict (d : list (string * pyval))
| VObj (name : string).

(** A dict with string keys, in insertion order, each key at most once. *)
Definition dict : Type := list (string * pyval).

Fixpoint dict_get (k : string) (d : dict) : option pyval :=
  match d with
  | [] => None
  | (k', v) :: d' => if String.eqb k k' then Some v else dict_get k d'
  end.

(** [d.get(k, default)] *)
Definition get_or (k : string) (default : pyval) (d : dict) : pyval :=
  match dict_get k d with
  | Some v => v
  | None => default
  end.

(** [k in d] *)
Definition dict_has (k : string) (d : dict) : bool :=
  match dict_get k d with
  | Some _ => true
  | None => false
  end.

(** [d[k] = v]: an existing key keeps its place, a new one goes last. *)
Fixpoint dict_set (k : string) (v : pyval) (d : dict) : dict :=
  match d with
  | [] => [(k, v)]
  | (k', v') :: d' =>
      if String.eqb k k' then (k, v) :: d' else (k', v') :: dict_set k v d'
  end.

(** Truth value of a Python value, as [if v:] takes it. *)
Definition truthy (v : pyval) : bool :=
  match v with
  | VNone => false
  | VBool b => b
  | VInt z => negb (Z.eqb z 0)
  | VStr s => negb (String.eqb s "")
  | VList l => match l with [] => false | _ => true end
  | VDict d => match d with [] => false | _ => true end
  | VObj _ => true
  end.

(** Python's [==].  Dicts compare by content whatever the order of their
    keys; [True == 1] and [False == 0]. *)
Fixpoint py_eqb (a b : pyval) {struct a} : bool :=
  match a, b with
  | VNone, VNone => true
  | VBool x, VBool y => Bool.eqb x y
  | VBool x, VInt y => Z.eqb (if x then 1 else 0) y
  | VInt x, VBool y => Z.eqb x (if y then 1 else 0)
  | VInt x, VInt y => Z.eqb x y
  | VStr x, VStr y => String.eqb x y
  | VList l1, VList l2 =>
      (fix all2 (l1 l2 : list pyval) {struct l1} : bool :=
         match l1, l2 with
         | [], [] => true
         | x :: l1', y :: l2' => py_eqb x y && all2 l1' l2'
         | _, _ => false
         end) l1 l2
  | VDict d1, VDict d2 =>
      Nat.eqb (List.length d1) (List.length d2) &&
      (fix incl1 (d : list (string * pyval)) {struct d} : bool :=
         match d with
         | [] => true
         | (k, v) :: d' =>
             match dict_get k d2 with
             | Some v' => py_eqb v v'
             | None => false
             end && incl1 d'
         end) d1
  | VObj x, VObj y => String.eqb x y
  | _, _ => false
  end.

(** ** Strings *)

(** [c.lower()] on an ASCII letter. *)
Definition lower_ascii (c : ascii) : ascii :=
  let n := nat_of_ascii c in
  if (65 <=? n)%nat && (n <=? 90)%nat then ascii_of_nat (n + 32) else c.

(** The byte [c] is [n]. *)
Definition is_byte (n : nat) (c : ascii) : bool := Nat.eqb (nat_of_ascii c) n.

(** [s.lower()].  A string of the model is the UTF-8 text of a Python
    [str].  Lowering turns A-Z into a-z, U+212A KELVIN SIGN (bytes E2 84
    AA) into k, and U+0130 (bytes C4 B0) into i followed by U+0307 (bytes
    CC 87): these are all the characters whose lower-case form holds an
    ASCII character.  Any other character is kept as it is: its
    lower-case form is made of non-ASCII characters as it is itself, and
    all this module does with a lowered string is to look for ASCII words
    in it. *)
Fixpoint str_lower (s : string) : string :=
  match s with
  | EmptyString => EmptyString
  | String c s1 =>
      match s1 with
      | EmptyString => String (lower_ascii c) EmptyString
      | String c1 s2 =>
          if is_byte 196 c && is_byte 176 c1 then
            String "i" (String (ascii_of_nat 204) (String (ascii_of_nat 135)
                                                     (str_lower s2)))
          else
            match s2 with
            | EmptyString => String (lower_ascii c) (str_lower s1)
            | String c2 s3 =>
                if is_byte 226 c && is_byte 132 c1 && is_byte 170 c2 then
                  String "k" (str_lower s3)
                else String (lower_ascii c) (str_lower s1)
            end
      end
  end.

Fixpoint str_prefix (p s : string) : bool :=
  match p, s with
  | EmptyString, _ => true
  | String a p', String b s' => Ascii.eqb a b && str_prefix p' s'
  | String _ _, EmptyString => false
  end.

(** [needle in hay] *)
Fixpoint str_contains (needle hay : string) : bool :=
  str_prefix needle hay ||
  match hay with
  | EmptyString => false
  | String _ hay' => str_contains needle hay'
  end.

(** An ASCII character that lowering leaves alone, and a word made of
    such characters. *)
Definition plain_ascii (c : ascii) : bool :=
  (nat_of_ascii c <? 128)%nat && Ascii.eqb (lower_ascii c) c.

Fixpoint plain_text (s : string) : bool :=
  match s with
  | EmptyString => true
  | String c s' => plain_ascii c && plain_text s'
  end.

(** ** JSON *)

(** [json.dumps v] raises [TypeError] exactly when [v] holds an object it
    cannot encode. *)
Fixpoint serializable (v : pyval) : bool :=
  match v with
  | VList l => forallb serializable l
  | VDict d => forallb (fun kv => let '(_, x) := kv in serializable x) d
  | VObj _ => false
  | _ => true
  end.

(** The text [json.dumps] returns for a value; the value determines it. *)
Record json_text : Type := JsonText { json_value : pyval }.

Definition json_dumps (v : pyval) : option json_text :=
  if serializable v then Some (JsonText v) else None.

(** ** The remote table *)

(** One row of [conversation_histories], as the [insert_data] dicts build
    it. *)
Record Row : Type := mkRow {
  row_session_id : string;
  row_participant_id : pyval;
  row_conversation : json_text;
  row_raw_conversation : pyval;
  row_message_count : Z;
  row_user_email : pyval;
  row_timestamp : pyval;
  row_email_sent : bool
}.

(** What [.upsert(rows, on_conflict="session_id,timestamp").execute()]
    can do. *)
Inductive upsert_reply : Type :=
| UpsertData                          (* response.data is non-empty *)
| UpsertError (e : string)            (* no data, response.error is set *)
| UpsertEmpty                         (* neither data nor error *)
| UpsertRaise (etype msg : string).   (* the call raised etype(msg) *)

(** The ways through [init_supabase]. *)
Inductive init_reply : Type :=
| InitNoUrl          (* SUPABASE_URL is not set *)
| InitNoKey          (* SUPABASE_SERVICE_ROLE_KEY is not set *)
| InitCreateFailed   (* create_client raised *)
| InitUnverified     (* client created, verify_supabase_table() is False *)
| InitQueryFailed    (* client created and verified, the test query raised *)
| InitReady.

(** ** The retry queue's items *)

(** The dict [add_to_retry_queue] builds; its keys are fixed. *)
Record RetryItem : Type := mkRetryItem {
  retry_timestamp : string;
  item_session_id : string;
  item_participant_id : string;
  item_conversation : dict;
  item_raw_conversation : pyval;
  item_message_count : Z;
  item_user_email : string;
  item_timestamp : pyval;
  item_email_sent : bool;
  retry_count : Z
}.

Definition MAX_RETRY_QUEUE_SIZE : nat := 1000.

(** ** The world outside and the state inside *)

Record World : Type := mkWorld {
  w_probe : nat -> bool;                       (* the probing select returns *)
  w_init : nat -> init_reply;
  w_upsert : nat -> list Row -> upsert_reply;
  w_clock : nat -> string;                     (* ISO text of the wall clock *)
  w_uuid : nat -> string;
  w_time : nat -> Z;                           (* time.time(), in seconds *)
  w_parse_iso : string -> option Z             (* fromisoformat(..).timestamp() *)
}.

(** How many times each oracle has been consulted. *)
Record Cursor : Type := mkCursor {
  c_probe : nat;
  c_init : nat;
  c_upsert : nat;
  c_clock : nat;
  c_uuid : nat;
  c_time : nat
}.

(** The [agent] global: [is_speaking] is [None] until the attribute is set. *)
Record Agent : Type := mkAgent { is_speaking : option bool }.

(** The module's globals. *)
Record State : Type := mkState {
  world : World;
  cursor : Cursor;
  supabase : bool;                   (* the client global is not None *)
  agent : option Agent;
  session_id : option string;
  conversation_history : list dict;
  retry_queue : list RetryItem
}.

Definition set_cursor (c : Cursor) (st : State) : State :=
  mkState (world st) c (supabase st) (agent st) (session_id st)
          (conversation_history st) (retry_queue st).

Definition set_supabase (b : bool) (st : State) : State :=
  mkState (world st) (cursor st) b (agent st) (session_id st)
          (conversation_history st) (retry_queue st).

Definition set_history (h : list dict) (st : State) : State :=
  mkState (world st) (cursor st) (supabase st) (agent st) (session_id st)
          h (retry_queue st).

Definition set_queue (q : list RetryItem) (st : State) : State :=
  mkState (world st) (cursor st) (supabase st) (agent st) (session_id st)
          (conversation_history st) q.

Inductive level : Type := Debug | Info | Warning | Error.

(** What a run does that can be seen from outside. *)
Inductive Event : Type :=
| EvLog (l : level) (msg : string)
| EvProbe (ok : bool)
| EvInit (r : init_reply)
| EvUpsert (rows : list Row) (r : upsert_reply)
| EvSleep (ms : Z)
| EvSpawnStore (sid pid : string) (conversation : dict).

(** ** Computations *)

Record Run (A : Type) : Type := mkRun {
  value : A;
  final : State;
  effects : list Event
}.
Arguments mkRun {A} _ _ _.
Arguments value {A} _.
Arguments final {A} _.
Arguments effects {A} _.

Definition M (A : Type) : Type := State -> Run A.

Definition ret {A} (a : A) : M A := fun st => mkRun a st [].

Definition bind {A B} (m : M A) (f : A -> M B) : M B :=
  fun st =>
    match m st with
    | mkRun a st1 e1 =>
        match f a st1 with
        | mkRun b st2 e2 => mkRun b st2 (e1 ++ e2)
        end
    end.

Declare Scope run_scope.
Delimit Scope run_scope with run.
Notation "x <- m ;; k" := (bind m (fun x => k))
  (at level 61, m at next level, right associativity) : run_scope.
Notation "m ;; k" := (bind m (fun _ => k))
  (at level 61, right associativity) : run_scope.
Local Open Scope run_scope.

Definition get_state : M State := fun st => mkRun st st [].
Definition modify (f : State -> State) : M unit := fun st => mkRun tt (f st) [].
Definition emit (e : Event) : M unit := fun st => mkRun tt st [e].

Definition log (l : level) (msg : string) : M unit := emit (EvLog l msg).

(** [for x in l: body(x)] *)
Fixpoint for_each {A} (body : A -> M unit) (l : list A) : M unit :=
  match l with
  | [] => ret tt
  | x :: l' => body x ;; for_each body l'
  end.

(** *** The oracles *)

Definition bump_probe (c : Cursor) : Cursor :=
  mkCursor (S (c_probe c)) (c_init c) (c_upsert c) (c_clock c) (c_uuid c) (c_time c).
Definition bump_init (c : Cursor) : Cursor :=
  mkCursor (c_probe c) (S (c_init c)) (c_upsert c) (c_clock c) (c_uuid c) (c_time c).
Definition bump_upsert (c : Cursor) : Cursor :=
  mkCursor (c_probe c) (c_init c) (S (c_upsert c)) (c_clock c) (c_uuid c) (c_time c).
Definition bump_clock (c : Cursor) : Cursor :=
  mkCursor (c_probe c) (c_init c) (c_upsert c) (S (c_clock c)) (c_uuid c) (c_time c).
Definition bump_uuid (c : Cursor) : Cursor :=
  mkCursor (c_probe c) (c_init c) (c_upsert c) (c_clock c) (S (c_uuid c)) (c_time c).
Definition bump_time (c : Cursor) : Cursor :=
  mkCursor (c_probe c) (c_init c) (c_upsert c) (c_clock c) (c_uuid c) (S (c_time c)).

(** [supabase.table(..).select("session_id").limit(1).execute()]:
    [true] when it returns, [false] when it raises. *)
Definition select_probe : M bool :=
  fun st =>
    let ok := w_probe (world st) (c_probe (cursor st)) in
    mkRun ok (set_cursor (bump_probe (cursor st)) st) [EvProbe ok].

(** [supabase.table(..).upsert(rows, on_conflict=..).execute()] *)
Definition upsert (rows : list Row) : M upsert_reply :=
  fun st =>
    let r := w_upsert (world st) (c_upsert (cursor st)) rows in
    mkRun r (set_cursor (bump_upsert (cursor st)) st) [EvUpsert rows r].

(** [get_current_timestamp()], [datetime.now().isoformat()] *)
Definition get_current_timestamp : M string :=
  fun st =>
    mkRun (w_clock (world st) (c_clock (cursor st)))
          (set_cursor (bump_clock (cursor st)) st) [].

(** [str(uuid.uuid4())] *)
Definition uuid4 : M string :=
  fun st =>
    mkRun (w_uuid (world st) (c_uuid (cursor st)))
          (set_cursor (bump_uuid (cursor st)) st) [].

(** [time.time()] *)
Definition time_time : M Z :=
  fun st =>
    mkRun (w_time (world st) (c_time (cursor st)))
          (set_cursor (bump_time (cursor st)) st) [].

(** [await asyncio.sleep(ms / 1000)] *)
Definition sleep (ms : Z) : M unit := emit (EvSleep ms).

(** ** Health monitor *)

Definition init_supabase : M bool :=
  fun st =>
    let r := w_init (world st) (c_init (cursor st)) in
    let st1 := set_cursor (bump_init (cursor st)) st in
    match r with
    | InitNoUrl =>
        mkRun false st1
          [EvInit r; EvLog Error "SUPABASE_URL is not set in environment variables"]
    | InitNoKey =>
        mkRun false st1
          [EvInit r;
           EvLog Error "SUPABASE_SERVICE_ROLE_KEY is not set in environment variables"]
    | InitCreateFailed =>
        mkRun false st1
          [EvInit r; EvLog Error "Failed to initialize Supabase client"]
    | InitUnverified =>
        mkRun false (set_supabase true st1)
          [EvInit r; EvLog Info "Supabase client initialized successfully";
           EvLog Error "Failed to verify conversation_histories table structure"]
    | InitQueryFailed =>
        mkRun false (set_supabase true st1)
          [EvInit r; EvLog Info "Supabase client initialized successfully";
           EvLog Error "Failed to initialize Supabase client"]
    | InitReady =>
        mkRun true (set_supabase true st1)
          [EvInit r; EvLog Info "Supabase client initialized successfully";
           EvLog Info "Successfully tested query on conversation_histories table"]
    end.

Definition check_supabase_health : M bool :=
  st <- get_state ;;
  if negb (supabase st) then
    log Warning "Supabase client not initialized, attempting to initialize" ;;
    init_supabase
  else
    ok <- select_probe ;;
    if ok then
      log Debug "Supabase connection is healthy" ;;
      ret true
    else
      log Warning "Supabase connection error, attempting to reconnect" ;;
      init_supabase.

(** ** Retry queue *)

(** [q[-n:]] *)
Definition keep_newest {A} (n : nat) (q : list A) : list A :=
  skipn (List.length q - n) q.

(** The [retry_item] dict [add_to_retry_queue] builds.  The defaults of the
    [.get] calls are evaluated whether they are used or not. *)
Definition make_retry_item (sid pid : string) (conversation : dict)
  : M RetryItem :=
  now <- get_current_timestamp ;;
  fresh <- uuid4 ;;
  let safe_message :=
    [("role", get_or "role" (VStr "unknown") conversation);
     ("content", get_or "content" (VStr "") conversation);
     ("timestamp", get_or "timestamp" (VStr now) conversation);
     ("message_id", get_or "message_id" (VStr fresh) conversation)] in
  stamp <- get_current_timestamp ;;
  ret (mkRetryItem stamp sid pid safe_message
         (get_or "content" (VStr "") safe_message) 1 ""
         (get_or "timestamp" VNone safe_message) false 0).

(** [add_to_retry_queue(session_id, participant_id, conversation)].  With
    [conversation] a dict nothing in the [try] block raises, so the
    [except] branch is never entered. *)
Definition add_to_retry_queue (sid pid : string) (conversation : dict)
  : M bool :=
  retry_item <- make_retry_item sid pid conversation ;;
  modify (fun st => set_queue (retry_queue st ++ [retry_item]) st) ;;
  st <- get_state ;;
  (if (MAX_RETRY_QUEUE_SIZE <? List.length (retry_queue st))%nat then
     modify (set_queue (keep_newest MAX_RETRY_QUEUE_SIZE (retry_queue st)))
   else ret tt) ;;
  log Info "Added message to retry queue" ;;
  ret true.

(** ** Persistence gateway: one message *)

Definition VERBOSE_LOGGING : bool := false.

Definition verbose_log (l : level) (msg : string) : M unit :=
  if VERBOSE_LOGGING then log l msg else ret tt.

(** How a call ends: it returns a value, or an exception leaves it. *)
Inductive write_result : Type :=
| Returned (ok : bool)
| Raised (etype : string).

(** [agent and hasattr(agent, 'is_speaking') and agent.is_speaking] *)
Definition agent_is_speaking (st : State) : bool :=
  match agent st with
  | Some a => match is_speaking a with Some b => b | None => false end
  | None => false
  end.

(** The [user_email] both writers read out of a message's metadata. *)
Definition user_email_of (message : dict) : pyval :=
  match dict_get "metadata" message with
  | Some (VDict metadata) => get_or "user_email" (VStr "") metadata
  | _ => VStr ""
  end.

(** The reduced message both writers fall back to. *)
Definition safe_message_of (message : dict) (now : string) (message_id : pyval)
  : dict :=
  [("role", get_or "role" (VStr "unknown") message);
   ("content", get_or "content" (VStr "") message);
   ("timestamp", get_or "timestamp" (VStr now) message);
   ("message_id", message_id)].

(** What the serialization step of [store_conversation_message] leaves in
    its local variables: [(serialized_conversation, content, user_email,
    timestamp)], or [None] when the [TypeError] of the second [json.dumps]
    leaves the function. *)
Definition serialize_message (conversation : dict) (message_id : pyval)
  : M (option (json_text * pyval * pyval * pyval)) :=
  match json_dumps (VDict conversation) with
  | Some serialized_conversation =>
      now <- get_current_timestamp ;;
      ret (Some (serialized_conversation,
                 get_or "content" (VStr "") conversation,
                 user_email_of conversation,
                 get_or "timestamp" (VStr now) conversation))
  | None =>
      log Error "Failed to serialize message data" ;;
      now <- get_current_timestamp ;;
      let safe_message := safe_message_of conversation now message_id in
      match json_dumps (VDict safe_message) with
      | Some serialized_conversation =>
          now' <- get_current_timestamp ;;
          ret (Some (serialized_conversation,
                     get_or "content" (VStr "") safe_message,
                     VStr "",
                     get_or "timestamp" (VStr now') safe_message))
      | None => ret None
      end
  end.

(** The [except Exception as e] branch around the upsert. *)
Definition on_upsert_exception (sid pid : string) (conversation : dict)
  (error_message : string) : M bool :=
  log Error "Exception during Supabase storage" ;;
  let lowered := str_lower error_message in
  if str_contains "duplicate key" lowered then
    verbose_log Warning "Message already exists in database (duplicate key)" ;;
    ret true
  else
    (if str_contains "permission" lowered then
       log Error "Supabase permission error"
     else if str_contains "network" lowered || str_contains "timeout" lowered then
       log Error "Supabase network error"
     else
       log Error "Failed to store message" ;;
       verbose_log Error "Error details") ;;
    add_to_retry_queue sid pid conversation ;;
    ret false.

(** What follows the upsert: the branches on the response, and the
    [except] branch. *)
Definition on_upsert_reply (sid pid : string) (conversation : dict)
  (reply : upsert_reply) : M bool :=
  match reply with
  | UpsertData =>
      log Info "Successfully stored message" ;;
      ret true
  | UpsertError _ =>
      log Error "Supabase upsert error" ;;
      add_to_retry_queue sid pid conversation ;;
      ret false
  | UpsertEmpty =>
      log Warning "Unexpected response from Supabase" ;;
      add_to_retry_queue sid pid conversation ;;
      ret false
  | UpsertRaise _ error_message =>
      on_upsert_exception sid pid conversation error_message
  end.

(** [if "message_id" not in conversation: conversation["message_id"] = message_id] *)
Definition with_message_id (conversation : dict) (message_id : pyval) : dict :=
  if dict_has "message_id" conversation then conversation
  else dict_set "message_id" message_id conversation.

(** [store_conversation_message(session_id, participant_id, conversation)],
    the three-argument definition that is in force at run time.  The result
    carries the [conversation] dict as the call leaves it, since the caller
    still holds it.  The diagnostic prints of the environment, of
    [insert_data] and of the raw response are not recorded. *)
Definition store_conversation_message (sid pid : string) (conversation : dict)
  : M (write_result * dict) :=
  st <- get_state ;;
  if agent_is_speaking st && String.eqb pid "system" then
    add_to_retry_queue sid pid conversation ;;
    ret (Returned false, conversation)
  else
    supabase_available <- check_supabase_health ;;
    if negb supabase_available then
      log Error "Supabase client not available, adding message to retry queue" ;;
      add_to_retry_queue sid pid conversation ;;
      ret (Returned false, conversation)
    else
      match conversation with
      | [] =>
          log Error "Message data is empty, skipping storage" ;;
          ret (Returned false, conversation)
      | _ :: _ =>
          fresh <- uuid4 ;;
          let message_id := get_or "message_id" (VStr fresh) conversation in
          let conversation := with_message_id conversation message_id in
          prepared <- serialize_message conversation message_id ;;
          match prepared with
          | None => ret (Raised "TypeError", conversation)
          | Some (serialized_conversation, content, user_email, timestamp) =>
              let insert_data :=
                mkRow sid (VStr pid) serialized_conversation content 1
                      user_email timestamp false in
              reply <- upsert [insert_data] ;;
              ok <- on_upsert_reply sid pid conversation reply ;;
              ret (Returned ok, conversation)
          end
      end.

(** ** Persistence gateway: the whole Log *)

(** [str(n)] *)
Definition dec (n : nat) : string := NilEmpty.string_of_uint (Nat.to_uint n).

(** [msg.get("metadata", {}).get("stored", False)], taken as a truth value;
    [None] when [metadata] is not a dict and the second [.get] raises
    [AttributeError]. *)
Definition stored_flag (msg : dict) : option bool :=
  match dict_get "metadata" msg with
  | None => Some false
  | Some (VDict metadata) => Some (truthy (get_or "stored" (VBool false) metadata))
  | Some _ => None
  end.

(** [sum(1 for msg in history if not msg.get("metadata", {}).get("stored", False))] *)
Fixpoint count_unstored (history : list dict) : option nat :=
  match history with
  | [] => Some 0%nat
  | msg :: history' =>
      match stored_flag msg, count_unstored history' with
      | Some stored, Some n => Some (if stored then n else S n)
      | _, _ => None
      end
  end.

(** [message.get("participant_id", message.get("role", "unknown"))] *)
Definition participant_of (message : dict) : pyval :=
  get_or "participant_id" (get_or "role" (VStr "unknown") message) message.

(** The [insert_data] of the collecting loop, from the message itself. *)
Definition full_row (sid : string) (message : dict) (now : string) : Row :=
  mkRow sid (participant_of message) (JsonText (VDict message))
        (get_or "content" (VStr "") message) 1
        (user_email_of message)
        (get_or "timestamp" (VStr now) message) false.

(** The [insert_data] of the collecting loop, from the reduced message. *)
Definition safe_row (sid : string) (message safe_message : dict) (now : string)
  : Row :=
  mkRow sid (participant_of message) (JsonText (VDict safe_message))
        (get_or "content" (VStr "") safe_message) 1
        (VStr "")
        (get_or "timestamp" (VStr now) safe_message) false.

(** The body of the collecting loop for one message of the Log: the message
    as the loop leaves it, and the [insert_data] it appends, if any. *)
Definition prepare_message (sid : string) (message : dict)
  : M (dict * option Row) :=
  match stored_flag message with
  | Some true => ret (message, None)
  | _ =>
      message <-
        (if dict_has "message_id" message then ret message
         else fresh <- uuid4 ;; ret (dict_set "message_id" (VStr fresh) message)) ;;
      match json_dumps (VDict message) with
      | Some _ =>
          now <- get_current_timestamp ;;
          ret (message, Some (full_row sid message now))
      | None =>
          log Error "Failed to serialize message for batch storage" ;;
          now <- get_current_timestamp ;;
          let safe_message :=
            safe_message_of message now (get_or "message_id" VNone message) in
          match json_dumps (VDict safe_message) with
          | Some _ =>
              now' <- get_current_timestamp ;;
              ret (message, Some (safe_row sid message safe_message now'))
          | None =>
              log Error "Could not create safe version of message" ;;
              ret (message, None)
          end
      end
  end.

(** [for message in conversation_history: ...]: the Log as the loop leaves
    it and [messages_to_store]. *)
Fixpoint collect_messages (sid : string) (history : list dict)
  : M (list dict * list Row) :=
  match history with
  | [] => ret ([], [])
  | message :: history' =>
      p <- prepare_message sid message ;;
      rest <- collect_messages sid history' ;;
      ret (fst p :: fst rest,
           match snd p with
           | Some insert_data => insert_data :: snd rest
           | None => snd rest
           end)
  end.

(** [if "metadata" not in msg: msg["metadata"] = {}] and then
    [msg["metadata"]["stored"] = True].  The flush has counted the unstored
    messages before, so a [metadata] that is present is a dict. *)
Definition set_stored (msg : dict) : dict :=
  let metadata :=
    match dict_get "metadata" msg with
    | Some (VDict metadata) => metadata
    | _ => []
    end in
  dict_set "metadata" (VDict (dict_set "stored" (VBool true) metadata)) msg.

(** The test of the marking loops. *)
Definition matches_row (msg_data : Row) (msg : dict) : bool :=
  py_eqb (get_or "timestamp" VNone msg) (row_timestamp msg_data) &&
  py_eqb (get_or "role" (VStr "unknown") msg) (row_participant_id msg_data).

(** [for msg in conversation_history: if <match>: ...; break]: the Log with
    its first match marked, or [None] when nothing matches. *)
Fixpoint mark_first (msg_data : Row) (history : list dict) : option (list dict) :=
  match history with
  | [] => None
  | msg :: history' =>
      if matches_row msg_data msg then Some (set_stored msg :: history')
      else match mark_first msg_data history' with
           | Some marked => Some (msg :: marked)
           | None => None
           end
  end.

(** The marking loop for one written row; [success_count] is passed
    through. *)
Definition mark_stored (msg_data : Row) (success_count : nat) : M nat :=
  st <- get_state ;;
  match mark_first msg_data (conversation_history st) with
  | Some marked => modify (set_history marked) ;; ret (S success_count)
  | None => ret success_count
  end.

(** [for x in l: acc = body(x, acc)] *)
Fixpoint fold_each {A B} (body : A -> B -> M B) (l : list A) (acc : B) : M B :=
  match l with
  | [] => ret acc
  | x :: l' => acc' <- body x acc ;; fold_each body l' acc'
  end.

(** The fallback for one row of a batch whose upsert raised. *)
Definition store_single (msg_data : Row) (success_count : nat) : M nat :=
  single_response <- upsert [msg_data] ;;
  match single_response with
  | UpsertData => mark_stored msg_data success_count
  | UpsertError _ | UpsertEmpty => ret success_count
  | UpsertRaise _ _ =>
      log Error "Error in fallback single storage" ;;
      ret success_count
  end.

(** The body of the batch loop. *)
Definition store_batch (batch : list Row) (success_count : nat) : M nat :=
  response <- upsert batch ;;
  success_count <-
    match response with
    | UpsertData => fold_each mark_stored batch success_count
    | UpsertError _ | UpsertEmpty =>
        log Warning "Unexpected response from batch upsert" ;;
        ret success_count
    | UpsertRaise _ _ =>
        log Error "Error during batch upsert" ;;
        fold_each store_single batch success_count
    end ;;
  sleep 500 ;;
  ret success_count.

Definition batch_size : nat := 10.

(** [range(0, n, batch_size)] *)
Definition batch_starts (n : nat) : list nat :=
  map (fun k => k * batch_size)%nat (seq 0 ((n + (batch_size - 1)) / batch_size)).

(** [[messages_to_store[i:i + batch_size] for i in range(0, len(..), batch_size)]] *)
Definition batches_of_rows {A} (messages_to_store : list A) : list (list A) :=
  map (fun i => firstn batch_size (skipn i messages_to_store))
      (batch_starts (List.length messages_to_store)).

(** [store_full_conversation()].  It returns nothing; an exception inside
    its [try] is logged and ends it. *)
Definition store_full_conversation : M unit :=
  st <- get_state ;;
  if negb (supabase st) then
    log Error "Cannot store full conversation: Supabase client is not initialized"
  else
    match session_id st with
    | None | Some EmptyString =>
        log Error "Cannot store full conversation: session_id is not set"
    | Some sid =>
        match conversation_history st with
        | [] => log Info "No conversation history to store"
        | _ :: _ =>
            match count_unstored (conversation_history st) with
            | None => log Error "Failed to store full conversation"
            | Some O => log Info "All messages already stored"
            | Some to_store_count =>
                collected <- collect_messages sid (conversation_history st) ;;
                modify (set_history (fst collected)) ;;
                success_count <-
                  fold_each store_batch (batches_of_rows (snd collected)) 0%nat ;;
                log Info ("Successfully stored " ++ dec success_count ++ "/"
                          ++ dec to_store_count ++ " messages") ;;
                log Info "Total messages marked as stored"
            end
        end
    end.

(** ** Retry processor *)

(** [item["retry_count"] = item.get("retry_count", 0) + 1] *)
Definition bump_retry (item : RetryItem) : RetryItem :=
  mkRetryItem (retry_timestamp item) (item_session_id item)
    (item_participant_id item) (item_conversation item)
    (item_raw_conversation item) (item_message_count item)
    (item_user_email item) (item_timestamp item) (item_email_sent item)
    (retry_count item + 1).

(** [retry_queue.append(item)] with the count raised. *)
Definition push_back (item : RetryItem) : M unit :=
  modify (fun st => set_queue (retry_queue st ++ [bump_retry item]) st).

(** The [insert_data] of the retry processor. *)
Definition retry_row (item : RetryItem) (conversation_data : json_text) : Row :=
  mkRow (item_session_id item) (VStr (item_participant_id item))
        conversation_data (item_raw_conversation item)
        (item_message_count item) (VStr (item_user_email item))
        (item_timestamp item) (item_email_sent item).

(** The body of [for item in temp_queue]; [success_count] is passed
    through.  The two [continue]s skip the sleep that ends the body. *)
Definition retry_item (item : RetryItem) (success_count : nat) : M nat :=
  if (5 <=? retry_count item)%Z then
    log Warning "Skipping message that has failed too many times" ;;
    ret success_count
  else
    supabase_healthy <- check_supabase_health ;;
    if negb supabase_healthy then
      log Warning "Supabase connection not healthy, adding back to retry queue" ;;
      push_back item ;;
      ret success_count
    else
      success_count <-
        match json_dumps (VDict (item_conversation item)) with
        | None =>
            log Error "Error processing retry item" ;;
            push_back item ;;
            ret success_count
        | Some conversation_data =>
            _ <- get_current_timestamp ;;
            response <- upsert [retry_row item conversation_data] ;;
            match response with
            | UpsertData =>
                log Info "Successfully stored retry item" ;;
                ret (S success_count)
            | UpsertError _ | UpsertEmpty =>
                log Warning "Failed to store retry item" ;;
                push_back item ;;
                ret success_count
            | UpsertRaise _ _ =>
                log Error "Error processing retry item" ;;
                push_back item ;;
                ret success_count
            end
        end ;;
      sleep 200 ;;
      ret success_count.

(** [process_retry_queue(batch_size)] *)
Definition process_retry_queue (batch_size : nat) : M nat :=
  st <- get_state ;;
  match retry_queue st with
  | [] => ret 0%nat
  | _ :: _ =>
      if negb (supabase st) then
        log Warning "Cannot process retry queue: Supabase client is not initialized" ;;
        ret 0%nat
      else
        log Info "Processing retry queue" ;;
        let items_to_process := Nat.min batch_size (List.length (retry_queue st)) in
        let temp_queue := firstn items_to_process (retry_queue st) in
        modify (set_queue (skipn items_to_process (retry_queue st))) ;;
        success_count <- fold_each retry_item temp_queue 0%nat ;;
        log Info "Retry queue processing done" ;;
        ret success_count
  end.

(** ** Idle watchdog *)

(** How one round of [check_connection_status] ends: the loop goes on with
    a new [last_activity_time], or the coroutine is left, by [break] or by
    an exception that its own [except] clauses catch. *)
Inductive watch_result : Type :=
| Watching (last_activity_time : Z)
| LoopLeft.

Definition inactivity_threshold : Z := 300.

(** [latest_msg_time] as the round computes it from the last entry of the
    Log; [None] when the comparison that follows raises [TypeError]. *)
Definition latest_msg_time (w : World) (msg : dict) : option Z :=
  match get_or "timestamp" (VInt 0) msg with
  | VStr s => match w_parse_iso w s with Some t => Some t | None => Some 0%Z end
  | VInt z => Some z
  | VBool b => Some (if b then 1 else 0)%Z
  | _ => None
  end.

(** [system_msg not in conversation_history] *)
Definition not_in_history (msg : dict) (history : list dict) : bool :=
  negb (existsb (fun m => py_eqb (VDict msg) (VDict m)) history).

(** The activity time after the round's look at the Log: the later of
    [last_activity_time] and the last entry's time; [None] when comparing
    them raises. *)
Definition refresh_activity (st : State) (last_activity_time : Z) : option Z :=
  match conversation_history st with
  | [] => Some last_activity_time
  | m :: history' =>
      match latest_msg_time (world st) (last (m :: history') m) with
      | Some latest => Some (if (last_activity_time <? latest)%Z then latest
                             else last_activity_time)
      | None => None
      end
  end.

(** [system_msg] of the auto-disconnect branch. *)
Definition inactivity_message (stamp : string) : dict :=
  [("role", VStr "system");
   ("content", VStr "Call automatically ended due to inactivity.");
   ("timestamp", VStr stamp)].

(** One round of the [while True] of [check_connection_status].  The
    [raise ForceDisconnectError] of the last step sits in a [try] whose
    [except Exception] logs it and leaves the loop. *)
Definition watchdog_round (sid : string) (last_activity_time : Z)
  : M watch_result :=
  sleep 120000 ;;
  st <- get_state ;;
  match refresh_activity st last_activity_time with
  | None =>
      log Error "Error in connection status checker" ;;
      ret LoopLeft
  | Some last_activity_time =>
      now <- time_time ;;
      if (inactivity_threshold <? now - last_activity_time)%Z then
        log Warning "Auto-disconnect triggered after inactivity" ;;
        stamp <- get_current_timestamp ;;
        let system_msg := inactivity_message stamp in
        st <- get_state ;;
        (if not_in_history system_msg (conversation_history st) then
           modify (set_history (conversation_history st ++ [system_msg])) ;;
           emit (EvSpawnStore sid "system" system_msg)
         else ret tt) ;;
        log Error "Error during auto-disconnect" ;;
        ret LoopLeft
      else ret (Watching last_activity_time)
  end.

(** [check_connection_status()], for at most [rounds] rounds. *)
Fixpoint watchdog_rounds (rounds : nat) (sid : string) (last_activity_time : Z)
  : M watch_result :=
  match rounds with
  | O => ret (Watching last_activity_time)
  | S rounds' =>
      r <- watchdog_round sid last_activity_time ;;
      match r with
      | Watching last_activity_time' => watchdog_rounds rounds' sid last_activity_time'
      | LoopLeft => ret LoopLeft
      end
  end.

Definition check_connection_status (rounds : nat) (sid : string) : M watch_result :=
  last_activity_time <- time_time ;;
  watchdog_rounds rounds sid last_activity_time.

(** ** Reading a run's effects *)

(** The upserts made, in order: the rows sent and what came back. *)
Fixpoint upserts_of (evs : list Event) : list (list Row * upsert_reply) :=
  match evs with
  | [] => []
  | EvUpsert rows r :: evs' => (rows, r) :: upserts_of evs'
  | _ :: evs' => upserts_of evs'
  end.

(** The row lists sent to the store, in order. *)
Definition batches_of (evs : list Event) : list (list Row) :=
  map fst (upserts_of evs).

(** The health probes made: a probing select or a client initialisation. *)
Fixpoint probes_of (evs : list Event) : list Event :=
  match evs with
  | [] => []
  | EvProbe ok :: evs' => EvProbe ok :: probes_of evs'
  | EvInit r :: evs' => EvInit r :: probes_of evs'
  | _ :: evs' => probes_of evs'
  end.

(** The sleeps taken, in milliseconds. *)
Fixpoint sleeps_of (evs : list Event) : list Z :=
  match evs with
  | [] => []
  | EvSleep ms :: evs' => ms :: sleeps_of evs'
  | _ :: evs' => sleeps_of evs'
  end.

Definition logged (l : level) (msg : string) (evs : list Event) : Prop :=
  In (EvLog l msg) evs.

(** ** Successive enqueues *)

(** A caller that enqueues the messages of [msgs] one after the other. *)
Fixpoint enqueue_all (msgs : list (string * string * dict)) : M unit :=
  match msgs with
  | [] => ret tt
  | (sid, pid, conversation) :: msgs' =>
      add_to_retry_queue sid pid conversation ;; enqueue_all msgs'
  end.

(** The items those calls build, in order. *)
Fixpoint enqueued_items (msgs : list (string * string * dict)) (st : State)
  : list RetryItem :=
  match msgs with
  | [] => []
  | (sid, pid, conversation) :: msgs' =>
      value (make_retry_item sid pid conversation st)
      :: enqueued_items msgs' (final (add_to_retry_queue sid pid conversation st))
  end.

(** ** Sample worlds and states *)

(** A store that answers every call. *)
Definition calm_world : World :=
  mkWorld (fun _ => true) (fun _ => InitReady) (fun _ _ => UpsertData)
          (fun _ => "2025-01-01T00:00:00+00:00") (fun _ => "uuid")
          (fun _ => 0%Z) (fun _ => None).

(** A store that cannot be reached and whose client cannot be rebuilt. *)
Definition down_world : World :=
  mkWorld (fun _ => false) (fun _ => InitCreateFailed)
          (fun _ _ => UpsertRaise "ConnectionError" "network unreachable")
          (fun _ => "2025-01-01T00:00:00+00:00") (fun _ => "uuid")
          (fun _ => 0%Z) (fun _ => None).

Definition cursor0 : Cursor := mkCursor 0 0 0 0 0 0.

(** A session with a client, a silent agent, an empty Log and queue. *)
Definition idle_state (w : World) : State :=
  mkState w cursor0 true (Some (mkAgent (Some false))) (Some "session-1") [] [].

(** The same session while the agent is speaking. *)
Definition speaking_state (w : World) : State :=
  mkState w cursor0 true (Some (mkAgent (Some true))) (Some "session-1") [] [].

(** A user message as [on_user_speech_committed] builds it, numbered [n]. *)
Definition user_message (n : nat) : dict :=
  [("role", VStr "user");
   ("content", VStr ("utterance " ++ dec n));
   ("timestamp", VStr ("2025-01-01T00:00:00." ++ dec n ++ "+00:00"));
   ("message_id", VStr ("message-" ++ dec n));
   ("metadata", VDict [("type", VStr "user_speech"); ("stored", VBool false)])].

(** The text of a string value, for telling sample items apart. *)
Definition text_of (v : pyval) : string :=
  match v with VStr s => s | _ => "" end.

Fixpoint distinct_strings (l : list string) : bool :=
  match l with
  | [] => true
  | s :: l' => negb (existsb (String.eqb s) l') && distinct_strings l'
  end.

(** 1001 user messages that differ in what was said. *)
Definition msgs1001 : list (string * string * dict) :=
  map (fun n => ("session-1", "user", user_message n)) (seq 0 1001).

(** ** States a health probe can leave *)

(** A probe moves the probe and init cursors and may install a client;
    nothing else. *)
Definition after_health (st : State) (sup : bool) (cp ci : nat) : State :=
  mkState (world st)
    (mkCursor cp ci (c_upsert (cursor st)) (c_clock (cursor st))
              (c_uuid (cursor st)) (c_time (cursor st)))
    sup (agent st) (session_id st) (conversation_history st) (retry_queue st).


(** ** Shorthands for the statements *)

(** The wall clock's next reading, and the state once it has been read. *)
Definition clock (st : State) : string := w_clock (world st) (c_clock (cursor st)).
Definition tick (st : State) : State := set_cursor (bump_clock (cursor st)) st.

(** The state an enqueue of this message leaves. *)
Definition enqueued (sid pid : string) (conversation : dict) (st : State) : State :=
  final (add_to_retry_queue sid pid conversation st).

(** The line the [except] branch logs for an error it does not take for a
    duplicate. *)
Definition failure_log (lowered : string) : string :=
  if str_contains "permission" lowered then "Supabase permission error"
  else if str_contains "network" lowered || str_contains "timeout" lowered
       then "Supabase network error"
       else "Failed to store message".

(** The row a single write sends for what [serialize_message] prepared. *)
Definition single_row (sid pid : string)
  (prepared : json_text * pyval * pyval * pyval) : Row :=
  let '(serialized_conversation, content, user_email, timestamp) := prepared in
  mkRow sid (VStr pid) serialized_conversation content 1 user_email timestamp false.

(** The ways through [store_conversation_message], each with the run it
    yields. *)
Inductive write_spec (sid pid : string) (conversation : dict) (st : State)
  : Run (write_result * dict) -> Prop :=
| WriteDeferred :
    agent_is_speaking st && String.eqb pid "system" = true ->
    write_spec sid pid conversation st
      (mkRun (Returned false, conversation)
             (enqueued sid pid conversation st)
             [EvLog Info "Added message to retry queue"])
| WriteUnhealthy (sup : bool) (cp ci : nat) (evs : list Event) :
    agent_is_speaking st && String.eqb pid "system" = false ->
    check_supabase_health st = mkRun false (after_health st sup cp ci) evs ->
    write_spec sid pid conversation st
      (mkRun (Returned false, conversation)
             (enqueued sid pid conversation (after_health st sup cp ci))
             (evs ++
              [EvLog Error "Supabase client not available, adding message to retry queue";
               EvLog Info "Added message to retry queue"]))
| WriteEmpty (cp ci : nat) (evs : list Event) :
    agent_is_speaking st && String.eqb pid "system" = false ->
    check_supabase_health st = mkRun true (after_health st true cp ci) evs ->
    conversation = [] ->
    write_spec sid pid conversation st
      (mkRun (Returned false, conversation)
             (after_health st true cp ci)
             (evs ++ [EvLog Error "Message data is empty, skipping storage"]))
| WriteUnserializable (cp ci : nat) (evs : list Event)
    (conversation' : dict) (message_id : pyval) (st1 st2 : State) (e2 : list Event) :
    agent_is_speaking st && String.eqb pid "system" = false ->
    check_supabase_health st = mkRun true (after_health st true cp ci) evs ->
    conversation <> [] ->
    message_id = get_or "message_id" (VStr (w_uuid (world st) (c_uuid (cursor st))))
                        conversation ->
    conversation' = with_message_id conversation message_id ->
    st1 = set_cursor (bump_uuid (cursor (after_health st true cp ci)))
                     (after_health st true cp ci) ->
    serialize_message conversation' message_id st1 = mkRun None st2 e2 ->
    write_spec sid pid conversation st
      (mkRun (Raised "TypeError", conversation') st2 (evs ++ e2))
| WriteSent (cp ci : nat) (evs : list Event)
    (conversation' : dict) (message_id : pyval) (st1 st2 st3 : State)
    (e2 e3 : list Event) (prepared : json_text * pyval * pyval * pyval)
    (reply : upsert_reply) (ok : bool) :
    agent_is_speaking st && String.eqb pid "system" = false ->
    check_supabase_health st = mkRun true (after_health st true cp ci) evs ->
    conversation <> [] ->
    message_id = get_or "message_id" (VStr (w_uuid (world st) (c_uuid (cursor st))))
                        conversation ->
    conversation' = with_message_id conversation message_id ->
    st1 = set_cursor (bump_uuid (cursor (after_health st true cp ci)))
                     (after_health st true cp ci) ->
    serialize_message conversation' message_id st1 = mkRun (Some prepared) st2 e2 ->
    reply = w_upsert (world st) (c_upsert (cursor st)) [single_row sid pid prepared] ->
    on_upsert_reply sid pid conversation' reply
      (set_cursor (bump_upsert (cursor st2)) st2) = mkRun ok st3 e3 ->
    write_spec sid pid conversation st
      (mkRun (Returned ok, conversation') st3
             (evs ++ e2 ++ [EvUpsert [single_row sid pid prepared] reply] ++ e3)).

(** A store whose upserts all raise the given error; probes succeed. *)
Definition raising_world (etype msg : string) : World :=
  mkWorld (fun _ => true) (fun _ => InitReady) (fun _ _ => UpsertRaise etype msg)
          (fun _ => "2025-01-01T00:00:00+00:00") (fun _ => "uuid")
          (fun _ => 0%Z) (fun _ => None).

(** The retry item of the sample message [n], after [failures] failed
    retries. *)
Definition sample_item (n : nat) (failures : Z) : RetryItem :=
  let item := value (make_retry_item "session-1" "user" (user_message n)
                                     (idle_state calm_world)) in
  mkRetryItem (retry_timestamp item) (item_session_id item)
    (item_participant_id item) (item_conversation item)
    (item_raw_conversation item) (item_message_count item)
    (item_user_email item) (item_timestamp item) (item_email_sent item)
    failures.

(** A session whose retry queue holds [q]. *)
Definition queue_state (w : World) (q : list RetryItem) : State :=
  set_queue q (idle_state w).

(** ** The upserts a flush is expected to make *)

(** The row lists a pass over the groups [bs] sends when the store's
    upsert cursor stands at [n]: each group, followed by its rows one at a
    time when the group's upsert raises. *)
Fixpoint expected_upserts (w : World) (n : nat) (bs : list (list Row))
  : list (list Row) :=
  match bs with
  | [] => []
  | b :: bs' =>
      match w_upsert w n b with
      | UpsertRaise _ _ =>
          b :: map (fun row => [row]) b
            ++ expected_upserts w (n + 1 + List.length b) bs'
      | _ => b :: expected_upserts w (n + 1) bs'
      end
  end.

(** What a flush leaves alone: the world, the client, the agent, the
    session and the retry queue; the upsert cursor has moved by [k]. *)
Definition flush_frame (k : nat) (st st' : State) : Prop :=
  world st' = world st /\
  supabase st' = supabase st /\
  agent st' = agent st /\
  session_id st' = session_id st /\
  retry_queue st' = retry_queue st /\
  c_upsert (cursor st') = (c_upsert (cursor st) + k)%nat.

(** Effects that are log lines only. *)
Definition only_logs (evs : list Event) : Prop :=
  upserts_of evs = [] /\ probes_of evs = [] /\ sleeps_of evs = [].

(** A state in which a flush reaches its batch loop. *)
Definition flush_ready (st : State) (sid : string) (to_store_count : nat) : Prop :=
  supabase st = true /\
  session_id st = Some sid /\ sid <> EmptyString /\
  count_unstored (conversation_history st) = Some (S to_store_count).


(** A message whose metadata holds a live object, as a tool call can leave
    it: [json.dumps] rejects the message and accepts its reduced form. *)
Definition awkward_message : dict :=
  [("role", VStr "system");
   ("content", VStr "Search results");
   ("timestamp", VStr "2025-01-01T00:00:01+00:00");
   ("message_id", VStr "message-a");
   ("metadata", VDict [("type", VStr "web_search"); ("task", VObj "coroutine")])].

(** A message whose content itself is a live object: neither the message
    nor its reduced form can be encoded. *)
Definition hopeless_message : dict :=
  [("role", VStr "system");
   ("content", VObj "coroutine");
   ("timestamp", VStr "2025-01-01T00:00:02+00:00");
   ("message_id", VStr "message-b")].

(** ** The stored flag across a flush *)

(** [not msg.get("metadata", {}).get("stored", False)] *)
Definition unstored (msg : dict) : bool :=
  match stored_flag msg with
  | Some true => false
  | _ => true
  end.

(** The Log after the marking loop has run for [row]. *)
Definition mark_step (row : Row) (history : list dict) : list dict :=
  match mark_first row history with Some h' => h' | None => history end.

(** The Log after the marking loops have run for each row of [rows]. *)
Definition mark_all (rows : list Row) (history : list dict) : list dict :=
  fold_left (fun h row => mark_step row h) rows history.

(** What the marking test reads of a Log entry and of a row. *)
Definition key_of (msg : dict) : pyval * pyval :=
  (get_or "timestamp" VNone msg, get_or "role" (VStr "unknown") msg).

Definition row_key (row : Row) : pyval * pyval :=
  (row_timestamp row, row_participant_id row).

(** A Log entry as the producers of [main.py] build them: a timestamp and
    a role that are strings, and no participant_id of its own. *)
Definition well_keyed (msg : dict) : Prop :=
  (exists ts, dict_get "timestamp" msg = Some (VStr ts)) /\
  (exists role, dict_get "role" msg = Some (VStr role)) /\
  dict_get "participant_id" msg = None.

(** A message and what the collecting loop makes of it: itself, or itself
    with a fresh message_id. *)
Definition same_but_id (msg msg' : dict) : Prop :=
  msg' = msg \/
  (dict_has "message_id" msg = false /\
   exists fresh, msg' = dict_set "message_id" (VStr fresh) msg).

(** A store that raises on every upsert of exactly two rows and returns
    data for any other. *)
Definition pairs_fail_world : World :=
  mkWorld (fun _ => true) (fun _ => InitReady)
          (fun _ rows =>
             if Nat.eqb (List.length rows) 2 then UpsertRaise "APIError" "timeout"
             else UpsertData)
          (fun _ => "2025-01-01T00:00:00+00:00") (fun _ => "uuid")
          (fun _ => 0%Z) (fun _ => None).

(** A session whose Log holds the sample messages [0 .. n-1], all
    unstored. *)
Definition log_state (w : World) (n : nat) : State :=
  set_history (map user_message (seq 0 n)) (idle_state w).

(** Two messages that share their timestamp and role. *)
Definition twin_message (content : string) : dict :=
  [("role", VStr "system");
   ("content", VStr content);
   ("timestamp", VStr "2025-01-01T00:00:03+00:00");
   ("metadata", VDict [("stored", VBool false)])].

(** A wall clock that reads 1000 s when the watchdog starts and 1301 s at
    every later look; every ISO text of the Log parses to 1000 s. *)
Definition silent_world : World :=
  mkWorld (fun _ => true) (fun _ => InitReady) (fun _ _ => UpsertData)
          (fun _ => "2025-01-01T00:21:41+00:00") (fun _ => "uuid")
          (fun n => match n with O => 1000 | S _ => 1301 end%Z)
          (fun _ => Some 1000%Z).

(** What a timed-out round leaves of the Log. *)
Definition timed_out_history (st : State) : list dict :=
  if not_in_history (inactivity_message (clock st)) (conversation_history st)
  then conversation_history st ++ [inactivity_message (clock st)]
  else conversation_history st.

(** Everything a timed-out round does, in order. *)
Definition timed_out_effects (sid : string) (st : State) : list Event :=
  [EvSleep 120000; EvLog Warning "Auto-disconnect triggered after inactivity"]
  ++ (if not_in_history (inactivity_message (clock st)) (conversation_history st)
      then [EvSpawnStore sid "system" (inactivity_message (clock st))]
      else [])
  ++ [EvLog Error "Error during auto-disconnect"].

(** A session whose Log holds one message, right after the watchdog has
    read its starting time. *)
Definition watched_state : State := final (time_time (log_state silent_world 1)).

(** ** Reading an upsert's failure *)

(** ["duplicate key" in str(e).lower()], for what an upsert did: the test
    by which the [except] branch of the single write takes an error for a
    duplicate. *)
Definition duplicate_key_error (reply : upsert_reply) : bool :=
  match reply with
  | UpsertRaise _ error_message =>
      str_contains "duplicate key" (str_lower error_message)
  | _ => false
  end.

(** The text of the Kelvin sign, U+212A. *)
Definition kelvin_sign : string :=
  String (ascii_of_nat 226) (String (ascii_of_nat 132)
                               (String (ascii_of_nat 170) EmptyString)).

(** ** A single write made for an entry of the Log *)

(** [l[i] = x], for an index the list has. *)
Fixpoint list_set {A} (i : nat) (x : A) (l : list A) : list A :=
  match l, i with
  | [], _ => []
  | _ :: l', O => x :: l'
  | y :: l', S i' => y :: list_set i' x l'
  end.

(** [not conversation], for a dict. *)
Definition dict_is_empty (d : dict) : bool :=
  match d with
  | [] => true
  | _ :: _ => false
  end.

(** Every caller appends its message to [conversation_history] and hands
    the very same dict to [store_conversation_message] (main.py:1457-1464,
    1708-1718, 1848-1857, 2120-2127, 2204-2210, 2255-2262), so what the
    write sets on its argument (main.py:489-490) it sets on the entry of
    the Log.  [store_log_entry sid pid i] is the write made for the entry
    at index [i]: the dict the call leaves is the entry afterwards.
    Nothing reads the Log between the assignment and the end of the call,
    so the entry is put back at the end.  There is no write for an index
    the Log does not have. *)
Definition store_log_entry (sid pid : string) (i : nat)
  : M (option write_result) :=
  fun st =>
    match nth_error (conversation_history st) i with
    | None => mkRun None st []
    | Some conversation =>
        match store_conversation_message sid pid conversation st with
        | mkRun (result, conversation') st' evs =>
            mkRun (Some result)
                  (set_history (list_set i conversation' (conversation_history st')) st')
                  evs
        end
    end.

(** A message as the speech handlers build it before any write: it has no
    message_id yet. *)
Definition spoken_message : dict :=
  [("role", VStr "user");
   ("content", VStr "Hello");
   ("timestamp", VStr "2025-01-01T00:00:05+00:00");
   ("metadata", VDict [("type", VStr "user_speech"); ("stored", VBool false)])].

(** ** Samples for the retry processor *)

(** A store whose first two probes succeed and whose later ones fail, with
    no way to rebuild the client; the first upsert returns data, the later
    ones an error. *)
Definition moody_world : World :=
  mkWorld (fun k => (k <? 2)%nat) (fun _ => InitCreateFailed)
          (fun k _ => match k with O => UpsertData | S _ => UpsertError "rejected" end)
          (fun _ => "2025-01-01T00:00:00+00:00") (fun _ => "uuid")
          (fun _ => 0%Z) (fun _ => None).

(** ** Samples for the serialization fallback *)

(** A Log of three unstored messages: a plain one, one that only its
    reduced form can carry, and one that cannot be encoded at all. *)
Definition mixed_log : list dict :=
  [user_message 0; awkward_message; hopeless_message].

(** ** The rows a flush gets written *)

(** The rows of a group that the one-at-a-time fallback gets written when
    the store's upsert cursor stands at [n]: those whose own upsert returns
    data. *)
Fixpoint written_singles (w : World) (n : nat) (batch : list Row) : list Row :=
  match batch with
  | [] => []
  | row :: batch' =>
      match w_upsert w n [row] with
      | UpsertData => row :: written_singles w (S n) batch'
      | _ => written_singles w (S n) batch'
      end
  end.

(** The rows for which a pass over the groups [bs] runs its marking loop,
    in the order it does: all rows of a group whose upsert returns data,
    the rows the fallback gets written of a group whose upsert raises, and
    none of a group whose upsert returns no data. *)
Fixpoint written_rows (w : World) (n : nat) (bs : list (list Row)) : list Row :=
  match bs with
  | [] => []
  | b :: bs' =>
      match w_upsert w n b with
      | UpsertData => b ++ written_rows w (n + 1) bs'
      | UpsertRaise _ _ =>
          written_singles w (n + 1) b
            ++ written_rows w (n + 1 + List.length b) bs'
      | _ => written_rows w (n + 1) bs'
      end
  end.

(** The entry [msg] passes the marking test of one of [rows]. *)
Definition written_entry (rows : list Row) (msg : dict) : bool :=
  existsb (fun row => matches_row row msg) rows.

(** A store that answers every upsert with an error response. *)
Definition refusing_world : World :=
  mkWorld (fun _ => true) (fun _ => InitReady) (fun _ _ => UpsertError "rejected")
          (fun _ => "2025-01-01T00:00:00+00:00") (fun _ => "uuid")
          (fun _ => 0%Z) (fun _ => None).

(** A store that raises on every upsert of more than one row, and on the
    single upsert of any row but the first it is sent. *)
Definition grudging_world : World :=
  mkWorld (fun _ => true) (fun _ => InitReady)
          (fun k rows =>
             if (1 <? List.length rows)%nat then UpsertRaise "APIError" "timeout"
             else if (k =? 1)%nat then UpsertData
                  else UpsertRaise "APIError" "timeout")
          (fun _ => "2025-01-01T00:00:00+00:00") (fun _ => "uuid")
          (fun _ => 0%Z) (fun _ => None).

(** ** Reading the health monitor *)

(** The reply [init_supabase] would get now, and the answer the probing
    select would get now. *)
Definition next_init (st : State) : init_reply :=
  w_init (world st) (c_init (cursor st)).

Definition next_probe (st : State) : bool :=
  w_probe (world st) (c_probe (cursor st)).

(** [create_client] returned: the [supabase] global has been assigned. *)
Definition client_created (r : init_reply) : bool :=
  match r with
  | InitUnverified | InitQueryFailed | InitReady => true
  | _ => false
  end.

Definition init_ready (r : init_reply) : bool :=
  match r with InitReady => true | _ => false end.

(** ** Reading a drain of the retry queue *)

(** [kept] is [l] with some of its elements left out, the others in their
    order. *)
Inductive subseq {A : Type} : list A -> list A -> Prop :=
| subseq_nil : subseq [] []
| subseq_skip (x : A) (kept l : list A) : subseq kept l -> subseq kept (x :: l)
| subseq_keep (x : A) (kept l : list A) : subseq kept l -> subseq (x :: kept) (x :: l).

(** [response.data] is non-empty. *)
Definition is_data (r : upsert_reply) : bool :=
  match r with UpsertData => true | _ => false end.

(** [item.get("retry_count", 0) >= 5] *)
Definition exhausted (item : RetryItem) : bool := (5 <=? retry_count item)%Z.

Definition live (item : RetryItem) : bool := negb (exhausted item).

(** The upserts of a run that came back with data. *)
Definition stored_upserts (evs : list Event) : list (list Row * upsert_reply) :=
  filter (fun u => is_data (snd u)) (upserts_of evs).

(** The retry counts the processor can leave in the queue. *)
Definition counts_in_range (q : list RetryItem) : Prop :=
  Forall (fun item => (0 <= retry_count item <= 5)%Z) q.

(** A caller that drains the queue [times] times in a row and adds up what
    the drains return. *)
Fixpoint drain_times (times batch_size : nat) : M nat :=
  match times with
  | O => ret 0%nat
  | S times' =>
      stored <- process_retry_queue batch_size ;;
      stored' <- drain_times times' batch_size ;;
      ret (stored + stored')%nat
  end.

(** A store none of whose upserts ever comes back with data. *)
Definition never_data (w : World) : Prop :=
  forall (k : nat) (rows : list Row), w_upsert w k rows <> UpsertData.

(** The queue a drain of everything leaves when nothing can be stored. *)
Definition pushed_back (q : list RetryItem) : list RetryItem :=
  map bump_retry (filter live q).

(** The queue after [times] such drains, and the upserts they can make. *)
Fixpoint after_drains (times : nat) (q : list RetryItem) : list RetryItem :=
  match times with
  | O => q
  | S times' => after_drains times' (pushed_back q)
  end.

Fixpoint attempts_of_drains (times : nat) (q : list RetryItem) : nat :=
  match times with
  | O => 0
  | S times' =>
      List.length (filter live q) + attempts_of_drains times' (pushed_back q)
  end.

(** ** From the retry queue to the store *)

(** The reduced record [add_to_retry_queue] keeps of a message. *)
Definition queued_record (conversation : dict) (st : State) : dict :=
  safe_message_of conversation (clock st)
    (get_or "message_id" (VStr (w_uuid (world st) (c_uuid (cursor st))))
            conversation).

(** The row the retry processor sends for a message enqueued in [st]. *)
Definition retried_row (sid pid : string) (conversation : dict) (st : State) : Row :=
  mkRow sid (VStr pid) (JsonText (VDict (queued_record conversation st)))
        (get_or "content" (VStr "") conversation) 1 (VStr "")
        (get_or "timestamp" (VStr (clock st)) conversation) false.

(** A user message whose metadata carries the user's address. *)
Definition mailed_message : dict :=
  [("role", VStr "user");
   ("content", VStr "I would like to prepare for an interview");
   ("timestamp", VStr "2025-01-01T00:00:05+00:00");
   ("message_id", VStr "message-m");
   ("metadata", VDict [("type", VStr "user_speech"); ("stored", VBool false);
                       ("user_email", VStr "ada@example.org")])].

(** ** What a flush may change in a Log entry *)

(** [msg'] is [msg] but for a message_id it may have gained and a stored
    flag it may have gained: every other key, a message_id that was there,
    a stored flag that was set and the other keys of a metadata dict are as
    they were. *)
Definition flush_keeps (msg msg' : dict) : Prop :=
  (forall k, k <> "message_id" -> k <> "metadata" ->
             dict_get k msg' = dict_get k msg) /\
  (forall v, dict_get "message_id" msg = Some v ->
             dict_get "message_id" msg' = Some v) /\
  (stored_flag msg = Some true -> stored_flag msg' = Some true) /\
  (forall metadata, dict_get "metadata" msg = Some (VDict metadata) ->
     exists metadata',
       dict_get "metadata" msg' = Some (VDict metadata') /\
       forall k, k <> "stored" -> dict_get k metadata' = dict_get k metadata).

(** ** What a flush sends *)

(** [row] is a row for the Log entry [msg] of the session [sid]. *)
Definition row_of_message (sid : string) (msg : dict) (row : Row) : Prop :=
  row_session_id row = sid /\
  row_participant_id row = participant_of msg /\
  row_raw_conversation row = get_or "content" (VStr "") msg /\
  (exists now, row_timestamp row = get_or "timestamp" (VStr now) msg) /\
  row_message_count row = 1%Z /\
  row_email_sent row = false.

(** ** Callers of the flush *)

(** [ensure_storage_completed()], the definition at the end of the module,
    which is the one in force.  [store_full_conversation] catches what is
    raised inside it, so the [except] branch here is never entered. *)
Definition ensure_storage_completed : M bool :=
  store_full_conversation ;;
  log Info "Storage operation completed" ;;
  ret true.

(** [datetime.utcnow().isoformat()]: one more reading of the wall clock as
    ISO text. *)
Definition utcnow_isoformat : M string := get_current_timestamp.

(** The test of the duplicate search in [store_assistant_message]:
    [existing_msg.get('role') == 'assistant' and
     existing_msg.get('content') == msg_content]. *)
Definition is_assistant_duplicate (msg_content : string) (existing_msg : dict)
  : bool :=
  py_eqb (get_or "role" VNone existing_msg) (VStr "assistant") &&
  py_eqb (get_or "content" VNone existing_msg) (VStr msg_content).

(** The [assistant_message] dict it builds. *)
Definition assistant_message_of (msg_content event_type stamp : string) : dict :=
  [("role", VStr "assistant");
   ("content", VStr msg_content);
   ("timestamp", VStr stamp);
   ("metadata", VDict [("type", VStr "response"); ("event", VStr event_type)])].

(** [store_assistant_message(msg_content, event_type)].  Nothing inside its
    [try] raises on a Log of dicts, the flush catching its own errors. *)
Definition store_assistant_message (msg_content event_type : string) : M unit :=
  st <- get_state ;;
  if existsb (is_assistant_duplicate msg_content) (conversation_history st) then
    log Info "Skipping duplicate assistant message"
  else
    stamp <- utcnow_isoformat ;;
    modify (fun st =>
              set_history
                (conversation_history st
                 ++ [assistant_message_of msg_content event_type stamp]) st) ;;
    store_full_conversation ;;
    log Info "Added assistant message to conversation history".

(** ** Reading the watchdog *)

(** The state after [n] readings of [time.time()]. *)
Definition after_time_reads (n : nat) (st : State) : State :=
  set_cursor
    (mkCursor (c_probe (cursor st)) (c_init (cursor st)) (c_upsert (cursor st))
              (c_clock (cursor st)) (c_uuid (cursor st)) (n + c_time (cursor st)))
    st.

(** An activity time that [time.time() - last_activity_time] can take.
    The time of the last entry is an int when the entry's timestamp is one,
    and the subtraction converts it to a float: beyond 2^1024 that raises
    [OverflowError], which ends the watchdog.  The bound keeps well inside
    the floats. *)
Definition fits_float (t : Z) : bool := (Z.abs t <=? 2 ^ 1023)%Z.

(** [conversation_history.extend(arrived)]: the messages the session
    appends to the Log while the watchdog sleeps. *)
Definition arrive (arrived : list dict) : M unit :=
  modify (fun st => set_history (conversation_history st ++ arrived) st).

(** The watchdog at work in a live session: one round for each element of
    [arrivals], which holds the messages appended to the Log during that
    round's sleep. *)
Fixpoint watched_rounds (sid : string) (last_activity_time : Z)
  (arrivals : list (list dict)) : M watch_result :=
  match arrivals with
  | [] => ret (Watching last_activity_time)
  | arrived :: arrivals' =>
      arrive arrived ;;
      r <- watchdog_round sid last_activity_time ;;
      match r with
      | Watching last_activity_time' =>
          watched_rounds sid last_activity_time' arrivals'
      | LoopLeft => ret LoopLeft
      end
  end.

(** The session stays active through the rounds of [arrivals]: in each
    round the last entry of the Log can be dated, the activity time the
    round arrives at can be subtracted from the clock, and the clock the
    round reads is at most 300 s past it. *)
Fixpoint stays_active (last_activity_time : Z) (arrivals : list (list dict))
  (st : State) : bool :=
  match arrivals with
  | [] => true
  | arrived :: arrivals' =>
      let st1 := set_history (conversation_history st ++ arrived) st in
      match refresh_activity st1 last_activity_time with
      | Some t =>
          fits_float t
          && (w_time (world st) (c_time (cursor st)) - t <=? inactivity_threshold)%Z
          && stays_active t arrivals' (after_time_reads 1 st1)
      | None => false
      end
  end.

(** The time of what [stamp]ed messages of the samples say: the sample
    message 1 is stamped 1230 s, the sample message 2 is stamped 1470 s,
    every other one 1000 s. *)
Definition sample_parse (stamp : string) : option Z :=
  if String.eqb stamp "2025-01-01T00:00:00.1+00:00" then Some 1230%Z
  else if String.eqb stamp "2025-01-01T00:00:00.2+00:00" then Some 1470%Z
       else Some 1000%Z.

(** A wall clock that reads 1000 s at first and 120 s more at each later
    look. *)
Definition ticking_world : World :=
  mkWorld (fun _ => true) (fun _ => InitReady) (fun _ _ => UpsertData)
          (fun _ => "2025-01-01T00:00:00+00:00") (fun _ => "uuid")
          (fun n => 1000 + 120 * Z.of_nat n)%Z
          sample_parse.

(** A session whose Log holds the sample message 0, right after the
    watchdog has read its starting time of 1000 s. *)
Definition ticking_state : State := final (time_time (log_state ticking_world 1)).

(** A message whose timestamp is a live [datetime] object instead of its
    ISO text. *)
Definition datetime_message : dict :=
  [("role", VStr "system");
   ("content", VStr "Search results");
   ("timestamp", VObj "datetime")].

(** ** Background tasks *)

(** [hasattr(agent, 'should_pause_background_tasks') and
     agent.should_pause_background_tasks()].  The attribute is the lambda
    [lambda: agent.is_speaking], which [run_multimodal_agent] installs
    right after [is_speaking]. *)
Definition should_pause_background_tasks (st : State) : bool :=
  agent_is_speaking st.

(** The test by which the periodic tasks skip a round. *)
Definition background_paused (st : State) : bool :=
  agent_is_speaking st || should_pause_background_tasks st.

(** One round of the [while True] of [periodic_retry_processor]. *)
Definition retry_processor_round : M unit :=
  sleep 180000 ;;
  st <- get_state ;;
  match retry_queue st with
  | [] => ret tt
  | _ :: _ =>
      if background_paused st then
        log Debug "Skipping retry processing during active speech"
      else
        ok <- init_supabase ;;
        if ok then
          _ <- process_retry_queue 5 ;;
          ret tt
        else
          log Warning "Skipping retry processing due to Supabase connection issues"
  end.

Fixpoint retry_processor_rounds (rounds : nat) : M unit :=
  match rounds with
  | O => ret tt
  | S rounds' => retry_processor_round ;; retry_processor_rounds rounds'
  end.

(** [periodic_retry_processor()], for [rounds] rounds. *)
Definition periodic_retry_processor (rounds : nat) : M unit :=
  sleep 30000 ;;
  retry_processor_rounds rounds.

(** A store that answers every call: the client can be built, the probe
    succeeds and every upsert returns data. *)
Definition always_ready (w : World) : Prop :=
  (forall k, w_init w k = InitReady) /\
  (forall k, w_probe w k = true) /\
  (forall k rows, w_upsert w k rows = UpsertData).

(** An item the processor can send: it has failed fewer than five times
    and its record can be encoded. *)
Definition sendable (item : RetryItem) : Prop :=
  (retry_count item < 5)%Z /\
  serializable (VDict (item_conversation item)) = true.

(** ** The periodic saver *)

(** How one round of [periodic_conversation_saver] ends: the loop goes on,
    having spawned a flush as a background task or not, or an exception
    has left it. *)
Inductive saver_step : Type :=
| SaverGoesOn (spawned_flush : bool)
| SaverLeft.

(** One round of the [while True] of [periodic_conversation_saver]. *)
Definition saver_round : M saver_step :=
  sleep 60000 ;;
  st <- get_state ;;
  if background_paused st then
    log Debug "Skipping periodic save during active speech" ;;
    ret (SaverGoesOn false)
  else
    match conversation_history st with
    | [] => ret (SaverGoesOn false)
    | _ :: _ =>
        match count_unstored (conversation_history st) with
        | None =>
            log Error "Error in periodic conversation saver" ;;
            ret SaverLeft
        | Some O =>
            log Debug "Periodic save: All messages already saved" ;;
            ret (SaverGoesOn false)
        | Some (S _) =>
            log Info "Periodic save: Found unsaved messages" ;;
            ret (SaverGoesOn true)
        end
    end.

(** A message whose metadata is None instead of a dict. *)
Definition bare_message : dict :=
  [("role", VStr "system");
   ("content", VStr "Session resumed");
   ("timestamp", VStr "2025-01-01T00:00:07+00:00");
   ("metadata", VNone)].

(** ** Shutdown *)

(** The storage steps of the [finally] block of [run_multimodal_agent],
    which follow the cancelling of the background tasks: a last
    [ensure_storage_completed()], then one [process_retry_queue()] with its
    default batch size when the queue is not empty.  Neither raises, so the
    [except] branches around them are never entered. *)
Definition final_storage : M unit :=
  _ <- ensure_storage_completed ;;
  st <- get_state ;;
  match retry_queue st with
  | [] => ret tt
  | _ :: _ => _ <- process_retry_queue 10 ;; ret tt
  end ;;
  log Info "Agent shutdown complete".

(** * Whitespace clean-up (fix_whitespace.py) *)

(** A Python [str] is a sequence of code points. *)
Definition text : Type := list N.

Definition newline : N := 10.

(** The code points [str.strip] and [str.rstrip] remove when called
    without argument, which are those for which [str.isspace] holds:
    U+0009..U+000D, U+001C..U+0020, U+0085, U+00A0, U+1680,
    U+2000..U+200A, U+2028, U+2029, U+202F, U+205F and U+3000. *)
Definition isspace (c : N) : bool :=
  ((9 <=? c) && (c <=? 13) || (28 <=? c) && (c <=? 32) ||
   (c =? 133) || (c =? 160) || (c =? 5760) ||
   (8192 <=? c) && (c <=? 8202) ||
   (c =? 8232) || (c =? 8233) || (c =? 8239) || (c =? 8287) || (c =? 12288))%N.

(** [s.lstrip()] *)
Fixpoint lstrip (s : text) : text :=
  match s with
  | [] => []
  | c :: s' => if isspace c then lstrip s' else s
  end.

(** [s.rstrip()]: [s] without its longest suffix of whitespace. *)
Fixpoint rstrip (s : text) : text :=
  match s with
  | [] => []
  | c :: s' =>
      match rstrip s' with
      | [] => if isspace c then [] else [c]
      | kept => c :: kept
      end
  end.

(** [s.strip()] *)
Definition strip (s : text) : text := lstrip (rstrip s).

(** The body of the loop of [remove_trailing_whitespace]: what is appended
    to [cleaned_lines] for [line]. *)
Definition cleaned_line (line : text) : text :=
  match strip line with
  | [] => [newline]
  | _ :: _ => rstrip line ++ [newline]
  end.

(** [remove_trailing_whitespace(file_path)], from the lines [readlines()]
    returned to the lines handed to [writelines]. *)
Definition remove_trailing_whitespace (lines : list text) : list text :=
  map cleaned_line lines.

(** No trailing whitespace: the last code point, if any, is not
    whitespace. *)
Definition ends_clean (s : text) : Prop :=
  forall (front : text) (c : N), s = front ++ [c] -> isspace c = false.

(** * Properties *)

(** ** Lists *)

Lemma keep_newest_short {A} (n : nat) (q : list A) :
  (List.length q <= n)%nat -> keep_newest n q = q.
Proof.
  intros H. unfold keep_newest.
  replace (List.length q - n)%nat with 0%nat by lia. reflexivity.
Qed.

Lemma keep_newest_length {A} (n : nat) (q : list A) :
  List.length (keep_newest n q) = Nat.min n (List.length q).
Proof. unfold keep_newest. rewrite length_skipn. lia. Qed.

Lemma keep_newest_app {A} (n : nat) (a b : list A) :
  keep_newest n (keep_newest n a ++ b) = keep_newest n (a ++ b).
Proof.
  destruct (Nat.le_gt_cases (List.length a) n) as [Hle | Hgt].
  - rewrite (keep_newest_short n a Hle). reflexivity.
  - unfold keep_newest at 1 3.
    rewrite !length_app, keep_newest_length.
    replace (Nat.min n (List.length a)) with n by lia.
    replace (n + List.length b - n)%nat with (List.length b) by lia.
    unfold keep_newest.
    rewrite !skipn_app, skipn_skipn, length_skipn.
    f_equal; f_equal; lia.
Qed.

Lemma keep_newest_last {A} (n : nat) (q : list A) (x : A) :
  (0 < n)%nat -> In x (keep_newest n (q ++ [x])).
Proof.
  intros Hn. unfold keep_newest. rewrite length_app. simpl.
  rewrite skipn_app.
  apply in_or_app. right.
  replace (List.length q + 1 - n - List.length q)%nat with 0%nat by lia.
  simpl. auto.
Qed.

Lemma distinct_strings_NoDup (l : list string) :
  distinct_strings l = true -> NoDup l.
Proof.
  induction l as [| s l IH]; intros H; [constructor |].
  cbn in H. apply andb_true_iff in H. destruct H as [Hs Hl].
  constructor; [| exact (IH Hl)].
  intros Hin. apply negb_true_iff in Hs.
  assert (Hex : existsb (String.eqb s) l = true).
  { apply existsb_exists. exists s. split; [exact Hin | apply String.eqb_refl]. }
  congruence.
Qed.

(** ** Retry queue *)

Lemma make_retry_item_run (sid pid : string) (conversation : dict) (st : State) :
  make_retry_item sid pid conversation st
  = mkRun
      (let safe_message :=
         safe_message_of conversation
           (w_clock (world st) (c_clock (cursor st)))
           (get_or "message_id" (VStr (w_uuid (world st) (c_uuid (cursor st))))
                   conversation) in
       mkRetryItem (w_clock (world st) (S (c_clock (cursor st)))) sid pid
         safe_message (get_or "content" (VStr "") safe_message) 1 ""
         (get_or "timestamp" VNone safe_message) false 0)
      (set_cursor (bump_clock (bump_uuid (bump_clock (cursor st)))) st)
      [].
Proof. reflexivity. Qed.

(** An enqueue, in one equation: the item appended, the newest 1000 kept. *)
Lemma add_to_retry_queue_run (sid pid : string) (conversation : dict) (st : State) :
  add_to_retry_queue sid pid conversation st
  = mkRun true
      (set_queue
         (keep_newest MAX_RETRY_QUEUE_SIZE
            (retry_queue st ++ [value (make_retry_item sid pid conversation st)]))
         (set_cursor (bump_clock (bump_uuid (bump_clock (cursor st)))) st))
      [EvLog Info "Added message to retry queue"].
Proof.
  unfold add_to_retry_queue, bind. rewrite make_retry_item_run.
  cbn [modify get_state value final set_queue set_cursor retry_queue].
  match goal with |- context [if ?c then _ else _] => destruct c eqn:Hc end.
  - reflexivity.
  - cbn. apply Nat.ltb_ge in Hc. rewrite keep_newest_short by exact Hc.
    reflexivity.
Qed.

Lemma enqueued_eq (sid pid : string) (conversation : dict) (st : State) :
  enqueued sid pid conversation st
  = set_queue
      (keep_newest MAX_RETRY_QUEUE_SIZE
         (retry_queue st ++ [value (make_retry_item sid pid conversation st)]))
      (set_cursor (bump_clock (bump_uuid (bump_clock (cursor st)))) st).
Proof. unfold enqueued. rewrite add_to_retry_queue_run. reflexivity. Qed.

Lemma add_to_retry_queue_queue (sid pid : string) (conversation : dict) (st : State) :
  retry_queue (final (add_to_retry_queue sid pid conversation st))
  = keep_newest MAX_RETRY_QUEUE_SIZE
      (retry_queue st ++ [value (make_retry_item sid pid conversation st)]).
Proof. rewrite add_to_retry_queue_run. reflexivity. Qed.

Lemma add_to_retry_queue_effects (sid pid : string) (conversation : dict) (st : State) :
  effects (add_to_retry_queue sid pid conversation st)
  = [EvLog Info "Added message to retry queue"].
Proof. rewrite add_to_retry_queue_run. reflexivity. Qed.

Lemma make_retry_item_count (sid pid : string) (conversation : dict) (st : State) :
  retry_count (value (make_retry_item sid pid conversation st)) = 0%Z.
Proof. reflexivity. Qed.

Lemma enqueue_all_queue (msgs : list (string * string * dict)) :
  forall st,
    retry_queue (final (enqueue_all msgs st))
    = match msgs with
      | [] => retry_queue st
      | _ => keep_newest MAX_RETRY_QUEUE_SIZE (retry_queue st ++ enqueued_items msgs st)
      end.
Proof.
  induction msgs as [| [[sid pid] conversation] msgs IH]; intros st.
  - reflexivity.
  - cbn [enqueue_all enqueued_items]. unfold bind.
    destruct (add_to_retry_queue sid pid conversation st) as [b st1 e1] eqn:E1.
    destruct (enqueue_all msgs st1) as [u st2 e2] eqn:E2.
    assert (Hst1 : st1 = final (add_to_retry_queue sid pid conversation st))
      by (rewrite E1; reflexivity).
    assert (Hst2 : st2 = final (enqueue_all msgs st1))
      by (rewrite E2; reflexivity).
    cbn [final]. rewrite Hst2, IH, Hst1. destruct msgs as [| m msgs'].
    + rewrite add_to_retry_queue_queue. reflexivity.
    + rewrite add_to_retry_queue_queue.
      rewrite keep_newest_app. rewrite <- app_assoc. reflexivity.
Qed.

Lemma enqueued_items_length (msgs : list (string * string * dict)) :
  forall st, List.length (enqueued_items msgs st) = List.length msgs.
Proof.
  induction msgs as [| [[sid pid] conversation] msgs IH]; intros st; cbn.
  - reflexivity.
  - now rewrite IH.
Qed.

(** C3. After any enqueue the retry queue holds at most 1000 items; and
    1001 enqueues into an empty queue leave exactly the last 1000 items
    built: the 1001st is in the queue and, the items being distinct, the
    1st is not. *)
Theorem retry_queue_bounded :
  (forall sid pid conversation st,
      (List.length (retry_queue (final (add_to_retry_queue sid pid conversation st)))
       <= 1000)%nat) /\
  (forall msgs st,
      retry_queue st = [] ->
      List.length msgs = 1001%nat ->
      let items := enqueued_items msgs st in
      let q := retry_queue (final (enqueue_all msgs st)) in
      List.length q = 1000%nat /\
      q = skipn 1 items /\
      (forall x, nth_error items 1000 = Some x -> In x q) /\
      (NoDup items -> forall x, nth_error items 0 = Some x -> ~ In x q)).
Proof.
  split.
  - intros. rewrite add_to_retry_queue_queue, keep_newest_length.
    unfold MAX_RETRY_QUEUE_SIZE. lia.
  - intros msgs st Hq Hlen items q.
    assert (Hitems : List.length items = 1001%nat)
      by (unfold items; rewrite enqueued_items_length; exact Hlen).
    assert (Hqeq : q = skipn 1 items).
    { unfold q. rewrite enqueue_all_queue.
      destruct msgs as [| m msgs']; [discriminate Hlen |].
      rewrite Hq. cbn [app]. fold items. unfold keep_newest.
      rewrite Hitems. reflexivity. }
    split; [| split; [exact Hqeq | split]].
    + rewrite Hqeq, length_skipn. lia.
    + intros x Hx. rewrite Hqeq.
      apply (nth_error_In _ 999). rewrite nth_error_skipn. exact Hx.
    + intros Hnd x Hx. rewrite Hqeq.
      destruct items as [| i0 rest]; [discriminate Hitems |].
      cbn [nth_error] in Hx. cbn [skipn]. inversion Hx; subst x.
      inversion Hnd; assumption.
Qed.

(** The bound at work on 1001 user messages that differ in what was said. *)
Lemma retry_queue_bounded_witness :
  let msgs := msgs1001 in
  let st := idle_state down_world in
  let items := enqueued_items msgs st in
  let q := retry_queue (final (enqueue_all msgs st)) in
  retry_queue st = [] /\ List.length msgs = 1001%nat /\ NoDup items /\
  List.length q = 1000%nat /\
  (forall x, nth_error items 1000 = Some x -> In x q) /\
  (forall x, nth_error items 0 = Some x -> ~ In x q).
Proof.
  intros msgs st items q.
  assert (Hq : retry_queue st = []) by reflexivity.
  assert (Hlen : List.length msgs = 1001%nat) by (vm_compute; reflexivity).
  assert (Hnd : NoDup items).
  { apply (NoDup_map_inv (fun i => text_of (item_raw_conversation i))).
    apply distinct_strings_NoDup. vm_compute. reflexivity. }
  pose proof (proj2 retry_queue_bounded msgs st Hq Hlen) as H.
  cbv zeta in H.
  destruct H as (H1 & _ & H3 & H4).
  split; [exact Hq |].
  split; [exact Hlen |].
  split; [exact Hnd |].
  split; [exact H1 |].
  split; [exact H3 |].
  exact (H4 Hnd).
Defined.

(** ** Single-message writes *)

(** C10. While the agent is speaking, a write for participant "system"
    enqueues the message and returns False at once: it makes no health probe
    and no upsert, and the item it enqueues has retry_count 0. *)
Theorem speaking_system_write_deferred :
  forall (st : State) (sid : string) (conversation : dict),
    agent_is_speaking st = true ->
    let r := store_conversation_message sid "system" conversation st in
    let item := value (make_retry_item sid "system" conversation st) in
    value r = (Returned false, conversation) /\
    probes_of (effects r) = [] /\
    upserts_of (effects r) = [] /\
    retry_queue (final r)
      = keep_newest MAX_RETRY_QUEUE_SIZE (retry_queue st ++ [item]) /\
    In item (retry_queue (final r)) /\
    item_conversation item
      = safe_message_of conversation
          (w_clock (world st) (c_clock (cursor st)))
          (get_or "message_id" (VStr (w_uuid (world st) (c_uuid (cursor st))))
                  conversation) /\
    retry_count item = 0%Z.
Proof.
  intros st sid conversation Hspeak r item.
  assert (Hr : r = mkRun (Returned false, conversation)
                  (final (add_to_retry_queue sid "system" conversation st))
                  [EvLog Info "Added message to retry queue"]).
  { unfold r, store_conversation_message, bind at 1.
    cbn [get_state]. rewrite Hspeak. cbn [andb String.eqb Ascii.eqb Bool.eqb].
    unfold bind. rewrite add_to_retry_queue_run. reflexivity. }
  rewrite Hr. cbn [value final effects].
  rewrite add_to_retry_queue_queue.
  fold item.
  repeat split; try reflexivity.
  apply keep_newest_last. unfold MAX_RETRY_QUEUE_SIZE. lia.
Qed.

Lemma speaking_system_write_deferred_witness :
  let st := speaking_state calm_world in
  let r := store_conversation_message "session-1" "system" (user_message 7) st in
  agent_is_speaking st = true /\
  value r = (Returned false, user_message 7) /\
  probes_of (effects r) = [] /\
  upserts_of (effects r) = [] /\
  List.length (retry_queue (final r)) = 1%nat.
Proof.
  intros st r.
  assert (Hspeak : agent_is_speaking st = true) by reflexivity.
  pose proof (speaking_system_write_deferred st "session-1" (user_message 7) Hspeak) as H.
  cbv zeta in H. destruct H as (H1 & H2 & H3 & H4 & _).
  split; [exact Hspeak |].
  split; [exact H1 |].
  split; [exact H2 |].
  split; [exact H3 |].
  unfold r. rewrite H4. reflexivity.
Defined.

(** ** Health monitor *)

(** What a health probe does: it answers, makes at least one probing call,
    no upsert and no sleep, and touches only the client and its own
    cursors. *)
Lemma check_supabase_health_run (st : State) :
  exists ok sup cp ci evs,
    check_supabase_health st = mkRun ok (after_health st sup cp ci) evs /\
    upserts_of evs = [] /\ probes_of evs <> [] /\ sleeps_of evs = [] /\
    (ok = true -> sup = true).
Proof.
  assert (Hstate : forall cp ci, after_health st (supabase st) cp ci
            = set_cursor (mkCursor cp ci (c_upsert (cursor st)) (c_clock (cursor st))
                                   (c_uuid (cursor st)) (c_time (cursor st))) st)
    by reflexivity.
  unfold check_supabase_health, bind. cbn [get_state].
  destruct (supabase st) eqn:Hsup; cbn [negb].
  - unfold select_probe.
    destruct (w_probe (world st) (c_probe (cursor st))) eqn:Hprobe.
    + cbn. exists true, true. do 3 eexists.
      split; [rewrite Hstate; reflexivity |].
      split; [reflexivity |]. split; [discriminate |]. split; reflexivity.
    + unfold init_supabase. cbn.
      destruct (w_init _ _); cbn.
      1-3: exists false, true; do 3 eexists;
        (split; [rewrite Hstate; reflexivity |]);
        (split; [reflexivity |]); (split; [discriminate |]);
        (split; [reflexivity | discriminate]).
      1-2: exists false, true; do 3 eexists;
        (split; [unfold after_health; reflexivity |]);
        (split; [reflexivity |]); (split; [discriminate |]);
        (split; [reflexivity | discriminate]).
      exists true, true; do 3 eexists.
      split; [unfold after_health; reflexivity |].
      split; [reflexivity |]. split; [discriminate |]. split; reflexivity.
  - unfold init_supabase. cbn.
    destruct (w_init _ _); cbn.
    1-3: exists false, false; do 3 eexists;
      (split; [rewrite Hstate; reflexivity |]);
      (split; [reflexivity |]); (split; [discriminate |]);
      (split; [reflexivity | discriminate]).
    1-2: exists false, true; do 3 eexists;
      (split; [unfold after_health; reflexivity |]);
      (split; [reflexivity |]); (split; [discriminate |]);
      (split; [reflexivity | discriminate]).
    exists true, true; do 3 eexists.
    split; [unfold after_health; reflexivity |].
    split; [reflexivity |]. split; [discriminate |]. split; reflexivity.
Qed.

(** ** Effects *)

Lemma upserts_of_app (a b : list Event) :
  upserts_of (a ++ b) = upserts_of a ++ upserts_of b.
Proof.
  induction a as [| e a IH]; [reflexivity |].
  destruct e; cbn; rewrite ?IH; reflexivity.
Qed.

Lemma probes_of_app (a b : list Event) :
  probes_of (a ++ b) = probes_of a ++ probes_of b.
Proof.
  induction a as [| e a IH]; [reflexivity |].
  destruct e; cbn; rewrite ?IH; reflexivity.
Qed.

Lemma sleeps_of_app (a b : list Event) :
  sleeps_of (a ++ b) = sleeps_of a ++ sleeps_of b.
Proof.
  induction a as [| e a IH]; [reflexivity |].
  destruct e; cbn; rewrite ?IH; reflexivity.
Qed.

Lemma in_upserts_of (rows : list Row) (r : upsert_reply) (evs : list Event) :
  In (EvUpsert rows r) evs <-> In (rows, r) (upserts_of evs).
Proof.
  induction evs as [| e evs IH]; [cbn; tauto |].
  destruct e; cbn [upserts_of In]; rewrite <- ?IH;
    split; intros H; intuition (try discriminate; try congruence).
Qed.

Lemma health_effects (st st' : State) (ok : bool) (evs : list Event) :
  check_supabase_health st = mkRun ok st' evs ->
  upserts_of evs = [] /\ probes_of evs <> [] /\ sleeps_of evs = [].
Proof.
  intros H.
  destruct (check_supabase_health_run st)
    as (ok' & sup & cp & ci & evs' & Eh & Hu & Hp & Hs & _).
  rewrite Eh in H. inversion H; subst. auto.
Qed.

(** ** Dicts and strings *)

Lemma dict_get_set_other (k k' : string) (v : pyval) (d : dict) :
  k <> k' -> dict_get k (dict_set k' v d) = dict_get k d.
Proof.
  intros Hk. induction d as [| [k0 v0] d IH]; cbn.
  - destruct (String.eqb_spec k k'); [contradiction | reflexivity].
  - destruct (String.eqb_spec k' k0) as [-> | Hne]; cbn.
    + destruct (String.eqb_spec k k0); [contradiction | reflexivity].
    + destruct (String.eqb_spec k k0); [reflexivity | exact IH].
Qed.

Lemma get_or_with_message_id (k : string) (default message_id : pyval) (d : dict) :
  k <> "message_id" ->
  get_or k default (with_message_id d message_id) = get_or k default d.
Proof.
  intros Hk. unfold with_message_id, get_or.
  destruct (dict_has "message_id" d); [reflexivity |].
  now rewrite dict_get_set_other.
Qed.

Lemma str_lower_plain_head (c : ascii) (s : string) :
  plain_ascii c = true -> str_lower (String c s) = String c (str_lower s).
Proof.
  unfold plain_ascii. intros H. apply andb_true_iff in H. destruct H as (Hlt & Heq).
  apply Nat.ltb_lt in Hlt. apply Ascii.eqb_eq in Heq.
  assert (H196 : is_byte 196 c = false) by (unfold is_byte; apply Nat.eqb_neq; lia).
  assert (H226 : is_byte 226 c = false) by (unfold is_byte; apply Nat.eqb_neq; lia).
  cbn [str_lower]. rewrite H196, H226, Heq. cbn [andb].
  destruct s as [| c1 s2]; [reflexivity |].
  destruct s2 as [| c2 s3]; reflexivity.
Qed.

Lemma str_prefix_plain (needle : string) :
  plain_text needle = true ->
  forall s, str_prefix needle s = true -> str_prefix needle (str_lower s) = true.
Proof.
  induction needle as [| a needle IH]; intros Hplain s H; [reflexivity |].
  cbn [plain_text] in Hplain. apply andb_true_iff in Hplain.
  destruct Hplain as (Ha & Hrest).
  destruct s as [| c s]; [discriminate H |].
  cbn [str_prefix] in H. apply andb_true_iff in H. destruct H as (Hac & Hps).
  apply Ascii.eqb_eq in Hac. subst c.
  rewrite (str_lower_plain_head a s Ha). cbn [str_prefix].
  rewrite Ascii.eqb_refl, (IH Hrest s Hps). reflexivity.
Qed.

Lemma str_contains_cons (needle : string) (c : ascii) (s : string) :
  str_contains needle s = true -> str_contains needle (String c s) = true.
Proof. intros H. cbn [str_contains]. rewrite H. apply orb_true_r. Qed.

Lemma str_prefix_head (a c : ascii) (needle s : string) :
  str_prefix (String a needle) (String c s) = true -> c = a.
Proof.
  cbn [str_prefix]. intros H. apply andb_true_iff in H. destruct H as (H & _).
  apply Ascii.eqb_eq in H. congruence.
Qed.

Lemma plain_ascii_not_byte (n : nat) (c : ascii) :
  (128 <= n)%nat -> plain_ascii c = true -> is_byte n c = false.
Proof.
  unfold plain_ascii, is_byte. intros Hn H.
  apply andb_true_iff in H. destruct H as (Hlt & _).
  apply Nat.ltb_lt in Hlt. apply Nat.eqb_neq. lia.
Qed.

(** A word of plain ASCII characters that a text contains is still there
    once the text is lowered. *)
Lemma str_contains_plain (needle : string) :
  plain_text needle = true ->
  forall s, str_contains needle s = true -> str_contains needle (str_lower s) = true.
Proof.
  intros Hplain.
  destruct needle as [| a needle'] eqn:En.
  { intros s _. destruct (str_lower s); reflexivity. }
  rewrite <- En in *.
  assert (Ha : plain_ascii a = true).
  { rewrite En in Hplain. cbn in Hplain. apply andb_true_iff in Hplain. tauto. }
  assert (Hmain : forall n s, (String.length s <= n)%nat ->
            str_contains needle s = true ->
            str_contains needle (str_lower s) = true).
  { induction n as [| n IH]; intros s Hlen H.
    - destruct s; [| cbn in Hlen; lia].
      cbn in H |- *. rewrite En in H. cbn in H. discriminate H.
    - destruct s as [| c s1].
      { cbn in H |- *. rewrite En in H. cbn in H. discriminate H. }
      cbn [String.length] in Hlen.
      cbn [str_contains] in H. apply orb_true_iff in H.
      destruct H as [Hpre | Hin].
      + assert (Hp := str_prefix_plain needle Hplain _ Hpre).
        destruct (str_lower (String c s1)); cbn [str_contains]; rewrite Hp; reflexivity.
      + assert (Hkeep : str_contains needle (String (lower_ascii c) (str_lower s1)) = true).
        { apply str_contains_cons. apply IH; [lia | exact Hin]. }
        cbn [str_lower].
        destruct s1 as [| c1 s2]; [exact Hkeep |].
        cbn [String.length] in Hlen.
        cbn [str_contains] in Hin. apply orb_true_iff in Hin.
        destruct (is_byte 196 c && is_byte 176 c1) eqn:Hi.
        * apply andb_true_iff in Hi. destruct Hi as (_ & Hc1).
          destruct Hin as [Hpre1 | Hin2].
          -- rewrite En in Hpre1. apply str_prefix_head in Hpre1. subst c1.
             rewrite (plain_ascii_not_byte 176 a) in Hc1 by (lia || exact Ha).
             discriminate Hc1.
          -- do 3 apply str_contains_cons. apply IH; [lia | exact Hin2].
        * destruct s2 as [| c2 s3]; [exact Hkeep |].
          cbn [String.length] in Hlen.
          destruct (is_byte 226 c && is_byte 132 c1 && is_byte 170 c2) eqn:Hk;
            [| exact Hkeep].
          apply andb_true_iff in Hk. destruct Hk as (Hk & Hc2).
          apply andb_true_iff in Hk. destruct Hk as (_ & Hc1).
          destruct Hin as [Hpre1 | Hin2].
          -- rewrite En in Hpre1. apply str_prefix_head in Hpre1. subst c1.
             rewrite (plain_ascii_not_byte 132 a) in Hc1 by (lia || exact Ha).
             discriminate Hc1.
          -- cbn [str_contains] in Hin2. apply orb_true_iff in Hin2.
             destruct Hin2 as [Hpre2 | Hin3].
             ++ rewrite En in Hpre2. apply str_prefix_head in Hpre2. subst c2.
                rewrite (plain_ascii_not_byte 170 a) in Hc2 by (lia || exact Ha).
                discriminate Hc2.
             ++ apply str_contains_cons. apply IH; [lia | exact Hin3]. }
  intros s. apply (Hmain (String.length s) s). lia.
Qed.

(** ** The single-message write, path by path *)

Lemma serialize_message_run (conversation : dict) (message_id : pyval) (st : State) :
  serialize_message conversation message_id st
  = if serializable (VDict conversation) then
      mkRun (Some (JsonText (VDict conversation),
                   get_or "content" (VStr "") conversation,
                   user_email_of conversation,
                   get_or "timestamp" (VStr (clock st)) conversation))
            (tick st) []
    else
      let safe_message := safe_message_of conversation (clock st) message_id in
      if serializable (VDict safe_message) then
        mkRun (Some (JsonText (VDict safe_message),
                     get_or "content" (VStr "") safe_message,
                     VStr "",
                     get_or "timestamp" (VStr (clock (tick st))) safe_message))
              (tick (tick st))
              [EvLog Error "Failed to serialize message data"]
      else
        mkRun None (tick st) [EvLog Error "Failed to serialize message data"].
Proof.
  unfold serialize_message, json_dumps.
  destruct (serializable (VDict conversation)) eqn:Hs.
  - reflexivity.
  - unfold bind at 1. cbn [log emit]. unfold bind at 1.
    cbn [get_current_timestamp]. fold (clock st). fold (tick st).
    cbv zeta.
    destruct (serializable (VDict (safe_message_of conversation (clock st) message_id)));
      reflexivity.
Qed.

Lemma on_upsert_exception_run (sid pid : string) (conversation : dict)
  (error_message : string) (st : State) :
  on_upsert_exception sid pid conversation error_message st
  = if str_contains "duplicate key" (str_lower error_message) then
      mkRun true st [EvLog Error "Exception during Supabase storage"]
    else
      mkRun false (enqueued sid pid conversation st)
        [EvLog Error "Exception during Supabase storage";
         EvLog Error (failure_log (str_lower error_message));
         EvLog Info "Added message to retry queue"].
Proof.
  unfold on_upsert_exception, failure_log.
  unfold bind at 1. cbn [log emit]. cbv zeta.
  destruct (str_contains "duplicate key" (str_lower error_message)).
  - reflexivity.
  - unfold bind at 1.
    destruct (str_contains "permission" (str_lower error_message)).
    + cbn [log emit]. unfold bind. rewrite add_to_retry_queue_run, enqueued_eq.
      reflexivity.
    + destruct (str_contains "network" (str_lower error_message)
                || str_contains "timeout" (str_lower error_message)).
      * cbn [log emit]. unfold bind. rewrite add_to_retry_queue_run, enqueued_eq.
        reflexivity.
      * unfold bind. cbn [log emit verbose_log VERBOSE_LOGGING ret].
        rewrite add_to_retry_queue_run, enqueued_eq. reflexivity.
Qed.

Lemma on_upsert_reply_run (sid pid : string) (conversation : dict)
  (reply : upsert_reply) (st : State) :
  on_upsert_reply sid pid conversation reply st
  = match reply with
    | UpsertData => mkRun true st [EvLog Info "Successfully stored message"]
    | UpsertError _ =>
        mkRun false (enqueued sid pid conversation st)
          [EvLog Error "Supabase upsert error";
           EvLog Info "Added message to retry queue"]
    | UpsertEmpty =>
        mkRun false (enqueued sid pid conversation st)
          [EvLog Warning "Unexpected response from Supabase";
           EvLog Info "Added message to retry queue"]
    | UpsertRaise _ error_message =>
        on_upsert_exception sid pid conversation error_message st
    end.
Proof.
  unfold on_upsert_reply. destruct reply; try reflexivity;
    unfold bind; cbn [log emit]; rewrite add_to_retry_queue_run, enqueued_eq;
    reflexivity.
Qed.

(** Every run of the single-message write is one of the paths of
    [write_spec]. *)
Lemma store_conversation_message_spec (sid pid : string) (conversation : dict)
  (st : State) :
  write_spec sid pid conversation st
    (store_conversation_message sid pid conversation st).
Proof.
  unfold store_conversation_message.
  unfold bind at 1. cbn [get_state].
  destruct (agent_is_speaking st && String.eqb pid "system") eqn:Hdefer.
  - unfold bind. rewrite add_to_retry_queue_run. cbn [ret app].
    rewrite <- enqueued_eq.
    apply WriteDeferred. exact Hdefer.
  - unfold bind at 1.
    destruct (check_supabase_health_run st)
      as (ok & sup & cp & ci & evs & Eh & _ & _ & _ & Hok).
    rewrite Eh. destruct ok; cbn [negb].
    + rewrite (Hok eq_refl) in *. clear Hok.
      destruct conversation as [| kv conversation'].
      * cbn. apply WriteEmpty; auto.
      * unfold bind at 1. cbn [uuid4]. unfold bind at 1.
        set (message_id := get_or "message_id" _ _).
        set (conv1 := with_message_id _ _).
        set (st1 := set_cursor _ _).
        destruct (serialize_message conv1 message_id st1)
          as [[prepared |] st2 e2] eqn:Es.
        -- destruct prepared as [[[serialized content] email] timestamp].
           unfold bind at 1. cbn [upsert]. unfold bind at 1.
           destruct (on_upsert_reply sid pid conv1 _ _) as [okr st3 e3] eqn:Er.
           cbn [ret app].
           rewrite !app_nil_r.
           assert (Hw : world st2 = world st /\ c_upsert (cursor st2) = c_upsert (cursor st)).
           { rewrite serialize_message_run in Es.
             destruct (serializable (VDict conv1)); [| cbv zeta in Es;
               destruct (serializable (VDict (safe_message_of conv1 (clock st1) message_id)))];
               inversion Es; subst; split; reflexivity. }
           destruct Hw as [Hw Hc]. rewrite Hw, Hc in *.
           eapply (WriteSent sid pid (kv :: conversation') st cp ci evs conv1 message_id
                     st1 st2 st3 e2 e3 (serialized, content, email, timestamp));
             try reflexivity; try assumption; try discriminate.
        -- cbn [ret app]. rewrite ?app_nil_r.
           eapply (WriteUnserializable sid pid (kv :: conversation') st cp ci evs
                     conv1 message_id st1 st2 e2);
             try reflexivity; try assumption; try discriminate.
    + unfold bind. cbn [log emit]. rewrite add_to_retry_queue_run.
      cbn [ret app]. rewrite ?app_nil_r.
      rewrite <- enqueued_eq.
      apply WriteUnhealthy; assumption.
Qed.

(** The effects of the serialization step and of the response handling hold
    no upsert. *)
Lemma serialize_message_upserts (conversation : dict) (message_id : pyval)
  (st st' : State) (prepared : option (json_text * pyval * pyval * pyval))
  (evs : list Event) :
  serialize_message conversation message_id st = mkRun prepared st' evs ->
  upserts_of evs = [] /\ probes_of evs = [] /\
  retry_queue st' = retry_queue st /\
  conversation_history st' = conversation_history st.
Proof.
  rewrite serialize_message_run.
  destruct (serializable (VDict conversation)); [| cbv zeta;
    destruct (serializable (VDict (safe_message_of conversation (clock st) message_id)))];
    intros H; inversion H; subst; repeat split; reflexivity.
Qed.

Lemma on_upsert_reply_upserts (sid pid : string) (conversation : dict)
  (reply : upsert_reply) (st st' : State) (ok : bool) (evs : list Event) :
  on_upsert_reply sid pid conversation reply st = mkRun ok st' evs ->
  upserts_of evs = [] /\ probes_of evs = [] /\
  conversation_history st' = conversation_history st.
Proof.
  rewrite on_upsert_reply_run.
  destruct reply; try rewrite on_upsert_exception_run;
    try match goal with |- context [if ?c then _ else _] => destruct c end;
    intros H; inversion H; subst; rewrite ?enqueued_eq; repeat split; reflexivity.
Qed.

(** The item an enqueue of [conversation] leaves last in the queue. *)
Lemma enqueued_item (sid pid : string) (conversation : dict) (st : State) :
  exists item,
    retry_queue (enqueued sid pid conversation st)
    = keep_newest MAX_RETRY_QUEUE_SIZE (retry_queue st ++ [item]) /\
    In item (retry_queue (enqueued sid pid conversation st)) /\
    retry_count item = 0%Z /\
    item_session_id item = sid /\
    item_participant_id item = pid /\
    item_raw_conversation item = get_or "content" (VStr "") conversation /\
    item_timestamp item = get_or "timestamp" (VStr (clock st)) conversation.
Proof.
  exists (value (make_retry_item sid pid conversation st)).
  rewrite enqueued_eq. cbn [set_queue retry_queue].
  split; [reflexivity |]. split.
  - apply keep_newest_last. unfold MAX_RETRY_QUEUE_SIZE. lia.
  - repeat split; reflexivity.
Qed.

(** C4.  When the upsert of a single-message write raises an error whose
    message contains "duplicate key", in whatever letter case (the code
    lowers the message before it looks), the write returns True and
    enqueues nothing.  Every other upsert error, be it an exception with
    another message or a response that carries no data, makes the write
    enqueue one item for the message and return False. *)
Theorem duplicate_key_is_success :
  forall (st : State) (sid pid : string) (conversation : dict)
         (rows : list Row) (reply : upsert_reply),
    let r := store_conversation_message sid pid conversation st in
    In (EvUpsert rows reply) (effects r) ->
    reply <> UpsertData ->
    (forall etype msg,
        reply = UpsertRaise etype msg ->
        str_contains "duplicate key" msg = true ->
        duplicate_key_error reply = true) /\
    (duplicate_key_error reply = true ->
       fst (value r) = Returned true /\
       retry_queue (final r) = retry_queue st) /\
    (duplicate_key_error reply = false ->
       fst (value r) = Returned false /\
       exists item,
         retry_queue (final r)
         = keep_newest MAX_RETRY_QUEUE_SIZE (retry_queue st ++ [item]) /\
         In item (retry_queue (final r)) /\
         retry_count item = 0%Z /\
         item_session_id item = sid /\
         item_participant_id item = pid /\
         item_raw_conversation item = get_or "content" (VStr "") conversation).
Proof.
  intros st sid pid conversation rows reply r Hin Hnd.
  split.
  { intros etype msg -> H. cbn [duplicate_key_error].
    apply (str_contains_plain "duplicate key" eq_refl msg H). }
  apply in_upserts_of in Hin. unfold r in *. clear r.
  destruct (store_conversation_message_spec sid pid conversation st)
    as [Hd | sup cp ci evs Hd Hh | cp ci evs Hd Hh Hc
        | cp ci evs conv1 mid st1 st2 e2 Hd Hh Hc Hmid Hconv Hst1 Hs
        | cp ci evs conv1 mid st1 st2 st3 e2 e3 prepared reply0 ok
            Hd Hh Hc Hmid Hconv Hst1 Hs Hreply Hr];
    cbn [value final effects fst] in *.
  - contradiction.
  - rewrite upserts_of_app in Hin. destruct (health_effects _ _ _ _ Hh) as (Hu & _).
    rewrite Hu in Hin. contradiction.
  - rewrite upserts_of_app in Hin. destruct (health_effects _ _ _ _ Hh) as (Hu & _).
    rewrite Hu in Hin. contradiction.
  - rewrite upserts_of_app in Hin. destruct (health_effects _ _ _ _ Hh) as (Hu & _).
    destruct (serialize_message_upserts _ _ _ _ _ _ Hs) as (Hu2 & _).
    rewrite Hu, Hu2 in Hin. contradiction.
  - destruct (health_effects _ _ _ _ Hh) as (Hu & _).
    destruct (serialize_message_upserts _ _ _ _ _ _ Hs) as (Hu2 & _ & Hq2 & _).
    destruct (on_upsert_reply_upserts _ _ _ _ _ _ _ _ Hr) as (Hu3 & _).
    rewrite !upserts_of_app, Hu, Hu2, Hu3 in Hin. cbn in Hin.
    destruct Hin as [Hin | []]. inversion Hin as [[Hrows Hrep]].
    rewrite Hrep in Hr. rewrite on_upsert_reply_run in Hr.
    assert (Hq1 : retry_queue st1 = retry_queue st) by (subst st1; reflexivity).
    assert (Hitem : exists item,
               retry_queue (enqueued sid pid conv1
                              (set_cursor (bump_upsert (cursor st2)) st2))
               = keep_newest MAX_RETRY_QUEUE_SIZE (retry_queue st ++ [item]) /\
               In item (retry_queue (enqueued sid pid conv1
                                       (set_cursor (bump_upsert (cursor st2)) st2))) /\
               retry_count item = 0%Z /\
               item_session_id item = sid /\
               item_participant_id item = pid /\
               item_raw_conversation item
               = get_or "content" (VStr "") conversation).
    { destruct (enqueued_item sid pid conv1 (set_cursor (bump_upsert (cursor st2)) st2))
        as (item & Hi1 & Hi2 & Hi3 & Hi4 & Hi5 & Hi6 & _).
      exists item. cbn [set_cursor retry_queue] in Hi1.
      rewrite Hq2, Hq1 in Hi1.
      repeat split; try assumption.
      rewrite Hi6, Hconv. apply get_or_with_message_id. discriminate. }
    destruct reply as [| e | | etype msg]; cbn [duplicate_key_error].
    + exfalso. apply Hnd. reflexivity.
    + inversion Hr; subst ok st3 e3.
      split; [discriminate |]. intros _. split; [reflexivity | exact Hitem].
    + inversion Hr; subst ok st3 e3.
      split; [discriminate |]. intros _. split; [reflexivity | exact Hitem].
    + rewrite on_upsert_exception_run in Hr.
      split; intros Hdup; rewrite Hdup in Hr; inversion Hr; subst ok st3 e3.
      * split; [reflexivity |]. cbn [set_cursor retry_queue]. congruence.
      * split; [reflexivity | exact Hitem].
Qed.

Lemma duplicate_key_is_success_witness :
  let msg := "duplicate key value violates unique constraint" in
  let st := idle_state (raising_world "APIError" msg) in
  let r := store_conversation_message "session-1" "user" (user_message 1) st in
  (exists rows, In (EvUpsert rows (UpsertRaise "APIError" msg)) (effects r)) /\
  duplicate_key_error (UpsertRaise "APIError" msg) = true /\
  fst (value r) = Returned true /\
  retry_queue (final r) = [].
Proof.
  intros msg st r.
  assert (Hin : In (EvUpsert [single_row "session-1" "user"
                      (JsonText (VDict (user_message 1)),
                       get_or "content" (VStr "") (user_message 1),
                       VStr "",
                       get_or "timestamp" VNone (user_message 1))]
                    (UpsertRaise "APIError" msg)) (effects r)).
  { apply in_upserts_of. vm_compute. left. reflexivity. }
  assert (Hnd : UpsertRaise "APIError" msg <> UpsertData) by discriminate.
  pose proof (duplicate_key_is_success st "session-1" "user" (user_message 1)
                _ _ Hin Hnd) as H.
  cbv zeta in H. destruct H as (Hlit & H1 & _).
  assert (Hdup : duplicate_key_error (UpsertRaise "APIError" msg) = true).
  { apply (Hlit "APIError" msg eq_refl). reflexivity. }
  destruct (H1 Hdup) as [Hv Hq].
  split; [eexists; exact Hin |]. split; [exact Hdup |].
  split; [exact Hv | exact Hq].
Defined.

(** The letter case does not matter, nor does the Kelvin sign standing for
    a K; a timeout is a failure. *)
Example duplicate_key_any_case :
  duplicate_key_error
    (UpsertRaise "APIError" "Duplicate Key value violates unique constraint")
  = true /\
  duplicate_key_error
    (UpsertRaise "APIError" ("DUPLICATE " ++ kelvin_sign ++ "EY value"))
  = true /\
  duplicate_key_error (UpsertRaise "APIError" "timeout") = false /\
  (let st := idle_state (raising_world "APIError" "timeout") in
   let r := store_conversation_message "session-1" "user" (user_message 1) st in
   fst (value r) = Returned false /\ List.length (retry_queue (final r)) = 1%nat).
Proof. cbv zeta. repeat split; vm_compute; reflexivity. Qed.

(** ** Retry processor *)

(** The state a drained item leaves once its upsert has been sent. *)
Lemma retry_item_run (item : RetryItem) (n : nat) (st : State) :
  (retry_count item < 5)%Z ->
  exists ok sup cp ci evs,
    check_supabase_health st = mkRun ok (after_health st sup cp ci) evs /\
    retry_item item n st
    = let st1 := after_health st sup cp ci in
      if ok then
        match json_dumps (VDict (item_conversation item)) with
        | None =>
            mkRun n (set_queue (retry_queue st ++ [bump_retry item]) st1)
                  (evs ++ [EvLog Error "Error processing retry item"; EvSleep 200])
        | Some conversation_data =>
            let row := retry_row item conversation_data in
            let reply := w_upsert (world st) (c_upsert (cursor st)) [row] in
            let st2 := set_cursor (bump_upsert (bump_clock (cursor st1))) st1 in
            match reply with
            | UpsertData =>
                mkRun (S n) st2
                  (evs ++ [EvUpsert [row] reply;
                           EvLog Info "Successfully stored retry item"; EvSleep 200])
            | UpsertRaise _ _ =>
                mkRun n (set_queue (retry_queue st ++ [bump_retry item]) st2)
                  (evs ++ [EvUpsert [row] reply;
                           EvLog Error "Error processing retry item"; EvSleep 200])
            | _ =>
                mkRun n (set_queue (retry_queue st ++ [bump_retry item]) st2)
                  (evs ++ [EvUpsert [row] reply;
                           EvLog Warning "Failed to store retry item"; EvSleep 200])
            end
        end
      else
        mkRun n (set_queue (retry_queue st ++ [bump_retry item]) st1)
          (evs ++ [EvLog Warning
                     "Supabase connection not healthy, adding back to retry queue"]).
Proof.
  intros Hlt.
  destruct (check_supabase_health_run st)
    as (ok & sup & cp & ci & evs & Eh & _).
  exists ok, sup, cp, ci, evs. split; [exact Eh |].
  unfold retry_item.
  replace (5 <=? retry_count item)%Z with false by (symmetry; apply Z.leb_gt; exact Hlt).
  unfold bind at 1. rewrite Eh. cbv zeta.
  destruct ok; cbn [negb].
  - destruct (json_dumps (VDict (item_conversation item))) as [cd |].
    + unfold bind at 1. unfold bind at 1. cbn [get_current_timestamp].
      unfold bind at 1. cbn [upsert].
      change (world (set_cursor _ (after_health st sup cp ci))) with (world st).
      change (c_upsert (cursor (set_cursor (bump_clock (cursor (after_health st sup cp ci)))
                                           (after_health st sup cp ci))))
        with (c_upsert (cursor st)).
      destruct (w_upsert (world st) (c_upsert (cursor st)) [retry_row item cd]);
        reflexivity.
    + reflexivity.
  - reflexivity.
Qed.

Lemma retry_item_exhausted (item : RetryItem) (n : nat) (st : State) :
  (5 <= retry_count item)%Z ->
  retry_item item n st
  = mkRun n st [EvLog Warning "Skipping message that has failed too many times"].
Proof.
  intros H. unfold retry_item.
  replace (5 <=? retry_count item)%Z with true by (symmetry; apply Z.leb_le; exact H).
  reflexivity.
Qed.

(** What one item of a drain can do to the queue and to the store. *)
Lemma retry_item_step (item : RetryItem) (n : nat) (st : State) :
  let r := retry_item item n st in
  exists pushed,
    retry_queue (final r) = retry_queue st ++ pushed /\
    (pushed = [] \/ (pushed = [bump_retry item] /\ (retry_count item < 5)%Z)) /\
    (forall rows reply, In (rows, reply) (upserts_of (effects r)) ->
       (retry_count item < 5)%Z /\ exists cd, rows = [retry_row item cd]).
Proof.
  intros r. unfold r. clear r.
  destruct (Z_lt_le_dec (retry_count item) 5) as [Hlt | Hge].
  - destruct (retry_item_run item n st Hlt)
      as (ok & sup & cp & ci & evs & Eh & Er).
    destruct (health_effects _ _ _ _ Eh) as (Hu & _).
    rewrite Er. cbv zeta.
    destruct ok.
    + destruct (json_dumps (VDict (item_conversation item))) as [cd |].
      * destruct (w_upsert (world st) (c_upsert (cursor st)) [retry_row item cd]) eqn:Ew;
          cbn [final effects value set_queue set_cursor retry_queue after_health];
          rewrite upserts_of_app, Hu; cbn [upserts_of app].
        -- exists []. rewrite app_nil_r. split; [reflexivity |]. split; [auto |].
           intros rows reply [Hin | []]. inversion Hin. eauto.
        -- exists [bump_retry item]. split; [reflexivity |]. split; [auto |].
           intros rows reply [Hin | []]. inversion Hin. eauto.
        -- exists [bump_retry item]. split; [reflexivity |]. split; [auto |].
           intros rows reply [Hin | []]. inversion Hin. eauto.
        -- exists [bump_retry item]. split; [reflexivity |]. split; [auto |].
           intros rows reply [Hin | []]. inversion Hin. eauto.
      * cbn [final effects]. rewrite upserts_of_app, Hu. cbn.
        exists [bump_retry item]. split; [reflexivity |]. split; [auto |].
        intros rows reply [].
    + cbn [final effects]. rewrite upserts_of_app, Hu. cbn.
      exists [bump_retry item]. split; [reflexivity |]. split; [auto |].
      intros rows reply [].
  - rewrite (retry_item_exhausted item n st Hge). cbn.
    exists []. rewrite app_nil_r. split; [reflexivity |]. split; [auto |].
    intros rows reply [].
Qed.

Lemma fold_each_cons {A B} (body : A -> B -> M B) (x : A) (l : list A) (acc : B)
  (st : State) :
  fold_each body (x :: l) acc st
  = let r1 := body x acc st in
    let r2 := fold_each body l (value r1) (final r1) in
    mkRun (value r2) (final r2) (effects r1 ++ effects r2).
Proof.
  cbn [fold_each]. unfold bind.
  destruct (body x acc st) as [a st1 e1]. cbn [value final effects].
  destruct (fold_each body l a st1) as [b st2 e2]. reflexivity.
Qed.

(** The same over a whole pass: what is appended to the queue are raised
    copies of items that had failed fewer than five times, and every upsert
    carries such an item. *)
Lemma retry_items_pass (temp_queue : list RetryItem) :
  forall (n : nat) (st : State),
    let r := fold_each retry_item temp_queue n st in
    exists pushed,
      retry_queue (final r) = retry_queue st ++ pushed /\
      (forall x, In x pushed ->
         exists item, In item temp_queue /\ (retry_count item < 5)%Z /\
                      x = bump_retry item) /\
      (forall rows reply, In (rows, reply) (upserts_of (effects r)) ->
         exists item cd, In item temp_queue /\ (retry_count item < 5)%Z /\
                         rows = [retry_row item cd]).
Proof.
  induction temp_queue as [| item temp IH]; intros n st r.
  - exists []. cbn. rewrite app_nil_r. split; [reflexivity |].
    split; [intros x [] | intros rows reply []].
  - unfold r. rewrite fold_each_cons. cbv zeta. cbn [final effects].
    destruct (retry_item_step item n st) as (p1 & Hq1 & Hp1 & Hu1).
    destruct (IH (value (retry_item item n st)) (final (retry_item item n st)))
      as (p2 & Hq2 & Hp2 & Hu2).
    exists (p1 ++ p2). split; [| split].
    + rewrite Hq2, Hq1, app_assoc. reflexivity.
    + intros x Hx. apply in_app_or in Hx. destruct Hx as [Hx | Hx].
      * destruct Hp1 as [-> | [-> Hlt]]; [contradiction |].
        destruct Hx as [<- | []]. exists item. cbn. auto.
      * destruct (Hp2 x Hx) as (it & Hin & Hlt & ->). exists it. cbn. auto.
    + intros rows reply Hin. rewrite upserts_of_app in Hin.
      apply in_app_or in Hin. destruct Hin as [Hin | Hin].
      * destruct (Hu1 rows reply Hin) as (Hlt & cd & ->).
        exists item, cd. cbn. auto.
      * destruct (Hu2 rows reply Hin) as (it & cd & Hi & Hlt & ->).
        exists it, cd. cbn. auto.
Qed.

(** A drain, in terms of the pass over the items it pops. *)
Lemma process_retry_queue_run (batch_size : nat) (st : State) :
  retry_queue st <> [] -> supabase st = true ->
  let k := Nat.min batch_size (List.length (retry_queue st)) in
  let pass := fold_each retry_item (firstn k (retry_queue st)) 0%nat
                (set_queue (skipn k (retry_queue st)) st) in
  process_retry_queue batch_size st
  = mkRun (value pass) (final pass)
      (EvLog Info "Processing retry queue" :: effects pass
       ++ [EvLog Info "Retry queue processing done"]).
Proof.
  intros Hq Hs k pass.
  assert (Hm : forall (X : Type) (a b : X),
             match retry_queue st with [] => a | _ :: _ => b end = b)
    by (intros; destruct (retry_queue st); [contradiction | reflexivity]).
  unfold process_retry_queue.
  unfold bind at 1. cbn [get_state]. rewrite Hm, Hs. cbn [negb].
  unfold bind at 1. cbn [log emit]. unfold bind at 1. cbn [modify].
  unfold bind at 1. fold k. fold pass.
  destruct pass as [v stf evf]. reflexivity.
Qed.

Lemma exhausted_item_logged (temp_queue : list RetryItem) (item : RetryItem) :
  In item temp_queue -> (5 <= retry_count item)%Z ->
  forall (n : nat) (st : State),
    logged Warning "Skipping message that has failed too many times"
           (effects (fold_each retry_item temp_queue n st)).
Proof.
  unfold logged.
  induction temp_queue as [| x temp IH]; intros Hin Hge n st; [contradiction |].
  rewrite fold_each_cons. cbv zeta. cbn [effects].
  apply in_or_app. destruct Hin as [-> | Hin].
  - left. rewrite (retry_item_exhausted item n st Hge). cbn. auto.
  - right. apply IH; assumption.
Qed.

Lemma fold_each_app {A B} (body : A -> B -> M B) (l1 l2 : list A) :
  forall (acc : B) (st : State),
    fold_each body (l1 ++ l2) acc st
    = let r1 := fold_each body l1 acc st in
      let r2 := fold_each body l2 (value r1) (final r1) in
      mkRun (value r2) (final r2) (effects r1 ++ effects r2).
Proof.
  induction l1 as [| x l1 IH]; intros acc st.
  - cbn. destruct (fold_each body l2 acc st); reflexivity.
  - rewrite <- app_comm_cons, !fold_each_cons. cbv zeta.
    rewrite IH. cbv zeta. cbn [value final effects].
    rewrite app_assoc. reflexivity.
Qed.

(** What the round of one item that has failed fewer than five times does,
    from the state it starts in. *)
Lemma retry_item_outcomes :
  forall (item : RetryItem) (n : nat) (st : State),
    (retry_count item < 5)%Z ->
    let r := retry_item item n st in
    let healthy := value (check_supabase_health st) in
    retry_count (bump_retry item) = (retry_count item + 1)%Z /\
    (healthy = false ->
       upserts_of (effects r) = [] /\
       retry_queue (final r) = retry_queue st ++ [bump_retry item] /\
       value r = n) /\
    (healthy = true ->
       forall rows reply, upserts_of (effects r) = [(rows, reply)] ->
         (reply = UpsertData ->
            retry_queue (final r) = retry_queue st /\ value r = S n) /\
         (reply <> UpsertData ->
            retry_queue (final r) = retry_queue st ++ [bump_retry item] /\
            value r = n)) /\
    (healthy = true ->
       serializable (VDict (item_conversation item)) = true ->
       let row := retry_row item (JsonText (VDict (item_conversation item))) in
       upserts_of (effects r)
       = [([row], w_upsert (world st) (c_upsert (cursor st)) [row])]) /\
    (healthy = true ->
       serializable (VDict (item_conversation item)) = false ->
       upserts_of (effects r) = [] /\
       retry_queue (final r) = retry_queue st ++ [bump_retry item] /\
       value r = n).
Proof.
  intros item n st Hlt r healthy.
  destruct (retry_item_run item n st Hlt)
    as (ok & sup & cp & ci & evs & Eh & Er).
  destruct (health_effects _ _ _ _ Eh) as (Hu & _).
  assert (Hok : healthy = ok) by (unfold healthy; rewrite Eh; reflexivity).
  unfold r. rewrite Er, Hok. clear r healthy Hok Er. cbv zeta.
  split; [reflexivity |].
  split; [| split; [| split]].
  - intros ->. cbn [value final effects set_queue retry_queue].
    rewrite upserts_of_app, Hu. auto.
  - intros -> rows reply.
    unfold json_dumps.
    destruct (serializable (VDict (item_conversation item))).
    + destruct (w_upsert (world st) (c_upsert (cursor st)) _) eqn:Ew;
        cbn [value final effects set_queue set_cursor retry_queue after_health];
        rewrite upserts_of_app, Hu; cbn [upserts_of app];
        intros Hup; inversion Hup; subst; split; intros Hr;
        try discriminate Hr; try (exfalso; apply Hr; reflexivity); auto.
    + cbn [value final effects]. rewrite upserts_of_app, Hu. cbn. discriminate.
  - intros -> Hs. unfold json_dumps. rewrite Hs.
    destruct (w_upsert (world st) (c_upsert (cursor st)) _) eqn:Ew;
      cbn [effects]; rewrite upserts_of_app, Hu; reflexivity.
  - intros -> Hs. unfold json_dumps. rewrite Hs.
    cbn [value final effects set_queue retry_queue after_health].
    rewrite upserts_of_app, Hu. auto.
Qed.

(** C6.  Take a drain, [process_retry_queue], and any item it pops that
    has failed fewer than five times.  The item's round is one stretch of
    the drain: the rounds of the items popped before it come first, those
    of the items popped after it follow, and all the later rounds do to the
    queue is to append raised copies of their own items.  In the item's
    round: if the health probe reports unhealthy, no upsert is made and the
    item goes back to the end of the queue with its retry_count raised by
    one; if the probe reports healthy and the upsert returns data, the item
    is not put back; if the upsert returns no data or raises, or the item
    cannot be serialized, the item goes back to the end of the queue with
    its retry_count raised by one. *)
Theorem drain_item_outcomes :
  forall (batch_size : nat) (st : State) (before after : list RetryItem)
         (item : RetryItem),
    retry_queue st <> [] ->
    supabase st = true ->
    let k := Nat.min batch_size (List.length (retry_queue st)) in
    firstn k (retry_queue st) = before ++ item :: after ->
    (retry_count item < 5)%Z ->
    let r := process_retry_queue batch_size st in
    let pass_before :=
      fold_each retry_item before 0%nat
                (set_queue (skipn k (retry_queue st)) st) in
    let s := final pass_before in
    let n := value pass_before in
    let ri := retry_item item n s in
    let pass_after := fold_each retry_item after (value ri) (final ri) in
    let healthy := value (check_supabase_health s) in
    effects r
    = EvLog Info "Processing retry queue"
      :: effects pass_before ++ effects ri ++ effects pass_after
      ++ [EvLog Info "Retry queue processing done"] /\
    value r = value pass_after /\
    final r = final pass_after /\
    (exists pushed,
        retry_queue (final r) = retry_queue (final ri) ++ pushed /\
        forall x, In x pushed ->
                  exists later, In later after /\ x = bump_retry later) /\
    retry_count (bump_retry item) = (retry_count item + 1)%Z /\
    (healthy = false ->
       upserts_of (effects ri) = [] /\
       retry_queue (final ri) = retry_queue s ++ [bump_retry item] /\
       value ri = n) /\
    (healthy = true ->
       forall rows reply, upserts_of (effects ri) = [(rows, reply)] ->
         (reply = UpsertData ->
            retry_queue (final ri) = retry_queue s /\ value ri = S n) /\
         (reply <> UpsertData ->
            retry_queue (final ri) = retry_queue s ++ [bump_retry item] /\
            value ri = n)) /\
    (healthy = true ->
       serializable (VDict (item_conversation item)) = true ->
       let row := retry_row item (JsonText (VDict (item_conversation item))) in
       upserts_of (effects ri)
       = [([row], w_upsert (world s) (c_upsert (cursor s)) [row])]) /\
    (healthy = true ->
       serializable (VDict (item_conversation item)) = false ->
       upserts_of (effects ri) = [] /\
       retry_queue (final ri) = retry_queue s ++ [bump_retry item] /\
       value ri = n).
Proof.
  intros batch_size st before after item Hq Hs k Hsplit Hlt.
  cbv zeta.
  pose proof (process_retry_queue_run batch_size st Hq Hs) as Hrun.
  cbv zeta in Hrun. fold k in Hrun. rewrite Hrun, Hsplit. clear Hrun.
  rewrite fold_each_app. cbv zeta. rewrite fold_each_cons. cbv zeta.
  cbn [value final effects].
  set (pass_before := fold_each retry_item before 0%nat _).
  set (ri := retry_item item (value pass_before) (final pass_before)).
  set (pass_after := fold_each retry_item after (value ri) (final ri)).
  split; [rewrite <- !app_assoc; reflexivity |].
  split; [reflexivity |]. split; [reflexivity |].
  split.
  { destruct (retry_items_pass after (value ri) (final ri))
      as (pushed & Hpq & Hpushed & _).
    exists pushed. split; [exact Hpq |].
    intros x Hx. destruct (Hpushed x Hx) as (later & Hin & _ & ->).
    exists later. split; [exact Hin | reflexivity]. }
  exact (retry_item_outcomes item (value pass_before) (final pass_before) Hlt).
Qed.

(** A drain of three items on a store that takes the first, rejects the
    second and cannot be reached for the third: the first is stored and not
    put back, the other two go back with their counts raised. *)
Lemma drain_item_outcomes_witness :
  let q := [sample_item 0 0; sample_item 1 2; sample_item 2 0] in
  let st := queue_state moody_world q in
  let r := process_retry_queue 5 st in
  retry_queue st <> [] /\
  supabase st = true /\
  firstn (Nat.min 5 (List.length (retry_queue st))) (retry_queue st)
  = [] ++ sample_item 0 0 :: [sample_item 1 2; sample_item 2 0] /\
  (retry_count (sample_item 1 2) < 5)%Z /\
  value r = 1%nat /\
  retry_queue (final r)
  = [bump_retry (sample_item 1 2); bump_retry (sample_item 2 0)] /\
  retry_count (bump_retry (sample_item 1 2)) = 3%Z /\
  retry_count (bump_retry (sample_item 2 0)) = 1%Z /\
  map snd (upserts_of (effects r)) = [UpsertData; UpsertError "rejected"].
Proof.
  intros q st r.
  assert (Hq : retry_queue st <> []) by discriminate.
  assert (Hs : supabase st = true) by reflexivity.
  assert (H0 : firstn (Nat.min 5 (List.length (retry_queue st))) (retry_queue st)
               = [] ++ sample_item 0 0 :: [sample_item 1 2; sample_item 2 0])
    by reflexivity.
  assert (H1 : firstn (Nat.min 5 (List.length (retry_queue st))) (retry_queue st)
               = [sample_item 0 0] ++ sample_item 1 2 :: [sample_item 2 0])
    by reflexivity.
  assert (H2 : firstn (Nat.min 5 (List.length (retry_queue st))) (retry_queue st)
               = [sample_item 0 0; sample_item 1 2] ++ sample_item 2 0 :: [])
    by reflexivity.
  assert (L0 : (retry_count (sample_item 0 0) < 5)%Z) by reflexivity.
  assert (L1 : (retry_count (sample_item 1 2) < 5)%Z) by reflexivity.
  assert (L2 : (retry_count (sample_item 2 0) < 5)%Z) by reflexivity.
  pose proof (drain_item_outcomes 5 st [] [sample_item 1 2; sample_item 2 0]
                (sample_item 0 0) Hq Hs H0 L0) as D0.
  pose proof (drain_item_outcomes 5 st [sample_item 0 0] [sample_item 2 0]
                (sample_item 1 2) Hq Hs H1 L1) as D1.
  pose proof (drain_item_outcomes 5 st [sample_item 0 0; sample_item 1 2] []
                (sample_item 2 0) Hq Hs H2 L2) as D2.
  cbv zeta in D0, D1, D2.
  destruct D0 as (_ & _ & _ & _ & _ & _ & Hok0 & _).
  destruct D1 as (_ & _ & _ & _ & Hc1 & _ & Hok1 & _).
  destruct D2 as (_ & Hv2 & Hf2 & _ & Hc2 & Hbad2 & _).
  split; [exact Hq |]. split; [exact Hs |]. split; [exact H0 |].
  split; [exact L1 |].
  assert (Hh2 : value (check_supabase_health
                         (final (fold_each retry_item
                                   [sample_item 0 0; sample_item 1 2] 0%nat
                                   (set_queue (skipn (Nat.min 5 (List.length (retry_queue st)))
                                                     (retry_queue st)) st)))) = false)
    by (vm_compute; reflexivity).
  destruct (Hbad2 Hh2) as (_ & Hq2 & Hn2).
  split.
  { unfold r. rewrite Hv2.
    change (value (fold_each retry_item [] ?a ?b)) with a.
    rewrite Hn2. vm_compute. reflexivity. }
  split.
  { unfold r. rewrite Hf2.
    change (final (fold_each retry_item [] ?a ?b)) with b.
    rewrite Hq2. vm_compute. reflexivity. }
  split; [rewrite Hc1; reflexivity |].
  split; [rewrite Hc2; reflexivity |].
  vm_compute. reflexivity.
Defined.

(** C7. An item popped by a drain with retry_count 5 or more is dropped:
    its round only logs a warning and leaves the state as it was; whatever
    the drain leaves in the queue is an item it did not pop or the raised
    copy of a popped item that had failed fewer than five times; and every
    upsert of the drain carries an item that had failed fewer than five
    times. *)
Theorem exhausted_items_dropped :
  forall (batch_size : nat) (st : State) (item : RetryItem),
    let k := Nat.min batch_size (List.length (retry_queue st)) in
    In item (firstn k (retry_queue st)) ->
    (5 <= retry_count item)%Z ->
    supabase st = true ->
    let r := process_retry_queue batch_size st in
    (forall n st',
        retry_item item n st'
        = mkRun n st' [EvLog Warning "Skipping message that has failed too many times"]) /\
    logged Warning "Skipping message that has failed too many times" (effects r) /\
    (forall x, In x (retry_queue (final r)) ->
       In x (skipn k (retry_queue st)) \/
       exists it, In it (firstn k (retry_queue st)) /\
                  (retry_count it < 5)%Z /\ x = bump_retry it) /\
    (forall rows reply, In (rows, reply) (upserts_of (effects r)) ->
       exists it cd, In it (firstn k (retry_queue st)) /\
                     (retry_count it < 5)%Z /\ rows = [retry_row it cd]).
Proof.
  intros batch_size st item k Hin Hge Hsup r.
  assert (Hq : retry_queue st <> []).
  { intros E. rewrite E in Hin. unfold k in Hin. rewrite E in Hin.
    rewrite firstn_nil in Hin. contradiction. }
  unfold r. rewrite (process_retry_queue_run batch_size st Hq Hsup).
  fold k. cbv zeta. cbn [final effects].
  set (st0 := set_queue (skipn k (retry_queue st)) st).
  destruct (retry_items_pass (firstn k (retry_queue st)) 0%nat st0)
    as (pushed & Hqueue & Hpushed & Hups).
  split; [| split; [| split]].
  - intros n st'. apply retry_item_exhausted. exact Hge.
  - unfold logged. right. apply in_or_app. left.
    apply (exhausted_item_logged _ item Hin Hge).
  - intros x Hx. rewrite Hqueue in Hx. apply in_app_or in Hx.
    destruct Hx as [Hx | Hx]; [left; exact Hx | right; apply Hpushed; exact Hx].
  - intros rows reply Hx.
    change (EvLog Info "Processing retry queue"
            :: effects (fold_each retry_item (firstn k (retry_queue st)) 0%nat st0)
               ++ [EvLog Info "Retry queue processing done"])
      with ([EvLog Info "Processing retry queue"]
            ++ effects (fold_each retry_item (firstn k (retry_queue st)) 0%nat st0)
            ++ [EvLog Info "Retry queue processing done"]) in Hx.
    rewrite !upserts_of_app in Hx. cbn [upserts_of app] in Hx.
    rewrite app_nil_r in Hx. apply (Hups rows reply). exact Hx.
Qed.

Lemma exhausted_items_dropped_witness :
  let worn := sample_item 1 5 in
  let fresh := sample_item 2 0 in
  let st := queue_state calm_world [worn; fresh] in
  let r := process_retry_queue 5 st in
  In worn (firstn (Nat.min 5 (List.length (retry_queue st))) (retry_queue st)) /\
  (5 <= retry_count worn)%Z /\
  supabase st = true /\
  logged Warning "Skipping message that has failed too many times" (effects r) /\
  retry_queue (final r) = [] /\
  List.length (upserts_of (effects r)) = 1%nat.
Proof.
  intros worn fresh st r.
  assert (Hin : In worn (firstn (Nat.min 5 (List.length (retry_queue st)))
                                (retry_queue st))) by (left; reflexivity).
  assert (Hge : (5 <= retry_count worn)%Z) by (vm_compute; discriminate).
  assert (Hsup : supabase st = true) by reflexivity.
  pose proof (exhausted_items_dropped 5 st worn Hin Hge Hsup) as H.
  cbv zeta in H. destruct H as (_ & Hlog & _ & _).
  split; [exact Hin |]. split; [exact Hge |]. split; [exact Hsup |].
  split; [exact Hlog |]. split; vm_compute; reflexivity.
Defined.

(** ** The full flush, step by step *)

Lemma flush_frame_refl (st : State) : flush_frame 0 st st.
Proof. unfold flush_frame. rewrite Nat.add_0_r. tauto. Qed.

Lemma flush_frame_trans (j k : nat) (st1 st2 st3 : State) :
  flush_frame j st1 st2 -> flush_frame k st2 st3 -> flush_frame (j + k) st1 st3.
Proof.
  unfold flush_frame. intros (A1 & A2 & A3 & A4 & A5 & A6) (B1 & B2 & B3 & B4 & B5 & B6).
  repeat split; try congruence. rewrite B6, A6. lia.
Qed.

Lemma only_logs_app (a b : list Event) :
  only_logs a -> only_logs b -> only_logs (a ++ b).
Proof.
  unfold only_logs. intros (A1 & A2 & A3) (B1 & B2 & B3).
  rewrite upserts_of_app, probes_of_app, sleeps_of_app, A1, A2, A3, B1, B2, B3.
  auto.
Qed.

Lemma only_logs_nil : only_logs [].
Proof. unfold only_logs. auto. Qed.

(** The collecting loop on one message, in one equation. *)
Lemma prepare_message_run (sid : string) (message : dict) (st : State) :
  prepare_message sid message st
  = match stored_flag message with
    | Some true => mkRun (message, None) st []
    | _ =>
        let st1 := if dict_has "message_id" message then st
                   else set_cursor (bump_uuid (cursor st)) st in
        let message' :=
          if dict_has "message_id" message then message
          else dict_set "message_id"
                 (VStr (w_uuid (world st) (c_uuid (cursor st)))) message in
        if serializable (VDict message') then
          mkRun (message', Some (full_row sid message' (clock st1))) (tick st1) []
        else
          let safe_message :=
            safe_message_of message' (clock st1)
                            (get_or "message_id" VNone message') in
          if serializable (VDict safe_message) then
            mkRun (message',
                   Some (safe_row sid message' safe_message (clock (tick st1))))
                  (tick (tick st1))
                  [EvLog Error "Failed to serialize message for batch storage"]
          else
            mkRun (message', None) (tick st1)
                  [EvLog Error "Failed to serialize message for batch storage";
                   EvLog Error "Could not create safe version of message"]
    end.
Proof.
  unfold prepare_message.
  assert (Hbody :
    ((message0 <-
        (if dict_has "message_id" message then ret message
         else fresh <- uuid4 ;; ret (dict_set "message_id" (VStr fresh) message)) ;;
      match json_dumps (VDict message0) with
      | Some _ =>
          now <- get_current_timestamp ;;
          ret (message0, Some (full_row sid message0 now))
      | None =>
          log Error "Failed to serialize message for batch storage" ;;
          now <- get_current_timestamp ;;
          let safe_message :=
            safe_message_of message0 now (get_or "message_id" VNone message0) in
          match json_dumps (VDict safe_message) with
          | Some _ =>
              now' <- get_current_timestamp ;;
              ret (message0, Some (safe_row sid message0 safe_message now'))
          | None =>
              log Error "Could not create safe version of message" ;;
              ret (message0, None)
          end
      end) st)
    = (let st1 := if dict_has "message_id" message then st
                   else set_cursor (bump_uuid (cursor st)) st in
        let message' :=
          if dict_has "message_id" message then message
          else dict_set "message_id"
                 (VStr (w_uuid (world st) (c_uuid (cursor st)))) message in
        if serializable (VDict message') then
          mkRun (message', Some (full_row sid message' (clock st1))) (tick st1) []
        else
          let safe_message :=
            safe_message_of message' (clock st1)
                            (get_or "message_id" VNone message') in
          if serializable (VDict safe_message) then
            mkRun (message',
                   Some (safe_row sid message' safe_message (clock (tick st1))))
                  (tick (tick st1))
                  [EvLog Error "Failed to serialize message for batch storage"]
          else
            mkRun (message', None) (tick st1)
                  [EvLog Error "Failed to serialize message for batch storage";
                   EvLog Error "Could not create safe version of message"])).
  { cbv zeta. unfold bind at 1.
    destruct (dict_has "message_id" message);
      [cbn [ret] | unfold bind at 1; cbn [uuid4 ret app]];
      unfold json_dumps;
      (match goal with |- context [serializable (VDict ?v)] =>
         destruct (serializable (VDict v)) end;
       [reflexivity |]);
      unfold bind at 1; cbn [log emit]; unfold bind at 1;
      cbn [get_current_timestamp];
      unfold clock, tick; cbn [world cursor set_cursor c_clock bump_clock bump_uuid];
      match goal with |- context [safe_message_of ?a ?b ?c] =>
        destruct (serializable (VDict (safe_message_of a b c))) end;
      reflexivity. }
  destruct (stored_flag message) as [[|] |]; [reflexivity | exact Hbody | exact Hbody].
Qed.

Lemma batches_of_app (a b : list Event) :
  batches_of (a ++ b) = batches_of a ++ batches_of b.
Proof. unfold batches_of. now rewrite upserts_of_app, map_app. Qed.

Lemma prepare_message_frame (sid : string) (message : dict) (st : State) :
  let r := prepare_message sid message st in
  flush_frame 0 st (final r) /\
  conversation_history (final r) = conversation_history st /\
  only_logs (effects r).
Proof.
  cbv zeta. rewrite prepare_message_run.
  assert (Hf : forall st', flush_frame 0 st st' -> flush_frame 0 st (tick st')).
  { unfold flush_frame, tick. cbn. tauto. }
  assert (Hh : forall st', conversation_history (tick st') = conversation_history st')
    by reflexivity.
  destruct (stored_flag message) as [[|] |];
    try (cbn; split; [apply flush_frame_refl | split; [reflexivity | apply only_logs_nil]]).
  all: cbv zeta;
    set (st1 := if dict_has "message_id" message then st
                else set_cursor (bump_uuid (cursor st)) st);
    assert (H1 : flush_frame 0 st st1 /\ conversation_history st1 = conversation_history st)
      by (unfold st1; destruct (dict_has "message_id" message);
          [split; [apply flush_frame_refl | reflexivity]
          | unfold flush_frame; cbn; rewrite Nat.add_0_r; tauto]);
    destruct H1 as [H1 H2];
    repeat match goal with |- context [if serializable ?v then _ else _] =>
             destruct (serializable v) end;
    cbn [final effects]; rewrite ?Hh;
    (split; [auto | split; [exact H2 | unfold only_logs; cbn; auto]]).
Qed.

Lemma collect_messages_frame (sid : string) (history : list dict) :
  forall st,
    let r := collect_messages sid history st in
    flush_frame 0 st (final r) /\
    conversation_history (final r) = conversation_history st /\
    only_logs (effects r).
Proof.
  induction history as [| message history IH]; intros st r.
  - cbn. split; [apply flush_frame_refl | split; [reflexivity | apply only_logs_nil]].
  - unfold r. cbn [collect_messages]. unfold bind.
    destruct (prepare_message_frame sid message st) as (F1 & H1 & L1).
    destruct (prepare_message sid message st) as [p st1 e1].
    cbn [final effects] in F1, H1, L1.
    destruct (IH st1) as (F2 & H2 & L2).
    destruct (collect_messages sid history st1) as [rest st2 e2].
    cbn [final effects ret] in *. rewrite app_nil_r.
    split; [exact (flush_frame_trans 0 0 _ _ _ F1 F2) |].
    split; [congruence | apply only_logs_app; assumption].
Qed.

Lemma mark_stored_run (msg_data : Row) (n : nat) (st : State) :
  mark_stored msg_data n st
  = match mark_first msg_data (conversation_history st) with
    | Some marked => mkRun (S n) (set_history marked st) []
    | None => mkRun n st []
    end.
Proof.
  unfold mark_stored, bind. cbn [get_state].
  destruct (mark_first msg_data (conversation_history st)); reflexivity.
Qed.

Lemma mark_all_frame (batch : list Row) :
  forall n st,
    let r := fold_each mark_stored batch n st in
    flush_frame 0 st (final r) /\ cursor (final r) = cursor st /\ effects r = [].
Proof.
  induction batch as [| row batch IH]; intros n st r.
  - cbn. split; [apply flush_frame_refl | auto].
  - unfold r. rewrite fold_each_cons. cbv zeta. cbn [final effects].
    rewrite mark_stored_run.
    destruct (mark_first row (conversation_history st)) as [marked |];
      cbn [value final effects app].
    + destruct (IH (S n) (set_history marked st)) as (F & C & E).
      split; [| split; [rewrite C; reflexivity | exact E]].
      eapply (flush_frame_trans 0 0); [| exact F].
      unfold flush_frame. cbn. rewrite Nat.add_0_r. tauto.
    + apply IH.
Qed.

Lemma store_single_run (msg_data : Row) (n : nat) (st : State) :
  store_single msg_data n st
  = let reply := w_upsert (world st) (c_upsert (cursor st)) [msg_data] in
    let st1 := set_cursor (bump_upsert (cursor st)) st in
    match reply with
    | UpsertData =>
        match mark_first msg_data (conversation_history st) with
        | Some marked =>
            mkRun (S n) (set_history marked st1) [EvUpsert [msg_data] reply]
        | None => mkRun n st1 [EvUpsert [msg_data] reply]
        end
    | UpsertRaise _ _ =>
        mkRun n st1 [EvUpsert [msg_data] reply;
                     EvLog Error "Error in fallback single storage"]
    | _ => mkRun n st1 [EvUpsert [msg_data] reply]
    end.
Proof.
  cbv zeta. unfold store_single. unfold bind at 1. cbn [upsert].
  destruct (w_upsert (world st) (c_upsert (cursor st)) [msg_data]); try reflexivity.
  rewrite mark_stored_run. cbn [conversation_history set_cursor].
  destruct (mark_first msg_data (conversation_history st)); reflexivity.
Qed.

Lemma store_single_frame (msg_data : Row) (n : nat) (st : State) :
  let r := store_single msg_data n st in
  flush_frame 1 st (final r) /\
  batches_of (effects r) = [[msg_data]] /\
  probes_of (effects r) = [] /\ sleeps_of (effects r) = [].
Proof.
  cbv zeta. rewrite store_single_run. cbv zeta.
  assert (F1 : forall h, flush_frame 1 st
                 (set_history h (set_cursor (bump_upsert (cursor st)) st)))
    by (intros h; unfold flush_frame; cbn; repeat split; lia).
  assert (F2 : flush_frame 1 st (set_cursor (bump_upsert (cursor st)) st))
    by (unfold flush_frame; cbn; repeat split; lia).
  destruct (w_upsert (world st) (c_upsert (cursor st)) [msg_data]);
    try destruct (mark_first msg_data (conversation_history st));
    cbn [final effects]; auto.
Qed.

Lemma store_singles_frame (batch : list Row) :
  forall n st,
    let r := fold_each store_single batch n st in
    flush_frame (List.length batch) st (final r) /\
    batches_of (effects r) = map (fun row => [row]) batch /\
    probes_of (effects r) = [] /\ sleeps_of (effects r) = [].
Proof.
  induction batch as [| row batch IH]; intros n st r.
  - cbn. split; [apply flush_frame_refl | auto].
  - unfold r. rewrite fold_each_cons. cbv zeta. cbn [final effects].
    destruct (store_single_frame row n st) as (F1 & B1 & P1 & S1).
    destruct (IH (value (store_single row n st)) (final (store_single row n st)))
      as (F2 & B2 & P2 & S2).
    rewrite batches_of_app, probes_of_app, sleeps_of_app, B1, B2, P1, P2, S1, S2.
    split; [exact (flush_frame_trans 1 _ _ _ _ F1 F2) | auto].
Qed.

Lemma store_batch_run (batch : list Row) (n : nat) (st : State) :
  store_batch batch n st
  = let reply := w_upsert (world st) (c_upsert (cursor st)) batch in
    let st1 := set_cursor (bump_upsert (cursor st)) st in
    match reply with
    | UpsertData =>
        let m := fold_each mark_stored batch n st1 in
        mkRun (value m) (final m)
              (EvUpsert batch reply :: effects m ++ [EvSleep 500])
    | UpsertRaise _ _ =>
        let f := fold_each store_single batch n st1 in
        mkRun (value f) (final f)
              (EvUpsert batch reply :: EvLog Error "Error during batch upsert"
               :: effects f ++ [EvSleep 500])
    | _ =>
        mkRun n st1
              [EvUpsert batch reply;
               EvLog Warning "Unexpected response from batch upsert";
               EvSleep 500]
    end.
Proof.
  cbv zeta. unfold store_batch. unfold bind at 1. cbn [upsert].
  destruct (w_upsert (world st) (c_upsert (cursor st)) batch); try reflexivity.
  - unfold bind at 1.
    destruct (fold_each mark_stored batch n _) as [v st2 e2]. reflexivity.
  - unfold bind at 1. unfold bind at 1. cbn [log emit].
    destruct (fold_each store_single batch n _) as [v st2 e2]. reflexivity.
Qed.

(** One group of the flush: the group is upserted, its rows are upserted
    one at a time when that raises, and a wait of 0.5 s ends the round. *)
Lemma store_batch_frame (batch : list Row) (n : nat) (st : State) :
  let r := store_batch batch n st in
  let reply := w_upsert (world st) (c_upsert (cursor st)) batch in
  flush_frame (match reply with
               | UpsertRaise _ _ => 1 + List.length batch
               | _ => 1
               end) st (final r) /\
  batches_of (effects r)
  = batch :: match reply with
             | UpsertRaise _ _ => map (fun row => [row]) batch
             | _ => []
             end /\
  probes_of (effects r) = [] /\ sleeps_of (effects r) = [500%Z].
Proof.
  cbv zeta. rewrite store_batch_run. cbv zeta.
  set (st1 := set_cursor (bump_upsert (cursor st)) st).
  assert (F1 : flush_frame 1 st st1) by (unfold flush_frame; cbn; repeat split; lia).
  destruct (w_upsert (world st) (c_upsert (cursor st)) batch) eqn:Ew.
  - destruct (mark_all_frame batch n st1) as (F & C & E).
    cbn [final effects]. rewrite E. cbn.
    split; [exact (flush_frame_trans 1 0 _ _ _ F1 F) | auto].
  - cbn. auto.
  - cbn. auto.
  - destruct (store_singles_frame batch n st1) as (F & B & P & S).
    cbn [final effects].
    change (EvUpsert batch (UpsertRaise etype msg)
            :: EvLog Error "Error during batch upsert"
            :: effects (fold_each store_single batch n st1) ++ [EvSleep 500])
      with ([EvUpsert batch (UpsertRaise etype msg);
             EvLog Error "Error during batch upsert"]
            ++ effects (fold_each store_single batch n st1) ++ [EvSleep 500%Z]).
    rewrite !batches_of_app, !probes_of_app, !sleeps_of_app, B, P, S. cbn.
    rewrite app_nil_r.
    split; [exact (flush_frame_trans 1 _ _ _ _ F1 F) | auto].
Qed.

(** The whole pass over the groups. *)
Lemma store_batches_frame (bs : list (list Row)) :
  forall n st,
    let r := fold_each store_batch bs n st in
    (exists k, flush_frame k st (final r)) /\
    batches_of (effects r) = expected_upserts (world st) (c_upsert (cursor st)) bs /\
    probes_of (effects r) = [] /\
    sleeps_of (effects r) = repeat 500%Z (List.length bs).
Proof.
  induction bs as [| b bs IH]; intros n st r.
  - cbn. split; [exists 0%nat; apply flush_frame_refl | auto].
  - unfold r. rewrite fold_each_cons. cbv zeta. cbn [final effects].
    destruct (store_batch_frame b n st) as (F1 & B1 & P1 & S1).
    destruct (IH (value (store_batch b n st)) (final (store_batch b n st)))
      as ((k & F2) & B2 & P2 & S2).
    rewrite batches_of_app, probes_of_app, sleeps_of_app, B1, B2, P1, P2, S1, S2.
    assert (Hw : world (final (store_batch b n st)) = world st) by apply F1.
    assert (Hc := proj2 (proj2 (proj2 (proj2 (proj2 F1))))).
    rewrite Hw, Hc. cbn [expected_upserts].
    split; [eexists; exact (flush_frame_trans _ _ _ _ _ F1 F2) |].
    split; [| auto].
    destruct (w_upsert (world st) (c_upsert (cursor st)) b); cbn [app];
      rewrite ?app_nil_r, <- ?app_assoc; try reflexivity.
    replace (c_upsert (cursor st) + (1 + List.length b))%nat
      with (c_upsert (cursor st) + 1 + List.length b)%nat by lia.
    reflexivity.
Qed.

Lemma store_full_conversation_run (st : State) (sid : string) (to_store_count : nat) :
  flush_ready st sid to_store_count ->
  let c := collect_messages sid (conversation_history st) st in
  let p := fold_each store_batch (batches_of_rows (snd (value c))) 0%nat
             (set_history (fst (value c)) (final c)) in
  store_full_conversation st
  = mkRun tt (final p)
      (effects c ++ effects p
       ++ [EvLog Info ("Successfully stored " ++ dec (value p) ++ "/"
                       ++ dec (S to_store_count) ++ " messages");
           EvLog Info "Total messages marked as stored"]).
Proof.
  intros (Hsup & Hsid & Hne & Hcount). cbv zeta.
  assert (Hm : forall (X : Type) (a b : X),
             match conversation_history st with [] => a | _ :: _ => b end = b).
  { intros. destruct (conversation_history st); [discriminate Hcount | reflexivity]. }
  unfold store_full_conversation. unfold bind at 1. cbn [get_state].
  rewrite Hsup, Hsid. cbn [negb].
  destruct sid as [| a sid']; [contradiction |].
  rewrite Hm, Hcount. unfold bind.
  destruct (collect_messages (String a sid') (conversation_history st) st)
    as [[h' rows] st1 e1].
  cbn [fst snd value final effects modify].
  destruct (fold_each store_batch (batches_of_rows rows) 0%nat (set_history h' st1))
    as [v st2 e2].
  cbn [value final effects log emit app]. reflexivity.
Qed.

(** A flush either stops at one of its guards with a log line, or reaches
    its batch loop. *)
Lemma store_full_conversation_cases (st : State) :
  (exists l msg, store_full_conversation st = mkRun tt st [EvLog l msg] /\
                 (supabase st = false \/ session_id st = None \/
                  session_id st = Some EmptyString \/
                  conversation_history st = [] \/
                  count_unstored (conversation_history st) = None \/
                  count_unstored (conversation_history st) = Some 0%nat)) \/
  (exists sid n, flush_ready st sid n).
Proof.
  unfold store_full_conversation, flush_ready. unfold bind at 1. cbn [get_state].
  destruct (supabase st) eqn:Hsup; cbn [negb];
    [| left; do 2 eexists; split; [reflexivity | tauto]].
  destruct (session_id st) as [[| a sid] |] eqn:Hsid;
    [left; do 2 eexists; split; [reflexivity | tauto] |
    | left; do 2 eexists; split; [reflexivity | tauto]].
  destruct (conversation_history st) as [| m h] eqn:Hh;
    [left; do 2 eexists; split; [reflexivity | tauto] |].
  destruct (count_unstored (m :: h)) as [[| n] |] eqn:Hc;
    [left; do 2 eexists; split; [reflexivity | tauto] |
    | left; do 2 eexists; split; [reflexivity | tauto]].
  right. exists (String a sid), n. repeat split; auto. discriminate.
Qed.

(** A flush never probes the store's health. *)
Lemma store_full_conversation_no_probe (st : State) :
  probes_of (effects (store_full_conversation st)) = [].
Proof.
  destruct (store_full_conversation_cases st)
    as [(l & msg & E & _) | (sid & n & Hready)].
  - rewrite E. reflexivity.
  - rewrite (store_full_conversation_run st sid n Hready). cbv zeta. cbn [effects].
    destruct (collect_messages_frame sid (conversation_history st) st)
      as (_ & _ & (_ & Pc & _)).
    destruct (store_batches_frame
                (batches_of_rows (snd (value (collect_messages sid (conversation_history st) st))))
                0%nat
                (set_history (fst (value (collect_messages sid (conversation_history st) st)))
                             (final (collect_messages sid (conversation_history st) st))))
      as (_ & _ & Pp & _).
    rewrite !probes_of_app, Pc, Pp. reflexivity.
Qed.

(** C2, as the code has it.  A single-message write makes its upsert only
    after the health probe has run and reported healthy; when the probe
    reports unhealthy the write makes no upsert, enqueues the message and
    returns False.  A batch flush makes no health probe at all: it is gated
    on the client global being set, and makes no upsert when it is not. *)
Theorem health_gate :
  (forall (st : State) (sid pid : string) (conversation : dict),
      let r := store_conversation_message sid pid conversation st in
      let h := check_supabase_health st in
      (upserts_of (effects r) <> [] ->
         value h = true /\
         probes_of (effects h) <> [] /\ upserts_of (effects h) = [] /\
         exists after, effects r = effects h ++ after) /\
      (agent_is_speaking st && String.eqb pid "system" = false ->
       value h = false ->
         upserts_of (effects r) = [] /\
         fst (value r) = Returned false /\
         exists item,
           retry_queue (final r)
           = keep_newest MAX_RETRY_QUEUE_SIZE (retry_queue st ++ [item]) /\
           In item (retry_queue (final r)) /\
           retry_count item = 0%Z /\
           item_session_id item = sid /\
           item_participant_id item = pid /\
           item_raw_conversation item = get_or "content" (VStr "") conversation)) /\
  (forall st : State,
      let r := store_full_conversation st in
      probes_of (effects r) = [] /\
      (supabase st = false -> upserts_of (effects r) = [])).
Proof.
  split.
  - intros st sid pid conversation r h. unfold r, h. clear r h.
    destruct (store_conversation_message_spec sid pid conversation st)
      as [Hd | sup cp ci evs Hd Hh | cp ci evs Hd Hh Hc
          | cp ci evs conv1 mid st1 st2 e2 Hd Hh Hc Hmid Hconv Hst1 Hs
          | cp ci evs conv1 mid st1 st2 st3 e2 e3 prepared reply ok
              Hd Hh Hc Hmid Hconv Hst1 Hs Hreply Hr];
      cbn [value final effects fst].
    + split; [intros H; exfalso; apply H; reflexivity |].
      intros Hd'. congruence.
    + destruct (health_effects _ _ _ _ Hh) as (Hu & Hp & _).
      rewrite Hh. cbn [value effects]. rewrite upserts_of_app, Hu. cbn.
      split; [intros H; exfalso; apply H; reflexivity |].
      intros _ _. split; [reflexivity |]. split; [reflexivity |].
      destruct (enqueued_item sid pid conversation (after_health st sup cp ci))
        as (item & Hi1 & Hi2 & Hi3 & Hi4 & Hi5 & Hi6 & _).
      exists item. repeat split; assumption.
    + destruct (health_effects _ _ _ _ Hh) as (Hu & Hp & _).
      rewrite Hh. cbn [value effects]. rewrite upserts_of_app, Hu. cbn.
      split; [intros H; exfalso; apply H; reflexivity |].
      intros _ H. discriminate H.
    + destruct (health_effects _ _ _ _ Hh) as (Hu & Hp & _).
      destruct (serialize_message_upserts _ _ _ _ _ _ Hs) as (Hu2 & _).
      rewrite Hh. cbn [value effects]. rewrite upserts_of_app, Hu, Hu2. cbn.
      split; [intros H; exfalso; apply H; reflexivity |].
      intros _ H. discriminate H.
    + destruct (health_effects _ _ _ _ Hh) as (Hu & Hp & _).
      rewrite Hh. cbn [value effects].
      split; [| intros _ H; discriminate H].
      intros _. split; [reflexivity |]. split; [exact Hp |]. split; [exact Hu |].
      eexists. reflexivity.
  - intros st r. split; [apply store_full_conversation_no_probe |].
    intros Hsup. unfold r.
    destruct (store_full_conversation_cases st)
      as [(l & msg & E & _) | (sid & n & (Hs & _))].
    + rewrite E. reflexivity.
    + congruence.
Qed.

(** The unhealthy branch of a single write, on a store that is down. *)
Lemma health_gate_witness :
  let st := idle_state down_world in
  let r := store_conversation_message "session-1" "user" (user_message 1) st in
  agent_is_speaking st && String.eqb "user" "system" = false /\
  value (check_supabase_health st) = false /\
  upserts_of (effects r) = [] /\
  fst (value r) = Returned false /\
  List.length (retry_queue (final r)) = 1%nat.
Proof.
  intros st r.
  assert (Hd : agent_is_speaking st && String.eqb "user" "system" = false)
    by reflexivity.
  assert (Hh : value (check_supabase_health st) = false) by (vm_compute; reflexivity).
  pose proof (proj1 health_gate st "session-1" "user" (user_message 1)) as H.
  cbv zeta in H. destruct H as (_ & H).
  destruct (H Hd Hh) as (Hu & Hv & _).
  split; [exact Hd |]. split; [exact Hh |]. split; [exact Hu |].
  split; [exact Hv |]. vm_compute. reflexivity.
Defined.

(** The claim as the spec words it fails on the batch flush: with the
    store down (a health probe would report unhealthy), a flush of a Log
    that holds one unstored message makes no probe and still sends its
    upserts. *)
Lemma health_gate_counterexample :
  let st := set_history [user_message 1] (idle_state down_world) in
  let r := store_full_conversation st in
  value (check_supabase_health st) = false /\
  probes_of (effects r) = [] /\
  List.length (upserts_of (effects r)) = 2%nat.
Proof.
  intros st r. split; [| split]; vm_compute; reflexivity.
Qed.

(** ** Serialization fallback *)

Lemma user_email_of_with_message_id (d : dict) (message_id : pyval) :
  user_email_of (with_message_id d message_id) = user_email_of d.
Proof.
  unfold user_email_of, with_message_id.
  destruct (dict_has "message_id" d); [reflexivity |].
  now rewrite dict_get_set_other.
Qed.

Lemma participant_of_with_message_id (d : dict) (message_id : pyval) :
  participant_of (with_message_id d message_id) = participant_of d.
Proof.
  unfold participant_of.
  rewrite !get_or_with_message_id by discriminate. reflexivity.
Qed.

Lemma safe_message_of_with_message_id (d : dict) (now : string)
  (message_id mid : pyval) :
  safe_message_of (with_message_id d message_id) now mid
  = [("role", get_or "role" (VStr "unknown") d);
     ("content", get_or "content" (VStr "") d);
     ("timestamp", get_or "timestamp" (VStr now) d);
     ("message_id", mid)].
Proof.
  unfold safe_message_of.
  rewrite !get_or_with_message_id by discriminate. reflexivity.
Qed.

(** The message_id a message has once [with_message_id] has run. *)
Lemma message_id_with_message_id (d : dict) (fresh : string) :
  get_or "message_id" VNone
         (with_message_id d (get_or "message_id" (VStr fresh) d))
  = get_or "message_id" (VStr fresh) d.
Proof.
  unfold with_message_id, dict_has, get_or.
  destruct (dict_get "message_id" d) as [v |] eqn:E.
  - rewrite E. reflexivity.
  - assert (H : forall m, dict_get "message_id" (dict_set "message_id" (VStr fresh) m)
                          = Some (VStr fresh)).
    { induction m as [| [k v] m IH]; [reflexivity |].
      cbn [dict_set]. destruct (String.eqb "message_id" k) eqn:Ek.
      - cbn [dict_get]. rewrite String.eqb_refl. reflexivity.
      - cbn [dict_get]. rewrite Ek. exact IH. }
    rewrite H. reflexivity.
Qed.

Lemma collect_messages_cons (sid : string) (message : dict) (history : list dict)
  (st : State) :
  collect_messages sid (message :: history) st
  = let p := prepare_message sid message st in
    let rest := collect_messages sid history (final p) in
    mkRun (fst (value p) :: fst (value rest),
           match snd (value p) with
           | Some insert_data => insert_data :: snd (value rest)
           | None => snd (value rest)
           end)
          (final rest) (effects p ++ effects rest).
Proof.
  cbn [collect_messages]. unfold bind.
  destruct (prepare_message sid message st) as [p st1 e1]. cbn [value final effects].
  destruct (collect_messages sid history st1) as [rest st2 e2].
  cbn [ret value final effects]. rewrite app_nil_r. reflexivity.
Qed.

Lemma collect_messages_app (sid : string) (l1 l2 : list dict) :
  forall st : State,
    collect_messages sid (l1 ++ l2) st
    = let r1 := collect_messages sid l1 st in
      let r2 := collect_messages sid l2 (final r1) in
      mkRun (fst (value r1) ++ fst (value r2), snd (value r1) ++ snd (value r2))
            (final r2) (effects r1 ++ effects r2).
Proof.
  induction l1 as [| m l1 IH]; intros st.
  - cbn. destruct (collect_messages sid l2 st) as [[h rows] st' evs]. reflexivity.
  - rewrite <- app_comm_cons, !collect_messages_cons. cbv zeta.
    rewrite IH. cbv zeta. cbn [value final effects fst snd].
    rewrite app_assoc.
    destruct (snd (value (prepare_message sid m st))); reflexivity.
Qed.


(** What the collecting loop makes of one unstored message. *)
Lemma prepare_message_cases (sid : string) (message : dict) (s : State) :
  unstored message = true ->
  let p := prepare_message sid message s in
  let message_id :=
    get_or "message_id" (VStr (w_uuid (world s) (c_uuid (cursor s)))) message in
  let message' := with_message_id message message_id in
  let content := get_or "content" (VStr "") message in
  let timestamp := get_or "timestamp" (VStr (clock s)) message in
  let safe_message :=
    [("role", get_or "role" (VStr "unknown") message);
     ("content", content);
     ("timestamp", timestamp);
     ("message_id", message_id)] in
  (serializable (VDict message') = true ->
     snd (value p)
     = Some (mkRow sid (participant_of message) (JsonText (VDict message'))
                   content 1 (user_email_of message) timestamp false)) /\
  (serializable (VDict message') = false ->
     logged Error "Failed to serialize message for batch storage" (effects p) /\
     (serializable (VDict safe_message) = true ->
        snd (value p)
        = Some (mkRow sid (participant_of message) (JsonText (VDict safe_message))
                      content 1 (VStr "") timestamp false)) /\
     (serializable (VDict safe_message) = false ->
        snd (value p) = None /\
        logged Error "Could not create safe version of message" (effects p))).
Proof.
  intros Hun. cbv zeta.
  rewrite prepare_message_run. cbv zeta.
  assert (Hbody : forall (A : Type) (x y : A),
             match stored_flag message with Some true => x | _ => y end = y).
  { intros. unfold unstored in Hun.
    destruct (stored_flag message) as [[|] |]; congruence. }
  rewrite Hbody. clear Hbody.
  assert (Hclock : clock (if dict_has "message_id" message then s
                          else set_cursor (bump_uuid (cursor s)) s) = clock s)
    by (destruct (dict_has "message_id" message); reflexivity).
  rewrite Hclock.
  assert (Hm : (if dict_has "message_id" message then message
                else dict_set "message_id"
                       (VStr (w_uuid (world s) (c_uuid (cursor s)))) message)
               = with_message_id message
                   (get_or "message_id"
                      (VStr (w_uuid (world s) (c_uuid (cursor s)))) message)).
  { unfold with_message_id, get_or, dict_has.
    destruct (dict_get "message_id" message); reflexivity. }
  rewrite Hm. clear Hm.
  rewrite safe_message_of_with_message_id, message_id_with_message_id.
  destruct (serializable (VDict (with_message_id message _))) eqn:E1.
  - cbn [value snd]. split; [| intros H; discriminate H].
    intros _. unfold full_row.
    rewrite participant_of_with_message_id, user_email_of_with_message_id.
    rewrite !get_or_with_message_id by discriminate. reflexivity.
  - split; [intros H; discriminate H |]. intros _.
    match goal with |- context [if serializable ?m then _ else _] =>
      destruct (serializable m) eqn:E2 end.
    + cbn [value snd effects].
      split; [left; reflexivity |].
      split; [| intros H; discriminate H].
      intros _. unfold safe_row.
      rewrite participant_of_with_message_id. reflexivity.
    + cbn [value snd effects].
      split; [left; reflexivity |].
      split; [intros H; discriminate H |].
      intros _. split; [reflexivity |].
      right. left. reflexivity.
Qed.

(** C8.  When [json.dumps] rejects a message, both writers build the
    reduced record, which holds the message's role, content and timestamp
    (or "unknown", the empty string and the current time where the message
    has none) and its message_id, and try [json.dumps] once more.  The
    single write then sends one row that carries the reduced record; if the
    reduced record is rejected too, the write ends in a TypeError that
    nothing catches, right after the log line of the first failure: there
    is no further log line, nothing is sent and nothing is enqueued.  The
    flush then puts the row of the reduced record in the message's place
    among the rows it sends; if the reduced record is rejected too, it logs
    that and sends no row for the message. *)
Theorem serialization_fallback :
  forall sid : string,
    (* the single write *)
    (forall (st : State) (pid : string) (conversation : dict),
      agent_is_speaking st && String.eqb pid "system" = false ->
      value (check_supabase_health st) = true ->
      conversation <> [] ->
      let r := store_conversation_message sid pid conversation st in
      let message_id :=
        get_or "message_id" (VStr (w_uuid (world st) (c_uuid (cursor st))))
               conversation in
      let conversation' := with_message_id conversation message_id in
      let content := get_or "content" (VStr "") conversation in
      let timestamp := get_or "timestamp" (VStr (clock st)) conversation in
      let safe_message :=
        [("role", get_or "role" (VStr "unknown") conversation);
         ("content", content);
         ("timestamp", timestamp);
         ("message_id", message_id)] in
      (serializable (VDict conversation') = true ->
         exists reply,
           upserts_of (effects r)
           = [([mkRow sid (VStr pid) (JsonText (VDict conversation')) content 1
                      (user_email_of conversation) timestamp false], reply)]) /\
      (serializable (VDict conversation') = false ->
         logged Error "Failed to serialize message data" (effects r) /\
         (serializable (VDict safe_message) = true ->
            exists reply,
              upserts_of (effects r)
              = [([mkRow sid (VStr pid) (JsonText (VDict safe_message)) content 1
                         (VStr "") timestamp false], reply)]) /\
         (serializable (VDict safe_message) = false ->
            value r = (Raised "TypeError", conversation') /\
            effects r
            = effects (check_supabase_health st)
              ++ [EvLog Error "Failed to serialize message data"] /\
            upserts_of (effects r) = [] /\
            retry_queue (final r) = retry_queue st))) /\
    (* the flush, for an unstored message of the Log *)
    (forall (st : State) (n : nat) (before after : list dict) (message : dict),
      flush_ready st sid n ->
      conversation_history st = before ++ message :: after ->
      unstored message = true ->
      let r := store_full_conversation st in
      let collected_before := collect_messages sid before st in
      let s := final collected_before in
      let p := prepare_message sid message s in
      let collected_after := collect_messages sid after (final p) in
      let message_id :=
        get_or "message_id" (VStr (w_uuid (world s) (c_uuid (cursor s)))) message in
      let message' := with_message_id message message_id in
      let content := get_or "content" (VStr "") message in
      let timestamp := get_or "timestamp" (VStr (clock s)) message in
      let safe_message :=
        [("role", get_or "role" (VStr "unknown") message);
         ("content", content);
         ("timestamp", timestamp);
         ("message_id", message_id)] in
      let sent := match snd (value p) with Some row => [row] | None => [] end in
      batches_of (effects r)
      = expected_upserts (world st) (c_upsert (cursor st))
          (batches_of_rows (snd (value collected_before) ++ sent
                            ++ snd (value collected_after))) /\
      (serializable (VDict message') = true ->
         sent = [mkRow sid (participant_of message) (JsonText (VDict message'))
                       content 1 (user_email_of message) timestamp false]) /\
      (serializable (VDict message') = false ->
         logged Error "Failed to serialize message for batch storage" (effects r) /\
         (serializable (VDict safe_message) = true ->
            sent = [mkRow sid (participant_of message) (JsonText (VDict safe_message))
                          content 1 (VStr "") timestamp false]) /\
         (serializable (VDict safe_message) = false ->
            sent = [] /\
            logged Error "Could not create safe version of message" (effects r)))).
Proof.
  intros sid. split.
  { intros st pid conversation.
    intros Hd Hh Hc. cbv zeta.
    destruct (store_conversation_message_spec sid pid conversation st)
      as [Hd' | sup cp ci evs Hd' Hh' | cp ci evs Hd' Hh' Hc'
          | cp ci evs conv1 mid st1 st2 e2 Hd' Hh' Hc' Hmid Hconv Hst1 Hs
          | cp ci evs conv1 mid st1 st2 st3 e2 e3 prepared reply ok
              Hd' Hh' Hc' Hmid Hconv Hst1 Hs Hreply Hr];
      try congruence; try (rewrite Hh' in Hh; discriminate Hh).
    - (* the TypeError leaves the call *)
      subst mid conv1. rewrite serialize_message_run in Hs.
      assert (Hclock : clock st1 = clock st) by (subst st1; reflexivity).
      rewrite Hclock in Hs. cbv zeta in Hs.
      rewrite safe_message_of_with_message_id in Hs.
      destruct (health_effects _ _ _ _ Hh') as (Hu & _).
      destruct (serializable (VDict (with_message_id conversation _))) eqn:E1;
        [discriminate Hs |].
      match type of Hs with context [if serializable ?m then _ else _] =>
        destruct (serializable m) eqn:E2 end; [discriminate Hs |].
      inversion Hs; subst st2 e2. cbn [value final effects].
      split; [intros H; discriminate H |].
      intros _. split; [unfold logged; apply in_or_app; right; left; reflexivity |].
      split; [intros H; discriminate H |].
      intros _. split; [reflexivity |].
      split; [rewrite Hh'; reflexivity |].
      split; [rewrite upserts_of_app, Hu; reflexivity |].
      subst st1. reflexivity.
    - (* the upsert is sent *)
      subst mid conv1. rewrite serialize_message_run in Hs.
      assert (Hclock : clock st1 = clock st) by (subst st1; reflexivity).
      rewrite Hclock in Hs. cbv zeta in Hs.
      rewrite safe_message_of_with_message_id in Hs.
      destruct (health_effects _ _ _ _ Hh') as (Hu & _).
      destruct (on_upsert_reply_upserts _ _ _ _ _ _ _ _ Hr) as (Hu3 & _).
      cbn [value final effects].
      destruct (serializable (VDict (with_message_id conversation _))) eqn:E1.
      + inversion Hs; subst prepared st2 e2.
        split; [| intros H; discriminate H].
        intros _. eexists.
        rewrite !upserts_of_app, Hu, Hu3. cbn [upserts_of app single_row].
        rewrite !get_or_with_message_id by discriminate.
        rewrite user_email_of_with_message_id. reflexivity.
      + match type of Hs with context [if serializable ?m then _ else _] =>
          destruct (serializable m) eqn:E2 end; [| discriminate Hs].
        inversion Hs; subst prepared st2 e2.
        split; [intros H; discriminate H |].
        intros _. split; [unfold logged; apply in_or_app; right; left; reflexivity |].
        split; [| intros H; discriminate H].
        intros _. eexists.
        rewrite !upserts_of_app, Hu, Hu3. cbn [upserts_of app single_row].
        reflexivity.
  }
  intros st n before after message.
    intros Hready Hsplit Hun. cbv zeta.
    pose proof (store_full_conversation_run st sid n Hready) as Hrun.
    cbv zeta in Hrun. rewrite Hrun. clear Hrun. cbn [effects].
    rewrite Hsplit, collect_messages_app. cbv zeta.
    rewrite collect_messages_cons. cbv zeta. cbn [value final effects fst snd].
    set (cb := collect_messages sid before st).
    pose proof (prepare_message_cases sid message (final cb) Hun) as Hp.
    cbv zeta in Hp.
    set (p := prepare_message sid message (final cb)) in *.
    set (ca := collect_messages sid after (final p)).
    assert (Hrows : snd (value cb)
                    ++ match snd (value p) with
                       | Some insert_data => insert_data :: snd (value ca)
                       | None => snd (value ca)
                       end
                    = snd (value cb)
                      ++ match snd (value p) with Some row => [row] | None => [] end
                      ++ snd (value ca))
      by (destruct (snd (value p)); reflexivity).
    rewrite Hrows. clear Hrows.
    split.
    { destruct (collect_messages_frame sid before st) as (Fb & _ & (Ub & _)).
      destruct (prepare_message_frame sid message (final cb)) as (Fp & _ & (Up & _)).
      destruct (collect_messages_frame sid after (final p)) as (Fa & _ & (Ua & _)).
      fold cb in Fb, Ub. fold p in Fp, Up. fold ca in Fa, Ua.
      match goal with |- context [fold_each store_batch ?g 0%nat ?s2] =>
        destruct (store_batches_frame g 0%nat s2) as (_ & Bp & _);
        set (st2 := s2) in *
      end.
      assert (Hw2 : world st2 = world st).
      { unfold st2. cbn [set_history world].
        destruct Fa as (-> & _), Fp as (-> & _), Fb as (-> & _). reflexivity. }
      assert (Hc2 : c_upsert (cursor st2) = c_upsert (cursor st)).
      { unfold st2. cbn [set_history cursor].
        rewrite (proj2 (proj2 (proj2 (proj2 (proj2 Fa))))),
                (proj2 (proj2 (proj2 (proj2 (proj2 Fp))))),
                (proj2 (proj2 (proj2 (proj2 (proj2 Fb))))). lia. }
      rewrite !batches_of_app. unfold batches_of at 1 2 3.
      rewrite Ub, Up, Ua. cbn [map app].
      rewrite Bp, Hw2, Hc2. cbn. now rewrite app_nil_r. }
    assert (Hlog : forall l msg rest, logged l msg (effects p) ->
               logged l msg ((effects cb ++ effects p ++ effects ca) ++ rest)).
    { intros l msg rest H. unfold logged in *. apply in_or_app. left.
      apply in_or_app. right. apply in_or_app. left. exact H. }
    destruct Hp as (Hfull & Hred).
    split.
    { intros H. rewrite (Hfull H). reflexivity. }
    intros H. destruct (Hred H) as (Hl1 & Hsafe & Hnone).
    split; [apply Hlog; exact Hl1 |].
    split.
    - intros H2. rewrite (Hsafe H2). reflexivity.
    - intros H2. destruct (Hnone H2) as (-> & Hl2).
      split; [reflexivity | apply Hlog; exact Hl2].
Qed.

(** The fallback at work.  A message with a coroutine in its metadata goes
    out in its reduced form, from the single write and from the flush; a
    message whose content is a coroutine ends the single write in a
    TypeError and is left out by the flush. *)
Lemma serialization_fallback_witness :
  let st := idle_state calm_world in
  let r := store_conversation_message "session-1" "system" awkward_message st in
  let r' := store_conversation_message "session-1" "system" hopeless_message st in
  let logged_state := set_history mixed_log st in
  let flush := store_full_conversation logged_state in
  let safe_message :=
    [("role", VStr "system");
     ("content", VStr "Search results");
     ("timestamp", VStr "2025-01-01T00:00:01+00:00");
     ("message_id", VStr "message-a")] in
  let safe_row :=
    mkRow "session-1" (VStr "system") (JsonText (VDict safe_message))
          (VStr "Search results") 1 (VStr "")
          (VStr "2025-01-01T00:00:01+00:00") false in
  agent_is_speaking st && String.eqb "system" "system" = false /\
  value (check_supabase_health st) = true /\
  flush_ready logged_state "session-1" 2 /\
  serializable (VDict awkward_message) = false /\
  serializable (VDict safe_message) = true /\
  (exists reply, upserts_of (effects r) = [([safe_row], reply)]) /\
  value r' = (Raised "TypeError", hopeless_message) /\
  effects r'
  = effects (check_supabase_health st)
    ++ [EvLog Error "Failed to serialize message data"] /\
  retry_queue (final r') = [] /\
  batches_of (effects flush)
  = [[full_row "session-1" (user_message 0) "2025-01-01T00:00:00+00:00"; safe_row]] /\
  logged Error "Could not create safe version of message" (effects flush).
Proof.
  intros st r r' logged_state flush safe_message safe_row.
  assert (Hd : agent_is_speaking st && String.eqb "system" "system" = false)
    by reflexivity.
  assert (Hh : value (check_supabase_health st) = true) by (vm_compute; reflexivity).
  assert (Hready : flush_ready logged_state "session-1" 2).
  { unfold flush_ready. repeat split; try reflexivity. discriminate. }
  assert (H1 : serializable (VDict awkward_message) = false) by reflexivity.
  assert (H2 : serializable (VDict safe_message) = true) by reflexivity.
  destruct (serialization_fallback "session-1") as (Hsingle & Hflush).
  pose proof (Hsingle st "system" awkward_message Hd Hh ltac:(discriminate)) as Ha.
  pose proof (Hsingle st "system" hopeless_message Hd Hh ltac:(discriminate)) as Hb.
  pose proof (Hflush logged_state 2%nat [user_message 0] [hopeless_message]
                awkward_message Hready eq_refl eq_refl) as Hc.
  pose proof (Hflush logged_state 2%nat [user_message 0; awkward_message] []
                hopeless_message Hready eq_refl eq_refl) as He.
  cbv zeta in Ha, Hb, Hc, He.
  destruct Ha as (_ & Ha). destruct (Ha H1) as (_ & Ha2 & _).
  destruct Hb as (_ & Hb). destruct (Hb eq_refl) as (_ & _ & Hb2).
  destruct (Hb2 eq_refl) as (Hv & He' & _ & Hq).
  destruct Hc as (Hbatches & _).
  destruct He as (_ & _ & He). destruct (He eq_refl) as (_ & _ & He2).
  destruct (He2 eq_refl) as (_ & Hlog).
  split; [exact Hd |]. split; [exact Hh |]. split; [exact Hready |].
  split; [exact H1 |]. split; [exact H2 |].
  split; [exact (Ha2 H2) |].
  split; [exact Hv |]. split; [exact He' |]. split; [exact Hq |].
  split; [| exact Hlog].
  unfold flush. rewrite Hbatches. vm_compute. reflexivity.
Defined.

(** When the reduced form cannot be encoded either, the single write ends
    in a TypeError, with no line in the log after that of the first
    failure, and the flush skips the message after logging it. *)
Example hopeless_message_is_given_up :
  let st := set_history [hopeless_message] (idle_state calm_world) in
  let r := store_conversation_message "session-1" "system" hopeless_message st in
  value r = (Raised "TypeError", hopeless_message) /\
  last (effects r) (EvSleep 0) = EvLog Error "Failed to serialize message data" /\
  upserts_of (effects r) = [] /\
  retry_queue (final r) = [] /\
  upserts_of (effects (store_full_conversation st)) = [] /\
  logged Error "Could not create safe version of message"
         (effects (store_full_conversation st)).
Proof.
  cbv zeta. split; [vm_compute; reflexivity |].
  split; [vm_compute; reflexivity |].
  split; [vm_compute; reflexivity |].
  split; [vm_compute; reflexivity |].
  split; [vm_compute; reflexivity |].
  unfold logged. vm_compute. right. left. reflexivity.
Qed.

(** ** What a single write does with the stored flag *)

Lemma list_set_same {A} (i : nat) (x : A) (l : list A) :
  nth_error l i = Some x -> list_set i x l = l.
Proof.
  revert i. induction l as [| y l IH]; intros [| i] H; cbn in *;
    try discriminate; try reflexivity.
  - injection H as ->. reflexivity.
  - rewrite (IH i H). reflexivity.
Qed.

Lemma map_list_set {A B} (f : A -> B) (i : nat) (x y : A) (l : list A) :
  nth_error l i = Some x -> f y = f x ->
  map f (list_set i y l) = map f l.
Proof.
  revert i. induction l as [| z l IH]; intros [| i] H Hf; cbn in *;
    try discriminate; try reflexivity.
  - injection H as ->. rewrite Hf. reflexivity.
  - rewrite (IH i H Hf). reflexivity.
Qed.

Lemma stored_flag_set_message_id (conversation : dict) (v : pyval) :
  stored_flag (dict_set "message_id" v conversation) = stored_flag conversation.
Proof.
  unfold stored_flag. rewrite dict_get_set_other by discriminate. reflexivity.
Qed.

(** What the write returns, leaves in its argument, in the Log and in the
    queue, on each of its ways. *)
Lemma store_conversation_message_outcomes (st : State) (sid pid : string)
  (conversation : dict) :
  let r := store_conversation_message sid pid conversation st in
  let fresh := VStr (w_uuid (world st) (c_uuid (cursor st))) in
  let deferred := agent_is_speaking st && String.eqb pid "system" in
  let healthy := value (check_supabase_health st) in
  let reached := negb deferred && healthy && negb (dict_is_empty conversation) in
  let skipped := negb deferred && healthy && dict_is_empty conversation in
  conversation_history (final r) = conversation_history st /\
  snd (value r)
  = (if reached && negb (dict_has "message_id" conversation)
     then dict_set "message_id" fresh conversation
     else conversation) /\
  (fst (value r) = Returned true ->
     retry_queue (final r) = retry_queue st /\
     exists rows reply, upserts_of (effects r) = [(rows, reply)]) /\
  (fst (value r) = Returned false ->
     if skipped
     then retry_queue (final r) = retry_queue st /\ upserts_of (effects r) = []
     else exists item,
         retry_queue (final r)
         = keep_newest MAX_RETRY_QUEUE_SIZE (retry_queue st ++ [item]) /\
         In item (retry_queue (final r)) /\
         retry_count item = 0%Z /\
         item_session_id item = sid /\
         item_participant_id item = pid /\
         item_raw_conversation item = get_or "content" (VStr "") conversation) /\
  (skipped = true -> fst (value r) = Returned false).
Proof.
  cbv zeta.
  destruct (store_conversation_message_spec sid pid conversation st)
    as [Hd | sup cp ci evs Hd Hh | cp ci evs Hd Hh Hc
        | cp ci evs conv1 mid st1 st2 e2 Hd Hh Hc Hmid Hconv Hst1 Hs
        | cp ci evs conv1 mid st1 st2 st3 e2 e3 prepared reply ok
            Hd Hh Hc Hmid Hconv Hst1 Hs Hreply Hr];
    cbn [value final effects fst snd]; rewrite Hd; cbn [negb andb].
  - rewrite enqueued_eq. split; [reflexivity |]. split; [reflexivity |].
    split; [intros H; discriminate H |].
    split; [| intros H; discriminate H]. intros _.
    rewrite <- enqueued_eq.
    destruct (enqueued_item sid pid conversation st)
      as (item & Hi1 & Hi2 & Hi3 & Hi4 & Hi5 & Hi6 & _).
    exists item. repeat split; assumption.
  - rewrite Hh. cbn [value negb andb].
    rewrite enqueued_eq. split; [reflexivity |]. split; [reflexivity |].
    split; [intros H; discriminate H |].
    split; [| intros H; discriminate H]. intros _.
    rewrite <- enqueued_eq.
    destruct (enqueued_item sid pid conversation (after_health st sup cp ci))
      as (item & Hi1 & Hi2 & Hi3 & Hi4 & Hi5 & Hi6 & _).
    exists item. repeat split; assumption.
  - rewrite Hh, Hc. cbn [value negb andb dict_is_empty].
    split; [reflexivity |]. split; [reflexivity |].
    split; [intros H; discriminate H |].
    split; [| reflexivity]. intros _. split; [reflexivity |].
    rewrite upserts_of_app. destruct (health_effects _ _ _ _ Hh) as (Hu & _).
    rewrite Hu. reflexivity.
  - destruct (serialize_message_upserts _ _ _ _ _ _ Hs) as (_ & _ & Hq2 & Hh2).
    rewrite Hh. cbn [value negb andb].
    destruct conversation as [| kv conversation']; [contradiction |].
    cbn [dict_is_empty negb andb].
    split; [rewrite Hh2; subst st1; reflexivity |].
    split.
    { rewrite Hconv, Hmid. unfold with_message_id, get_or, dict_has.
      destruct (dict_get "message_id" (kv :: conversation')); reflexivity. }
    split; [intros H; discriminate H |].
    split; intros H; discriminate H.
  - destruct (health_effects _ _ _ _ Hh) as (Hu & _).
    destruct (serialize_message_upserts _ _ _ _ _ _ Hs) as (Hu2 & _ & Hq2 & Hh2).
    destruct (on_upsert_reply_upserts _ _ _ _ _ _ _ _ Hr) as (Hu3 & _ & Hh3).
    assert (Hq1 : retry_queue st1 = retry_queue st) by (subst st1; reflexivity).
    assert (Hh1 : conversation_history st1 = conversation_history st)
      by (subst st1; reflexivity).
    rewrite Hh. cbn [value negb andb].
    destruct conversation as [| kv conversation']; [contradiction |].
    cbn [dict_is_empty negb andb].
    split; [rewrite Hh3; cbn [set_cursor conversation_history]; congruence |].
    split.
    { rewrite Hconv, Hmid. unfold with_message_id, get_or, dict_has.
      destruct (dict_get "message_id" (kv :: conversation')); reflexivity. }
    rewrite on_upsert_reply_run in Hr.
    split; [| split; [| intros H; discriminate H]].
    + intros Hok. inversion Hok; subst ok.
      split.
      * destruct reply; try rewrite on_upsert_exception_run in Hr;
          try match type of Hr with context [if ?c then _ else _] => destruct c end;
          inversion Hr; subst; cbn [set_cursor retry_queue]; congruence.
      * do 2 eexists. rewrite !upserts_of_app, Hu, Hu2, Hu3. reflexivity.
    + intros Hok. inversion Hok; subst ok.
      destruct (enqueued_item sid pid conv1 (set_cursor (bump_upsert (cursor st2)) st2))
        as (item & Hi1 & Hi2 & Hi3 & Hi4 & Hi5 & Hi6 & _).
      cbn [set_cursor retry_queue] in Hi1. rewrite Hq2, Hq1 in Hi1.
      assert (Hst3 : st3 = enqueued sid pid conv1
                             (set_cursor (bump_upsert (cursor st2)) st2)).
      { destruct reply; try rewrite on_upsert_exception_run in Hr;
          try match type of Hr with context [if ?c then _ else _] => destruct c end;
          inversion Hr; reflexivity. }
      rewrite Hst3. exists item.
      repeat split; try assumption.
      rewrite Hi6, Hconv. apply get_or_with_message_id. discriminate.
Qed.

Lemma store_log_entry_run (sid pid : string) (i : nat) (conversation : dict)
  (st : State) :
  nth_error (conversation_history st) i = Some conversation ->
  let r0 := store_conversation_message sid pid conversation st in
  store_log_entry sid pid i st
  = mkRun (Some (fst (value r0)))
          (set_history (list_set i (snd (value r0)) (conversation_history (final r0)))
                       (final r0))
          (effects r0).
Proof.
  intros H. cbv zeta. unfold store_log_entry. rewrite H.
  destruct (store_conversation_message sid pid conversation st) as [[res c'] st' evs].
  reflexivity.
Qed.

(** C1, as the code has it.  A single-message write never marks a Log
    entry stored.  After a write made for an entry of the Log, the Log is
    as before, except that this entry has gained a message_id, a fresh
    uuid, if it had none and the write was not deferred, found the store
    healthy and the message not empty; every entry's stored flag is as it
    was.  A write that returns True has sent exactly one upsert and
    enqueued nothing.  A write that returns False has itself enqueued one
    item for the message, with retry_count 0; the one exception is an empty
    message in a write that is not deferred and finds the store healthy:
    it is skipped, False is returned, nothing is sent and nothing is
    enqueued. *)
Theorem single_write_outcomes :
  forall (st : State) (sid pid : string) (i : nat) (conversation : dict),
    nth_error (conversation_history st) i = Some conversation ->
    let r := store_log_entry sid pid i st in
    let fresh := VStr (w_uuid (world st) (c_uuid (cursor st))) in
    let deferred := agent_is_speaking st && String.eqb pid "system" in
    let healthy := value (check_supabase_health st) in
    let reached := negb deferred && healthy && negb (dict_is_empty conversation) in
    let skipped := negb deferred && healthy && dict_is_empty conversation in
    conversation_history (final r)
    = (if reached && negb (dict_has "message_id" conversation)
       then list_set i (dict_set "message_id" fresh conversation)
                     (conversation_history st)
       else conversation_history st) /\
    map stored_flag (conversation_history (final r))
    = map stored_flag (conversation_history st) /\
    (value r = Some (Returned true) ->
       retry_queue (final r) = retry_queue st /\
       exists rows reply, upserts_of (effects r) = [(rows, reply)]) /\
    (value r = Some (Returned false) ->
       if skipped
       then retry_queue (final r) = retry_queue st /\ upserts_of (effects r) = []
       else exists item,
           retry_queue (final r)
           = keep_newest MAX_RETRY_QUEUE_SIZE (retry_queue st ++ [item]) /\
           In item (retry_queue (final r)) /\
           retry_count item = 0%Z /\
           item_session_id item = sid /\
           item_participant_id item = pid /\
           item_raw_conversation item = get_or "content" (VStr "") conversation) /\
    (skipped = true -> value r = Some (Returned false)).
Proof.
  intros st sid pid i conversation Hi. cbv zeta.
  rewrite (store_log_entry_run sid pid i conversation st Hi).
  cbv zeta. cbn [value final effects set_history conversation_history retry_queue].
  destruct (store_conversation_message_outcomes st sid pid conversation)
    as (Hh & Hm & Ht & Hf & Hs).
  rewrite Hh, Hm.
  split.
  { destruct (_ && negb (dict_has "message_id" conversation));
      [reflexivity | apply list_set_same; exact Hi]. }
  split.
  { apply map_list_set with (x := conversation); [exact Hi |].
    destruct (_ && negb (dict_has "message_id" conversation));
      [apply stored_flag_set_message_id | reflexivity]. }
  split; [intros H; apply Ht; congruence |].
  split; [intros H; apply Hf; congruence |].
  intros H. rewrite (Hs H). reflexivity.
Qed.

(** A spoken message, which has no message_id yet, written on a healthy
    store: the write succeeds, the Log's entry gains the message_id and is
    still unstored. *)
Lemma single_write_outcomes_witness :
  let st := set_history [user_message 1; spoken_message] (idle_state calm_world) in
  let r := store_log_entry "session-1" "user" 1 st in
  nth_error (conversation_history st) 1 = Some spoken_message /\
  value r = Some (Returned true) /\
  conversation_history (final r)
  = [user_message 1; dict_set "message_id" (VStr "uuid") spoken_message] /\
  map stored_flag (conversation_history (final r)) = [Some false; Some false] /\
  retry_queue (final r) = [].
Proof.
  intros st r.
  assert (Hi : nth_error (conversation_history st) 1 = Some spoken_message)
    by reflexivity.
  destruct (single_write_outcomes st "session-1" "user" 1 spoken_message Hi)
    as (Hlog & Hflags & Htrue & _).
  assert (Hv : value r = Some (Returned true)) by (vm_compute; reflexivity).
  split; [exact Hi |]. split; [exact Hv |].
  split; [exact Hlog |]. split; [exact Hflags |].
  exact (proj1 (Htrue Hv)).
Defined.

(** The claim as the spec words it fails on any write that succeeds: the
    entry of the Log it was made for is still unstored when the call
    returns. *)
Lemma single_write_counterexample :
  let st := set_history [user_message 1] (idle_state calm_world) in
  let r := store_log_entry "session-1" "user" 0 st in
  value r = Some (Returned true) /\
  conversation_history (final r) = [user_message 1] /\
  stored_flag (user_message 1) = Some false /\
  map stored_flag (conversation_history (final r)) = [Some false].
Proof.
  cbv zeta. repeat split; vm_compute; reflexivity.
Qed.

(** An empty message is skipped on a healthy store, and enqueued by a write
    that is deferred. *)
Example empty_message_deferred :
  let quiet := set_history [[]] (idle_state calm_world) in
  let busy := set_history [[]] (speaking_state calm_world) in
  value (store_log_entry "session-1" "system" 0 quiet) = Some (Returned false) /\
  retry_queue (final (store_log_entry "session-1" "system" 0 quiet)) = [] /\
  value (store_log_entry "session-1" "system" 0 busy) = Some (Returned false) /\
  List.length (retry_queue (final (store_log_entry "session-1" "system" 0 busy)))
  = 1%nat.
Proof.
  cbv zeta. repeat split; vm_compute; reflexivity.
Qed.

(** ** Groups of ten *)

Lemma batch_count_step (n : nat) :
  (0 < n)%nat ->
  ((n + (batch_size - 1)) / batch_size
   = S ((n - batch_size + (batch_size - 1)) / batch_size))%nat.
Proof.
  unfold batch_size. intros Hn. cbn [Nat.sub].
  destruct (Nat.le_gt_cases 10 n) as [Hge | Hlt].
  - replace (n + 9)%nat with ((n - 10 + 9) + 1 * 10)%nat by lia.
    rewrite Nat.div_add by discriminate. lia.
  - replace (n - 10)%nat with 0%nat by lia.
    change ((0 + 9) / 10)%nat with 0%nat.
    symmetry. apply Nat.div_unique with (r := (n - 1)%nat); lia.
Qed.

(** The slices of the batch loop, one after the other. *)
Lemma batches_of_rows_cons {A} (l : list A) :
  l <> [] ->
  batches_of_rows l = firstn batch_size l :: batches_of_rows (skipn batch_size l).
Proof.
  intros Hl. unfold batches_of_rows, batch_starts.
  assert (Hlen : (0 < List.length l)%nat)
    by (destruct l; [contradiction | cbn; lia]).
  rewrite (batch_count_step _ Hlen), length_skipn.
  cbn [seq map]. f_equal.
  rewrite <- seq_shift, !map_map.
  apply map_ext. intros k. rewrite skipn_skipn. f_equal. f_equal. lia.
Qed.

Lemma batches_of_rows_nil {A} : batches_of_rows (@nil A) = [].
Proof. reflexivity. Qed.

(** The groups are consecutive pieces of the list, each of one to ten
    rows, all but the last of exactly ten. *)
Lemma batches_of_rows_partition {A} (l : list A) :
  List.concat (batches_of_rows l) = l /\
  Forall (fun b => (1 <= List.length b <= batch_size)%nat) (batches_of_rows l) /\
  Forall (fun b => List.length b = batch_size) (removelast (batches_of_rows l)).
Proof.
  remember (List.length l) as n eqn:Hn. revert l Hn.
  induction n as [n IH] using lt_wf_ind. intros l Hn.
  destruct l as [| x l'].
  - cbn. auto.
  - rewrite batches_of_rows_cons by discriminate.
    set (rest := skipn batch_size (x :: l')).
    assert (Hlt : (List.length rest < n)%nat)
      by (unfold rest; rewrite length_skipn; subst n; unfold batch_size;
          cbn [List.length]; lia).
    destruct (IH _ Hlt rest eq_refl) as (Hc & Hf & Hr).
    split; [| split].
    + cbn [List.concat]. rewrite Hc. apply firstn_skipn.
    + constructor; [| exact Hf].
      rewrite length_firstn. unfold batch_size. cbn [List.length]. lia.
    + destruct (batches_of_rows rest) as [| b bs] eqn:Eb.
      * constructor.
      * cbn [removelast]. constructor; [| exact Hr].
        rewrite length_firstn.
        assert (Hrest : rest <> []).
        { intros E. rewrite E in Eb. discriminate Eb. }
        assert ((0 < List.length rest)%nat)
          by (destruct rest; [contradiction | cbn [List.length]; lia]).
        unfold rest in H. rewrite length_skipn in H. unfold batch_size in *. lia.
Qed.

(** ** Marking *)

Lemma dict_get_set_same (k : string) (v : pyval) (d : dict) :
  dict_get k (dict_set k v d) = Some v.
Proof.
  induction d as [| [k0 v0] d IH]; cbn.
  - now rewrite String.eqb_refl.
  - destruct (String.eqb_spec k k0) as [-> | Hne]; cbn.
    + now rewrite String.eqb_refl.
    + destruct (String.eqb_spec k k0); [contradiction | exact IH].
Qed.

Lemma stored_flag_set_stored (msg : dict) : stored_flag (set_stored msg) = Some true.
Proof.
  unfold stored_flag, set_stored. rewrite dict_get_set_same.
  unfold get_or. rewrite dict_get_set_same. reflexivity.
Qed.

Lemma unstored_set_stored (msg : dict) : unstored (set_stored msg) = false.
Proof. unfold unstored. now rewrite stored_flag_set_stored. Qed.

Lemma key_of_set_stored (msg : dict) : key_of (set_stored msg) = key_of msg.
Proof.
  unfold key_of, set_stored, get_or.
  rewrite !dict_get_set_other by discriminate. reflexivity.
Qed.

Lemma well_keyed_set_stored (msg : dict) : well_keyed msg -> well_keyed (set_stored msg).
Proof.
  unfold well_keyed, set_stored. rewrite !dict_get_set_other by discriminate. tauto.
Qed.

(** The marking loop marks the first entry that passes its test, and only
    that one. *)
Lemma mark_first_some (row : Row) (history marked : list dict) :
  mark_first row history = Some marked ->
  exists pre msg post,
    history = pre ++ msg :: post /\
    Forall (fun m => matches_row row m = false) pre /\
    matches_row row msg = true /\
    marked = pre ++ set_stored msg :: post.
Proof.
  revert marked. induction history as [| m h IH]; intros marked H; [discriminate H |].
  cbn in H. destruct (matches_row row m) eqn:Em.
  - inversion H; subst. exists [], m, h. auto.
  - destruct (mark_first row h) as [h' |]; [| discriminate H].
    inversion H; subst.
    destruct (IH h' eq_refl) as (pre & msg & post & -> & Hpre & Hmsg & ->).
    exists (m :: pre), msg, post. repeat split; auto.
Qed.

Lemma mark_first_none (row : Row) (history : list dict) :
  mark_first row history = None ->
  Forall (fun m => matches_row row m = false) history.
Proof.
  induction history as [| m h IH]; intros H; [constructor |].
  cbn in H. destruct (matches_row row m) eqn:Em; [discriminate H |].
  destruct (mark_first row h); [discriminate H |]. auto.
Qed.

Lemma mark_all_history (batch : list Row) :
  forall n st,
    conversation_history (final (fold_each mark_stored batch n st))
    = mark_all batch (conversation_history st).
Proof.
  induction batch as [| row batch IH]; intros n st; [reflexivity |].
  rewrite fold_each_cons. cbv zeta. cbn [final]. rewrite IH, mark_stored_run.
  unfold mark_all. cbn [fold_left]. unfold mark_step.
  destruct (mark_first row (conversation_history st)); reflexivity.
Qed.

Lemma mark_all_app (a b : list Row) (history : list dict) :
  mark_all (a ++ b) history = mark_all b (mark_all a history).
Proof. unfold mark_all. apply fold_left_app. Qed.

(** For entries and rows whose keys are strings, the marking test is
    equality of the keys. *)
Lemma matches_row_key (row : Row) (msg source : dict) :
  well_keyed msg -> well_keyed source -> row_key row = key_of source ->
  matches_row row msg = true <-> key_of msg = key_of source.
Proof.
  intros ((t & Ht) & (r & Hr) & _) ((t' & Ht') & (r' & Hr') & _) Hk.
  unfold row_key, key_of, get_or in Hk. rewrite Ht', Hr' in Hk.
  inversion Hk as [[Hts Hpid]].
  unfold matches_row, key_of, get_or. rewrite Ht, Hr, Ht', Hr', Hts, Hpid.
  cbn [py_eqb]. rewrite andb_true_iff, !String.eqb_eq.
  split; [intros [-> ->]; reflexivity | intros H; inversion H; auto].
Qed.

Lemma mark_step_invariants (row : Row) (history : list dict) (source : dict) :
  Forall well_keyed history ->
  NoDup (map key_of history) ->
  Forall (fun m => stored_flag m <> None) history ->
  well_keyed source -> row_key row = key_of source ->
  map key_of (mark_step row history) = map key_of history /\
  Forall well_keyed (mark_step row history) /\
  Forall (fun m => stored_flag m <> None) (mark_step row history) /\
  (forall m, In m (mark_step row history) -> unstored m = true ->
     In m history /\ key_of m <> row_key row).
Proof.
  intros Hwk Hnd Hsf Hsrc Hkey. unfold mark_step.
  destruct (mark_first row history) as [marked |] eqn:Em.
  - destruct (mark_first_some _ _ _ Em) as (pre & msg & post & -> & Hpre & Hmsg & ->).
    apply Forall_app in Hwk. destruct Hwk as [Hwk1 Hwk2].
    inversion Hwk2 as [| ? ? Hwmsg Hwk3]; subst.
    apply Forall_app in Hsf. destruct Hsf as [Hsf1 Hsf2].
    inversion Hsf2 as [| ? ? Hsmsg Hsf3]; subst.
    assert (Hkmsg : key_of msg = row_key row).
    { rewrite Hkey. apply (matches_row_key row msg source); assumption. }
    split; [| split; [| split]].
    + rewrite !map_app. cbn [map]. now rewrite key_of_set_stored.
    + apply Forall_app. split; [exact Hwk1 |].
      constructor; [apply well_keyed_set_stored; exact Hwmsg | exact Hwk3].
    + apply Forall_app. split; [exact Hsf1 |].
      constructor; [rewrite stored_flag_set_stored; discriminate | exact Hsf3].
    + intros m Hin Hun.
      rewrite map_app in Hnd. cbn [map] in Hnd.
      apply NoDup_remove_2 in Hnd.
      apply in_app_or in Hin. destruct Hin as [Hin | [Heq | Hin]].
      * split; [apply in_or_app; left; exact Hin |].
        intros Hk. apply Hnd. apply in_or_app. left.
        rewrite Hkmsg, <- Hk. apply in_map. exact Hin.
      * subst m. rewrite unstored_set_stored in Hun. discriminate Hun.
      * split; [apply in_or_app; right; right; exact Hin |].
        intros Hk. apply Hnd. apply in_or_app. right.
        rewrite Hkmsg, <- Hk. apply in_map. exact Hin.
  - pose proof (mark_first_none _ _ Em) as Hnone.
    split; [reflexivity |]. split; [exact Hwk |]. split; [exact Hsf |].
    intros m Hin Hun. split; [exact Hin |].
    intros Hk. rewrite Forall_forall in Hnone, Hwk.
    pose proof (Hnone m Hin) as Hnm.
    assert (Hm : matches_row row m = true).
    { apply (matches_row_key row m source); auto. congruence. }
    congruence.
Qed.

(** With distinct string keys in the Log, marking for the rows of all its
    unstored entries leaves every entry stored. *)
Lemma mark_all_stores_all (rows : list Row) :
  forall history,
    Forall well_keyed history ->
    NoDup (map key_of history) ->
    Forall (fun m => stored_flag m <> None) history ->
    (forall row, In row rows ->
       exists source, well_keyed source /\ row_key row = key_of source) ->
    (forall m, In m history -> unstored m = true ->
       In (key_of m) (map row_key rows)) ->
    Forall (fun m => unstored m = false) (mark_all rows history) /\
    Forall (fun m => stored_flag m <> None) (mark_all rows history) /\
    map key_of (mark_all rows history) = map key_of history.
Proof.
  induction rows as [| row rows IH]; intros history Hwk Hnd Hsf Hrows Hcover.
  - cbn. split; [| auto]. apply Forall_forall. intros m Hin.
    destruct (unstored m) eqn:Hun; [| reflexivity].
    destruct (Hcover m Hin Hun).
  - unfold mark_all. cbn [fold_left].
    fold (mark_all rows (mark_step row history)).
    destruct (Hrows row (or_introl eq_refl)) as (source & Hsrc & Hkey).
    destruct (mark_step_invariants row history source Hwk Hnd Hsf Hsrc Hkey)
      as (Hk & Hwk' & Hsf' & Hun').
    destruct (IH (mark_step row history)) as (H1 & H2 & H3); auto.
    + rewrite Hk. exact Hnd.
    + intros r Hr. apply Hrows. right. exact Hr.
    + intros m Hin Hun. destruct (Hun' m Hin Hun) as [Hin0 Hne].
      destruct (Hcover m Hin0 Hun) as [Heq | Hin1]; [| exact Hin1].
      exfalso. apply Hne. symmetry. exact Heq.
    + split; [exact H1 |]. split; [exact H2 |]. congruence.
Qed.

Lemma count_unstored_all_stored (history : list dict) :
  Forall (fun m => unstored m = false) history ->
  count_unstored history = Some 0%nat.
Proof.
  induction 1 as [| m h Hm Hh IH]; [reflexivity |].
  cbn. rewrite IH. unfold unstored in Hm.
  destruct (stored_flag m) as [[|] |]; try discriminate Hm. reflexivity.
Qed.

Lemma count_unstored_filter (history : list dict) (n : nat) :
  count_unstored history = Some n ->
  Forall (fun m => stored_flag m <> None) history /\
  List.length (filter unstored history) = n.
Proof.
  revert n. induction history as [| m h IH]; intros n H.
  - inversion H. auto.
  - cbn [count_unstored] in H. cbn [filter].
    assert (Hu : unstored m
                 = match stored_flag m with Some true => false | _ => true end)
      by reflexivity.
    rewrite Hu. clear Hu.
    destruct (stored_flag m) as [[|] |] eqn:Es; try discriminate H;
      destruct (count_unstored h) as [k |]; try discriminate H;
      destruct (IH k eq_refl) as [Hf Hl]; inversion H; subst;
      (split; [constructor; [congruence | exact Hf] | cbn [List.length]; congruence]).
Qed.

(** ** What the collecting loop gathers *)

Lemma serializable_dict_set_str (k s : string) (d : dict) :
  serializable (VDict d) = true ->
  serializable (VDict (dict_set k (VStr s) d)) = true.
Proof.
  cbn [serializable]. induction d as [| [k0 v0] d IH]; intros H; [reflexivity |].
  cbn [dict_set]. cbn [forallb] in H. apply andb_true_iff in H. destruct H as [H1 H2].
  destruct (String.eqb k k0); cbn [forallb].
  - exact H2.
  - rewrite H1. exact (IH H2).
Qed.

Lemma same_but_id_facts (msg msg' : dict) :
  same_but_id msg msg' ->
  key_of msg' = key_of msg /\
  stored_flag msg' = stored_flag msg /\
  (well_keyed msg -> well_keyed msg') /\
  (serializable (VDict msg) = true -> serializable (VDict msg') = true).
Proof.
  intros [-> | (_ & fresh & ->)]; [tauto |].
  unfold key_of, stored_flag, well_keyed, get_or.
  rewrite !dict_get_set_other by discriminate.
  split; [reflexivity |]. split; [reflexivity |]. split; [tauto |].
  apply serializable_dict_set_str.
Qed.

Lemma prepare_message_spec (sid : string) (message : dict) (st : State) :
  (unstored message = true -> serializable (VDict message) = true) ->
  let p := value (prepare_message sid message st) in
  same_but_id message (fst p) /\
  (unstored message = false -> snd p = None) /\
  (unstored message = true -> exists now, snd p = Some (full_row sid (fst p) now)).
Proof.
  intros Hs. cbv zeta. rewrite prepare_message_run. unfold unstored in *.
  assert (Hbody :
    forall msg' st1, same_but_id message msg' ->
      serializable (VDict message) = true ->
      let p := value
        (if serializable (VDict msg') then
           mkRun (msg', Some (full_row sid msg' (clock st1))) (tick st1) []
         else
           let safe_message :=
             safe_message_of msg' (clock st1) (get_or "message_id" VNone msg') in
           if serializable (VDict safe_message) then
             mkRun (msg', Some (safe_row sid msg' safe_message (clock (tick st1))))
                   (tick (tick st1))
                   [EvLog Error "Failed to serialize message for batch storage"]
           else
             mkRun (msg', None) (tick st1)
                   [EvLog Error "Failed to serialize message for batch storage";
                    EvLog Error "Could not create safe version of message"]) in
      same_but_id message (fst p) /\
      exists now, snd p = Some (full_row sid (fst p) now)).
  { intros msg' st1 Hsame Hser. cbv zeta.
    rewrite (proj2 (proj2 (proj2 (same_but_id_facts _ _ Hsame))) Hser).
    cbn. eauto. }
  assert (Hsame : same_but_id message
            (if dict_has "message_id" message then message
             else dict_set "message_id"
                    (VStr (w_uuid (world st) (c_uuid (cursor st)))) message)).
  { unfold same_but_id. destruct (dict_has "message_id" message) eqn:E; eauto. }
  destruct (stored_flag message) as [[|] |] eqn:Es.
  - cbn. split; [left; reflexivity |]. split; [auto | intros H; discriminate H].
  - cbv zeta. destruct (Hbody _ (if dict_has "message_id" message then st
                          else set_cursor (bump_uuid (cursor st)) st) Hsame (Hs eq_refl))
      as [H1 H2].
    split; [exact H1 |]. split; [intros H; discriminate H | intros _; exact H2].
  - cbv zeta. destruct (Hbody _ (if dict_has "message_id" message then st
                          else set_cursor (bump_uuid (cursor st)) st) Hsame (Hs eq_refl))
      as [H1 H2].
    split; [exact H1 |]. split; [intros H; discriminate H | intros _; exact H2].
Qed.

(** With every unstored message encodable, the collecting loop leaves the
    Log as it was up to fresh message ids, and gathers one row per unstored
    message, in the order of the Log. *)
Lemma collect_messages_spec (sid : string) (history : list dict) :
  forall st,
    Forall (fun m => unstored m = true -> serializable (VDict m) = true) history ->
    let c := value (collect_messages sid history st) in
    Forall2 same_but_id history (fst c) /\
    Forall2 (fun m row => exists now, row = full_row sid m now)
            (filter unstored (fst c)) (snd c).
Proof.
  induction history as [| message history IH]; intros st Hs c.
  - cbn. split; constructor.
  - inversion Hs as [| ? ? Hm Hrest]; subst.
    unfold c. cbn [collect_messages]. unfold bind.
    destruct (prepare_message_spec sid message st Hm) as (H1 & H2 & H3).
    destruct (prepare_message sid message st) as [[m' orow] st1 e1].
    cbn [value fst snd] in H1, H2, H3.
    destruct (IH st1 Hrest) as (I1 & I2).
    destruct (collect_messages sid history st1) as [[h' rows] st2 e2].
    cbn [value fst snd ret] in *.
    split; [constructor; assumption |].
    cbn [filter].
    assert (Hu : unstored m' = unstored message).
    { unfold unstored. now rewrite (proj1 (proj2 (same_but_id_facts _ _ H1))). }
    rewrite Hu. destruct (unstored message) eqn:Eu.
    + destruct (H3 eq_refl) as (now & ->). constructor; eauto.
    + rewrite (H2 eq_refl). exact I2.
Qed.

(** When every upsert returns data, the pass over the groups marks for
    every row, in order. *)
Lemma store_batches_history (bs : list (list Row)) :
  forall n st,
    (forall k rows, w_upsert (world st) k rows = UpsertData) ->
    conversation_history (final (fold_each store_batch bs n st))
    = mark_all (List.concat bs) (conversation_history st).
Proof.
  induction bs as [| b bs IH]; intros n st Hw; [reflexivity |].
  rewrite fold_each_cons. cbv zeta. cbn [final List.concat].
  rewrite mark_all_app.
  destruct (store_batch_frame b n st) as (F & _).
  assert (Hworld : world (final (store_batch b n st)) = world st) by apply F.
  rewrite IH by (intros; rewrite Hworld; apply Hw).
  f_equal. rewrite store_batch_run. cbv zeta. rewrite Hw. cbn [final].
  rewrite mark_all_history. reflexivity.
Qed.

(** ** The full flush *)

Lemma Forall2_length_eq {A B} (R : A -> B -> Prop) (l : list A) (l' : list B) :
  Forall2 R l l' -> List.length l = List.length l'.
Proof. induction 1; cbn; congruence. Qed.

Lemma filter_unstored_same (h h' : list dict) :
  Forall2 same_but_id h h' ->
  List.length (filter unstored h') = List.length (filter unstored h).
Proof.
  induction 1 as [| m m' h h' Hm Hh IH]; [reflexivity |].
  cbn [filter].
  assert (Hu : unstored m' = unstored m).
  { unfold unstored. now rewrite (proj1 (proj2 (same_but_id_facts _ _ Hm))). }
  rewrite Hu. destruct (unstored m); cbn [List.length]; congruence.
Qed.

Lemma store_singles_history (batch : list Row) :
  forall n st,
    conversation_history (final (fold_each store_single batch n st))
    = mark_all (written_singles (world st) (c_upsert (cursor st)) batch)
               (conversation_history st).
Proof.
  induction batch as [| row batch IH]; intros n st; [reflexivity |].
  rewrite fold_each_cons. cbv zeta. cbn [final written_singles].
  rewrite IH. rewrite store_single_run. cbv zeta.
  destruct (w_upsert (world st) (c_upsert (cursor st)) [row]) eqn:Ew;
    try reflexivity.
  unfold mark_all. cbn [fold_left]. unfold mark_step.
  destruct (mark_first row (conversation_history st)); reflexivity.
Qed.

(** Whatever the store answers, the pass over the groups marks for the
    rows it got written, in order. *)
Lemma store_batches_written (bs : list (list Row)) :
  forall n st,
    conversation_history (final (fold_each store_batch bs n st))
    = mark_all (written_rows (world st) (c_upsert (cursor st)) bs)
               (conversation_history st).
Proof.
  induction bs as [| b bs IH]; intros n st; [reflexivity |].
  rewrite fold_each_cons. cbv zeta. cbn [final written_rows].
  destruct (store_batch_frame b n st) as (F & _).
  cbv zeta in F.
  assert (Hworld : world (final (store_batch b n st)) = world st) by apply F.
  pose proof (proj2 (proj2 (proj2 (proj2 (proj2 F))))) as Hcur.
  rewrite IH, Hworld, Hcur. clear IH.
  rewrite store_batch_run. cbv zeta.
  destruct (w_upsert (world st) (c_upsert (cursor st)) b) eqn:Ew; cbn [final].
  - rewrite mark_all_app, mark_all_history. reflexivity.
  - reflexivity.
  - reflexivity.
  - rewrite mark_all_app, store_singles_history.
    cbn [set_cursor world cursor bump_upsert c_upsert].
    replace (c_upsert (cursor st) + 1)%nat with (S (c_upsert (cursor st))) by lia.
    replace (S (c_upsert (cursor st)) + List.length b)%nat
      with (c_upsert (cursor st) + (1 + List.length b))%nat by lia.
    reflexivity.
Qed.

Lemma written_rows_all_data (w : World) (bs : list (list Row)) :
  (forall k rows, w_upsert w k rows = UpsertData) ->
  forall n, written_rows w n bs = List.concat bs.
Proof.
  intros Hw. induction bs as [| b bs IH]; intros n; [reflexivity |].
  cbn [written_rows List.concat]. rewrite Hw, IH. reflexivity.
Qed.

Lemma dict_set_twice (k : string) (v v' : pyval) (d : dict) :
  dict_set k v' (dict_set k v d) = dict_set k v' d.
Proof.
  induction d as [| [k0 v0] d IH]; cbn.
  - now rewrite String.eqb_refl.
  - destruct (String.eqb k k0) eqn:E; cbn.
    + now rewrite String.eqb_refl.
    + rewrite E, IH. reflexivity.
Qed.

Lemma set_stored_idem (msg : dict) : set_stored (set_stored msg) = set_stored msg.
Proof.
  unfold set_stored at 1. unfold set_stored at 1 2.
  rewrite dict_get_set_same, !dict_set_twice. reflexivity.
Qed.

Lemma matches_row_set_stored (row : Row) (msg : dict) :
  matches_row row (set_stored msg) = matches_row row msg.
Proof.
  unfold matches_row, set_stored, get_or.
  rewrite !dict_get_set_other by discriminate. reflexivity.
Qed.

(** With distinct string keys in the Log, the marking loop of a row marks
    the entries that pass its test: there is at most one. *)
Lemma mark_step_map (row : Row) (source : dict) :
  well_keyed source -> row_key row = key_of source ->
  forall history,
    Forall well_keyed history ->
    NoDup (map key_of history) ->
    mark_step row history
    = map (fun m => if matches_row row m then set_stored m else m) history.
Proof.
  intros Hsrc Hkey. unfold mark_step.
  induction history as [| m h IH]; intros Hwk Hnd; [reflexivity |].
  inversion Hwk as [| ? ? Hwm Hwh]; subst.
  cbn [map] in Hnd. inversion Hnd as [| ? ? Hnotin Hnd']; subst.
  cbn [mark_first map].
  destruct (matches_row row m) eqn:Em.
  - f_equal.
    assert (Hkm : key_of m = key_of source)
      by (apply (matches_row_key row m source); assumption).
    clear IH Hwk Hnd Hnd'. induction h as [| m' h IH]; [reflexivity |].
    inversion Hwh as [| ? ? Hwm' Hwh']; subst.
    cbn [map]. destruct (matches_row row m') eqn:Em'.
    + exfalso. apply Hnotin. left.
      rewrite Hkm. apply (matches_row_key row m' source); assumption.
    + f_equal. apply IH; [exact Hwh' |].
      intros Hin. apply Hnotin. right. exact Hin.
  - specialize (IH Hwh Hnd').
    destruct (mark_first row h) as [marked |];
      [rewrite IH; reflexivity | f_equal; exact IH].
Qed.

(** With distinct string keys in the Log, the marking loops of [rows] mark
    the entries that pass the test of one of them, and leave the others as
    they are. *)
Lemma mark_all_map (rows : list Row) :
  (forall row, In row rows ->
     exists source, well_keyed source /\ row_key row = key_of source) ->
  forall history,
    Forall well_keyed history ->
    NoDup (map key_of history) ->
    mark_all rows history
    = map (fun m => if written_entry rows m then set_stored m else m) history.
Proof.
  unfold written_entry.
  induction rows as [| row rows IH]; intros Hrows history Hwk Hnd.
  - cbn. symmetry. apply map_id.
  - unfold mark_all. cbn [fold_left]. fold (mark_all rows (mark_step row history)).
    destruct (Hrows row (or_introl eq_refl)) as (source & Hsrc & Hkey).
    rewrite (mark_step_map row source Hsrc Hkey history Hwk Hnd).
    rewrite IH.
    + rewrite map_map. apply map_ext. intros m. cbn [existsb].
      destruct (matches_row row m) eqn:Em; cbn [orb].
      * assert (He : existsb (fun row0 => matches_row row0 (set_stored m)) rows
                     = existsb (fun row0 => matches_row row0 m) rows).
        { clear. induction rows as [| r rows IH]; [reflexivity |].
          cbn [existsb]. rewrite matches_row_set_stored, IH. reflexivity. }
        rewrite He.
        destruct (existsb (fun row0 => matches_row row0 m) rows);
          [apply set_stored_idem | reflexivity].
      * reflexivity.
    + intros r Hr. apply Hrows. right. exact Hr.
    + clear - Hwk. induction Hwk as [| m h Hm Hh IH]; [constructor |].
      cbn [map]. constructor; [| exact IH].
      destruct (matches_row row m); [apply well_keyed_set_stored |]; exact Hm.
    + assert (Hk : map key_of (map (fun m => if matches_row row m
                                             then set_stored m else m) history)
                   = map key_of history).
      { rewrite map_map. apply map_ext. intros m.
        destruct (matches_row row m); [apply key_of_set_stored | reflexivity]. }
      rewrite Hk. exact Hnd.
Qed.

(** The subsequence relation the written rows stand in to the rows sent. *)
Lemma written_singles_incl (w : World) (batch : list Row) :
  forall n, incl (written_singles w n batch) batch.
Proof.
  induction batch as [| row batch IH]; intros n x Hx; [exact Hx |].
  cbn [written_singles] in Hx.
  destruct (w_upsert w n [row]);
    try (right; exact (IH _ x Hx)).
  destruct Hx as [-> | Hx]; [left; reflexivity | right; exact (IH _ x Hx)].
Qed.

Lemma written_rows_incl (w : World) (bs : list (list Row)) :
  forall n, incl (written_rows w n bs) (List.concat bs).
Proof.
  induction bs as [| b bs IH]; intros n x Hx; [exact Hx |].
  cbn [written_rows] in Hx. cbn [List.concat]. apply in_or_app.
  destruct (w_upsert w n b).
  - apply in_app_or in Hx. destruct Hx as [Hx | Hx]; [left; exact Hx |].
    right. exact (IH _ x Hx).
  - right. exact (IH _ x Hx).
  - right. exact (IH _ x Hx).
  - apply in_app_or in Hx. destruct Hx as [Hx | Hx].
    + left. exact (written_singles_incl _ _ _ x Hx).
    + right. exact (IH _ x Hx).
Qed.

Lemma NoDup_map_injective {A B} (f : A -> B) (l : list A) :
  (forall a b, f a = f b -> a = b) -> NoDup l -> NoDup (map f l).
Proof.
  intros Hinj. induction 1 as [| x l Hx Hl IH]; cbn; constructor; [| exact IH].
  intros Hin. apply in_map_iff in Hin. destruct Hin as (y & Hy & Hin).
  apply Hinj in Hy. subst y. contradiction.
Qed.

(** C5, as the code has it.  A flush that reaches its batch loop, over a
    Log whose unstored messages can be encoded: it gathers one row per
    unstored message, in the order of the Log; cuts the rows into
    consecutive groups of at most ten; upserts each group, upserts the rows
    of a group one at a time when the group's upsert raises (and only
    then: a group answered without data is only logged), and waits 0.5 s
    after each group.  The rows written are those of the groups whose
    upsert returned data and, of the groups whose upsert raised, those
    whose own upsert returned data.  For every row written, in that order,
    a marking loop marks the first entry of the Log whose timestamp and
    role equal the row's timestamp and participant_id.  When every entry of
    the Log has a string timestamp, a string role and no participant_id of
    its own, and no two entries share their (timestamp, role) pair, each
    row passes the test of the entry it was gathered from, and the Log
    ends with exactly the entries of the written rows marked stored, the
    other entries being as the collecting loop left them; if moreover
    every upsert returns data, every message ends stored.  With twelve rows
    the groups are the first ten and the last two, and when the second
    raises, its two rows follow one at a time. *)
Theorem full_flush :
  forall (st : State) (sid : string) (n : nat),
    flush_ready st sid n ->
    Forall (fun m => unstored m = true -> serializable (VDict m) = true)
           (conversation_history st) ->
    let r := store_full_conversation st in
    let c := value (collect_messages sid (conversation_history st) st) in
    let rows := snd c in
    let groups := batches_of_rows rows in
    let written := written_rows (world st) (c_upsert (cursor st)) groups in
    let all_data := forall k rows', w_upsert (world st) k rows' = UpsertData in
    (* the rows *)
    Forall2 same_but_id (conversation_history st) (fst c) /\
    Forall2 (fun m row => exists now, row = full_row sid m now)
            (filter unstored (fst c)) rows /\
    List.length rows = S n /\
    (* the groups *)
    List.concat groups = rows /\
    Forall (fun b => (1 <= List.length b <= 10)%nat) groups /\
    Forall (fun b => List.length b = 10%nat) (removelast groups) /\
    (* the upserts and the waits *)
    batches_of (effects r)
    = expected_upserts (world st) (c_upsert (cursor st)) groups /\
    sleeps_of (effects r) = repeat 500%Z (List.length groups) /\
    (* the marking *)
    (forall row history marked,
        mark_first row history = Some marked ->
        exists pre msg post,
          history = pre ++ msg :: post /\
          Forall (fun m => matches_row row m = false) pre /\
          matches_row row msg = true /\
          marked = pre ++ set_stored msg :: post) /\
    conversation_history (final r) = mark_all written (fst c) /\
    incl written rows /\
    (all_data -> written = rows) /\
    (Forall well_keyed (conversation_history st) ->
     NoDup (map key_of (conversation_history st)) ->
     Forall2 (fun m row => matches_row row m = true)
             (filter unstored (fst c)) rows /\
     conversation_history (final r)
     = map (fun m => if written_entry written m then set_stored m else m)
           (fst c) /\
     (forall m row,
         In (m, row) (combine (filter unstored (fst c)) rows) ->
         In row written ->
         In (set_stored m) (conversation_history (final r))) /\
     (all_data -> count_unstored (conversation_history (final r)) = Some 0%nat)) /\
    (* twelve rows *)
    (n = 11%nat ->
     groups = [firstn 10 rows; skipn 10 rows] /\
     List.length (firstn 10 rows) = 10%nat /\
     List.length (skipn 10 rows) = 2%nat /\
     ((forall e m, w_upsert (world st) (c_upsert (cursor st)) (firstn 10 rows)
                   <> UpsertRaise e m) ->
      (exists e m, w_upsert (world st) (S (c_upsert (cursor st))) (skipn 10 rows)
                   = UpsertRaise e m) ->
      batches_of (effects r)
      = [firstn 10 rows; skipn 10 rows] ++ map (fun row => [row]) (skipn 10 rows))).
Proof.
  intros st sid n Hready Henc r c rows groups written all_data.
  pose proof Hready as (Hsup & Hsid & Hne & Hcount).
  destruct (count_unstored_filter _ _ Hcount) as (Hflags & Hlen).
  destruct (collect_messages_spec sid (conversation_history st) st Henc) as (Hsame & Hrows).
  fold c in Hsame, Hrows. fold rows in Hrows.
  destruct (collect_messages_frame sid (conversation_history st) st)
    as (Fc & Hhc & (Uc & Pc & Sc)).
  set (st2 := set_history (fst c) (final (collect_messages sid (conversation_history st) st))).
  assert (Hw2 : world st2 = world st) by apply Fc.
  assert (Hc2 : c_upsert (cursor st2) = c_upsert (cursor st)).
  { unfold st2. cbn [set_history cursor].
    rewrite (proj2 (proj2 (proj2 (proj2 (proj2 Fc))))). lia. }
  destruct (store_batches_frame groups 0%nat st2) as (_ & Bp & Pp & Sp).
  assert (Hrun := store_full_conversation_run st sid n Hready).
  cbv zeta in Hrun. fold c in Hrun. fold rows in Hrun. fold groups in Hrun.
  fold st2 in Hrun.
  assert (Hlenrows : List.length rows = S n).
  { rewrite <- (Forall2_length_eq _ _ _ Hrows), (filter_unstored_same _ _ Hsame).
    exact Hlen. }
  destruct (batches_of_rows_partition rows) as (Hcat & Hsize & Hfull).
  fold groups in Hcat, Hsize, Hfull.
  assert (Hbatches : batches_of (effects r)
                     = expected_upserts (world st) (c_upsert (cursor st)) groups).
  { unfold r. rewrite Hrun. cbn [effects].
    rewrite !batches_of_app. unfold batches_of at 1. rewrite Uc.
    rewrite Bp, Hw2, Hc2. cbn. now rewrite app_nil_r. }
  assert (Hhist : conversation_history (final r) = mark_all written (fst c)).
  { unfold r. rewrite Hrun. cbn [final].
    rewrite store_batches_written, Hw2, Hc2. reflexivity. }
  assert (Hincl : incl written rows).
  { unfold written. rewrite <- Hcat. apply written_rows_incl. }
  assert (Hwritten : all_data -> written = rows).
  { intros Hall. unfold written.
    rewrite (written_rows_all_data _ _ Hall). exact Hcat. }
  split; [exact Hsame |]. split; [exact Hrows |]. split; [exact Hlenrows |].
  split; [exact Hcat |]. split; [exact Hsize |]. split; [exact Hfull |].
  split; [exact Hbatches |].
  split.
  { unfold r. rewrite Hrun. cbn [effects].
    rewrite !sleeps_of_app, Sc, Sp. cbn. now rewrite app_nil_r. }
  split; [exact mark_first_some |].
  split; [exact Hhist |]. split; [exact Hincl |]. split; [exact Hwritten |].
  split.
  { intros Hwk Hnd.
    assert (Hkeys : map key_of (fst c) = map key_of (conversation_history st)).
    { clear - Hsame. induction Hsame as [| m m' h h' Hm Hh IH]; [reflexivity |].
      cbn [map]. rewrite IH, (proj1 (same_but_id_facts _ _ Hm)). reflexivity. }
    assert (Hwk' : Forall well_keyed (fst c)).
    { clear - Hsame Hwk. induction Hsame as [| m m' h h' Hm Hh IH]; [constructor |].
      inversion Hwk; subst. constructor; [| apply IH; assumption].
      apply (proj1 (proj2 (proj2 (same_but_id_facts _ _ Hm)))). assumption. }
    assert (Hflags' : Forall (fun m => stored_flag m <> None) (fst c)).
    { clear - Hsame Hflags. induction Hsame as [| m m' h h' Hm Hh IH]; [constructor |].
      inversion Hflags; subst. constructor; [| apply IH; assumption].
      rewrite (proj1 (proj2 (same_but_id_facts _ _ Hm))). assumption. }
    assert (Hkeyrow : forall m now, well_keyed m ->
                        row_key (full_row sid m now) = key_of m).
    { intros m now ((t & Ht) & (ro & Hro) & Hp).
      unfold row_key, key_of, full_row, participant_of, get_or. cbn.
      rewrite Ht, Hro, Hp. reflexivity. }
    assert (Hwkun : Forall well_keyed (filter unstored (fst c))).
    { apply Forall_forall. intros m Hin. apply filter_In in Hin.
      rewrite Forall_forall in Hwk'. apply Hwk'. tauto. }
    assert (Hmatch : Forall2 (fun m row => matches_row row m = true)
                             (filter unstored (fst c)) rows).
    { clear - Hrows Hwkun Hkeyrow.
      induction Hrows as [| m row ms rs (now & Hrow) Hrest IH]; [constructor |].
      inversion Hwkun as [| ? ? Hwm Hwms]; subst.
      constructor; [| apply IH; exact Hwms].
      apply (matches_row_key _ m m Hwm Hwm); [apply Hkeyrow; exact Hwm | reflexivity]. }
    assert (Hsource : forall row, In row rows ->
                        exists source, well_keyed source /\ row_key row = key_of source).
    { clear - Hrows Hwkun Hkeyrow. intros row Hin.
      induction Hrows as [| m row0 ms rs (now & Hrow) Hrest IH]; [contradiction |].
      inversion Hwkun as [| ? ? Hwm Hwms]; subst.
      destruct Hin as [<- | Hin].
      - exists m. split; [exact Hwm | apply Hkeyrow; exact Hwm].
      - apply IH; assumption. }
    assert (Hmap : conversation_history (final r)
                   = map (fun m => if written_entry written m then set_stored m else m)
                         (fst c)).
    { rewrite Hhist. apply mark_all_map.
      - intros row Hin. apply Hsource. apply Hincl. exact Hin.
      - exact Hwk'.
      - rewrite Hkeys. exact Hnd. }
    split; [exact Hmatch |]. split; [exact Hmap |].
    split.
    - intros m row Hin Hw. rewrite Hmap.
      assert (Hm : matches_row row m = true).
      { clear - Hmatch Hin.
        induction Hmatch as [| m0 row0 ms rs H0 Hrest IH]; [contradiction |].
        destruct Hin as [Heq | Hin]; [inversion Heq; subst; exact H0 | auto]. }
      assert (Hinm : In m (fst c)).
      { apply in_combine_l in Hin. apply filter_In in Hin. tauto. }
      assert (He : written_entry written m = true).
      { unfold written_entry. apply existsb_exists. exists row. auto. }
      apply in_map_iff. exists m. rewrite He. auto.
    - intros Hall. rewrite Hhist, (Hwritten Hall).
      apply count_unstored_all_stored.
      assert (Hcover : forall m, In m (filter unstored (fst c)) ->
                         exists row, In row rows /\ row_key row = key_of m).
      { clear - Hrows Hwkun Hkeyrow. intros m Hin.
        induction Hrows as [| m0 row ms rs (now & Hrow) Hrest IH]; [contradiction |].
        inversion Hwkun as [| ? ? Hwm Hwms]; subst.
        destruct Hin as [-> | Hin].
        - exists (full_row sid m now). split; [left; reflexivity |].
          apply Hkeyrow. exact Hwm.
        - destruct (IH Hwms Hin) as (row' & Hin' & Hk).
          exists row'. split; [right; exact Hin' | exact Hk]. }
      apply (mark_all_stores_all rows (fst c)); auto.
      + rewrite Hkeys. exact Hnd.
      + intros m Hin Hun.
        destruct (Hcover m) as (row & Hr & Hk).
        { apply filter_In. auto. }
        rewrite <- Hk. apply in_map. exact Hr. }
  intros Hn. subst n.
  assert (Hg : groups = [firstn 10 rows; skipn 10 rows]).
  { unfold groups.
    assert (Hne1 : rows <> []) by (intros E; rewrite E in Hlenrows; discriminate).
    rewrite (batches_of_rows_cons rows Hne1).
    assert (Hne2 : skipn batch_size rows <> []).
    { intros E. apply (f_equal (@List.length Row)) in E.
      rewrite length_skipn, Hlenrows in E. discriminate E. }
    rewrite (batches_of_rows_cons _ Hne2).
    assert (Hnil : skipn batch_size (skipn batch_size rows) = []).
    { apply length_zero_iff_nil. rewrite !length_skipn, Hlenrows. reflexivity. }
    rewrite Hnil, batches_of_rows_nil.
    f_equal. f_equal. apply firstn_all2. rewrite length_skipn, Hlenrows.
    unfold batch_size. cbn. lia. }
  split; [exact Hg |].
  split; [rewrite length_firstn, Hlenrows; reflexivity |].
  split; [rewrite length_skipn, Hlenrows; reflexivity |].
  intros H1 (e & m & H2).
  rewrite Hbatches, Hg. cbn [expected_upserts].
  destruct (w_upsert (world st) (c_upsert (cursor st)) (firstn 10 rows)) eqn:E1;
    try (exfalso; eapply H1; reflexivity);
    replace (c_upsert (cursor st) + 1)%nat with (S (c_upsert (cursor st))) by lia;
    rewrite H2; cbn [app]; rewrite app_nil_r; reflexivity.
Qed.

(** Twelve unstored messages, on a store that rejects groups of two: one
    group of ten, one of two, then the two rows of the second group one at a
    time, with a wait after each group. *)
Lemma full_flush_witness :
  let st := log_state pairs_fail_world 12 in
  let r := store_full_conversation st in
  flush_ready st "session-1" 11 /\
  Forall (fun m => unstored m = true -> serializable (VDict m) = true)
         (conversation_history st) /\
  map (@List.length Row) (batches_of (effects r)) = [10; 2; 1; 1]%nat /\
  sleeps_of (effects r) = [500; 500]%Z /\
  Forall well_keyed (conversation_history st) /\
  NoDup (map key_of (conversation_history st)) /\
  count_unstored (conversation_history (final r)) = Some 0%nat.
Proof.
  intros st r.
  assert (Hready : flush_ready st "session-1" 11).
  { unfold flush_ready. repeat split; try reflexivity. discriminate. }
  assert (Henc : Forall (fun m => unstored m = true -> serializable (VDict m) = true)
                        (conversation_history st)).
  { apply Forall_forall. intros m Hin _.
    apply in_map_iff in Hin. destruct Hin as (k & <- & _). reflexivity. }
  pose proof (full_flush st "session-1" 11 Hready Henc) as H.
  cbv zeta in H.
  destruct H as (_ & _ & _ & _ & _ & _ & _ & Hsleep & _ & _ & _ & _ & Hmark & Htwelve).
  destruct (Htwelve eq_refl) as (Hg & _ & _ & Hb).
  assert (Hwk : Forall well_keyed (conversation_history st)).
  { apply Forall_forall. intros m Hin.
    apply in_map_iff in Hin. destruct Hin as (k & <- & _).
    repeat split; eexists; reflexivity. }
  assert (Hnd : NoDup (map key_of (conversation_history st))).
  { assert (Hkeys : map key_of (conversation_history st)
                    = map (fun s => (VStr s, VStr "user"))
                          (map (fun k => ("2025-01-01T00:00:00." ++ dec k ++ "+00:00")%string)
                               (seq 0 12))).
    { cbn [st log_state set_history conversation_history].
      rewrite !map_map. reflexivity. }
    rewrite Hkeys.
    apply NoDup_map_injective.
    - intros a b H. injection H. tauto.
    - apply distinct_strings_NoDup. vm_compute. reflexivity. }
  destruct (Hmark Hwk Hnd) as (_ & Hmap & _).
  split; [exact Hready |]. split; [exact Henc |].
  split.
  { unfold r. rewrite Hb.
    + vm_compute. reflexivity.
    + intros e m. vm_compute. discriminate.
    + exists "APIError", "timeout". vm_compute. reflexivity. }
  split; [unfold r; rewrite Hsleep, Hg; reflexivity |].
  split; [exact Hwk |]. split; [exact Hnd |].
  unfold r. rewrite Hmap. vm_compute. reflexivity.
Defined.

(** The same Log on a store that answers every call: one group of ten, one
    of two, and every message stored in the end. *)
Example full_flush_all_stored :
  let st := log_state calm_world 12 in
  let r := store_full_conversation st in
  map (@List.length Row) (batches_of (effects r)) = [10; 2]%nat /\
  count_unstored (conversation_history st) = Some 12%nat /\
  count_unstored (conversation_history (final r)) = Some 0%nat.
Proof. cbv zeta. repeat split; vm_compute; reflexivity. Qed.

(** A store that lets only one row through, in the fallback: that row's
    entry is marked, the other entry is not. *)
Example full_flush_partial_fallback :
  let st := log_state grudging_world 2 in
  let r := store_full_conversation st in
  map (fun p => (List.length (fst p), snd p)) (upserts_of (effects r))
  = [(2%nat, UpsertRaise "APIError" "timeout");
     (1%nat, UpsertData);
     (1%nat, UpsertRaise "APIError" "timeout")] /\
  map stored_flag (conversation_history (final r)) = [Some true; Some false].
Proof. cbv zeta. repeat split; vm_compute; reflexivity. Qed.

(** The claim as the spec words it fails in two ways.  On a Log with two
    entries that share their timestamp and role, both are written by one
    upsert that returns data, the marking loop finds the first entry for
    each of the two rows, and the second entry is left unstored.  And a
    group whose upsert fails with an error response, not an exception, gets
    no fallback: its rows are not sent one at a time. *)
Lemma full_flush_counterexample :
  let st := set_history [twin_message "first"; twin_message "second"]
                        (idle_state calm_world) in
  let r := store_full_conversation st in
  let st' := log_state refusing_world 2 in
  let r' := store_full_conversation st' in
  map (fun p => (List.length (fst p), snd p)) (upserts_of (effects r))
  = [(2%nat, UpsertData)] /\
  map stored_flag (conversation_history st) = [Some false; Some false] /\
  map stored_flag (conversation_history (final r)) = [Some true; Some false] /\
  map (fun p => (List.length (fst p), snd p)) (upserts_of (effects r'))
  = [(2%nat, UpsertError "rejected")] /\
  map stored_flag (conversation_history (final r')) = [Some false; Some false].
Proof. cbv zeta. repeat split; vm_compute; reflexivity. Qed.

(** C9.  When a round of the idle watchdog finds more than 300 s between
    the clock and the last activity, it appends the inactivity system
    message to the Log (unless an equal entry is there), hands that one
    message to a background single write, logs the [ForceDisconnectError]
    it raised itself and leaves its loop.  That is all it does: no upsert,
    no flush, no drain and no disconnection; client, agent, session and
    Retry Queue are as before, and no later round runs. *)
Theorem watchdog_timeout_only_logs :
  forall (sid : string) (t0 t : Z) (st : State),
    refresh_activity st t0 = Some t ->
    (inactivity_threshold < w_time (world st) (c_time (cursor st)) - t)%Z ->
    let r := watchdog_round sid t0 st in
    value r = LoopLeft /\
    effects r = timed_out_effects sid st /\
    conversation_history (final r) = timed_out_history st /\
    upserts_of (effects r) = [] /\
    probes_of (effects r) = [] /\
    supabase (final r) = supabase st /\
    agent (final r) = agent st /\
    session_id (final r) = session_id st /\
    retry_queue (final r) = retry_queue st /\
    forall rounds,
      value (watchdog_rounds (S rounds) sid t0 st) = LoopLeft /\
      effects (watchdog_rounds (S rounds) sid t0 st) = effects r /\
      final (watchdog_rounds (S rounds) sid t0 st) = final r.
Proof.
  intros sid t0 t st Hact Hidle.
  assert (Hrun : watchdog_round sid t0 st =
                 mkRun LoopLeft
                       (set_history (timed_out_history st)
                          (set_cursor (bump_clock (bump_time (cursor st))) st))
                       (timed_out_effects sid st)).
  { unfold watchdog_round, bind, sleep, emit, get_state, log, time_time,
      get_current_timestamp, modify, ret.
    cbn [value final effects].
    rewrite Hact.
    apply Z.ltb_lt in Hidle. 
    cbn [world cursor set_cursor c_time c_clock bump_time conversation_history].
    rewrite Hidle.
    unfold timed_out_history, timed_out_effects, clock.
    destruct st as [w c sup ag sess hist q]; cbn.
    destruct (not_in_history _ hist); cbn; reflexivity. }
  cbv zeta. rewrite Hrun. cbn [value final effects].
  assert (Hups : upserts_of (timed_out_effects sid st) = []).
  { unfold timed_out_effects.
    destruct (not_in_history _ _); reflexivity. }
  assert (Hpr : probes_of (timed_out_effects sid st) = []).
  { unfold timed_out_effects.
    destruct (not_in_history _ _); reflexivity. }
  repeat split; try assumption; try reflexivity.
  - cbn [watchdog_rounds]. unfold bind. rewrite Hrun. reflexivity.
  - cbn [watchdog_rounds]. unfold bind. rewrite Hrun.
    cbn [effects ret]. apply app_nil_r.
  - cbn [watchdog_rounds]. unfold bind. rewrite Hrun. reflexivity.
Qed.

Lemma watchdog_timeout_only_logs_witness :
  refresh_activity watched_state 1000 = Some 1000%Z /\
  (inactivity_threshold <
   w_time (world watched_state) (c_time (cursor watched_state)) - 1000)%Z /\
  value (watchdog_round "session-1" 1000 watched_state) = LoopLeft /\
  effects (watchdog_round "session-1" 1000 watched_state) =
    [EvSleep 120000;
     EvLog Warning "Auto-disconnect triggered after inactivity";
     EvSpawnStore "session-1" "system"
       (inactivity_message "2025-01-01T00:21:41+00:00");
     EvLog Error "Error during auto-disconnect"] /\
  conversation_history (final (watchdog_round "session-1" 1000 watched_state)) =
    [user_message 0; inactivity_message "2025-01-01T00:21:41+00:00"] /\
  value (check_connection_status 5 "session-1" (log_state silent_world 1)) = LoopLeft /\
  effects (check_connection_status 5 "session-1" (log_state silent_world 1)) =
    effects (watchdog_round "session-1" 1000 watched_state).
Proof.
  assert (Hact : refresh_activity watched_state 1000 = Some 1000%Z)
    by (vm_compute; reflexivity).
  assert (Hidle : (inactivity_threshold <
                   w_time (world watched_state) (c_time (cursor watched_state)) - 1000)%Z)
    by (vm_compute; reflexivity).
  destruct (watchdog_timeout_only_logs "session-1" 1000 1000 watched_state Hact Hidle)
    as (Hv & He & Hh & _ & _ & _ & _ & _ & _ & Hrounds).
  destruct (Hrounds 4%nat) as (Hrv & Hre & _).
  split; [exact Hact |].
  split; [exact Hidle |].
  split; [exact Hv |].
  split; [rewrite He; vm_compute; reflexivity |].
  split; [rewrite Hh; vm_compute; reflexivity |].
  split; [exact Hrv | exact Hre].
Defined.
(** X1.  [check_supabase_health] returns True exactly when the probing
    select on an existing client succeeds or, failing that, a fresh
    [init_supabase] goes all the way through.  It never discards a client:
    the client global is set afterwards whenever it was set before or
    [create_client] returned, also when the function reports False because
    the table check or the test query failed.  It makes at most one probing
    select and at most one initialisation, no upsert, and leaves the Log and
    the Retry Queue alone. *)
Theorem health_check_outcome (st : State) :
  let r := check_supabase_health st in
  let probe_ok := supabase st && next_probe st in
  value r = probe_ok || init_ready (next_init st) /\
  supabase (final r)
  = supabase st || (negb probe_ok && client_created (next_init st)) /\
  probes_of (effects r)
  = (if supabase st then [EvProbe (next_probe st)] else [])
    ++ (if probe_ok then [] else [EvInit (next_init st)]) /\
  upserts_of (effects r) = [] /\
  conversation_history (final r) = conversation_history st /\
  retry_queue (final r) = retry_queue st.
Proof.
  unfold next_probe, next_init.
  destruct st as [w c sup ag sid hist q].
  unfold check_supabase_health, bind, get_state, select_probe, init_supabase,
    log, emit, ret.
  cbn [supabase world cursor set_cursor c_probe c_init bump_probe negb].
  destruct sup; cbn [negb andb orb].
  - cbn. destruct (w_probe w (c_probe c)) eqn:Hp; cbn.
    + repeat split; reflexivity.
    + destruct (w_init w (c_init c)); cbn; repeat split; reflexivity.
  - cbn. destruct (w_init w (c_init c)); cbn; repeat split; reflexivity.
Qed.
(** ** The drain of the retry queue, as a whole *)

Lemma check_supabase_health_keeps (st : State) :
  let r := check_supabase_health st in
  world (final r) = world st /\
  conversation_history (final r) = conversation_history st /\
  retry_queue (final r) = retry_queue st /\
  agent (final r) = agent st /\
  session_id (final r) = session_id st /\
  (supabase st = true -> supabase (final r) = true) /\
  (value r = true -> supabase (final r) = true).
Proof.
  destruct st as [w c sup ag sid hist q].
  unfold check_supabase_health, bind, get_state, select_probe, init_supabase,
    log, emit, ret.
  cbn [supabase world cursor set_cursor c_probe c_init bump_probe negb].
  destruct sup; cbn.
  - destruct (w_probe w (c_probe c)); cbn.
    + repeat split; reflexivity.
    + destruct (w_init w (c_init c)); cbn; repeat split; congruence.
  - destruct (w_init w (c_init c)); cbn; repeat split; congruence.
Qed.

Lemma stored_upserts_app (a b : list Event) :
  stored_upserts (a ++ b) = stored_upserts a ++ stored_upserts b.
Proof. unfold stored_upserts. rewrite upserts_of_app. apply filter_app. Qed.

(** What one item of a drain comes to. *)
Lemma retry_item_account (item : RetryItem) (n : nat) (st : State) :
  let r := retry_item item n st in
  world (final r) = world st /\
  conversation_history (final r) = conversation_history st /\
  agent (final r) = agent st /\
  session_id (final r) = session_id st /\
  (supabase st = true -> supabase (final r) = true) /\
  (List.length (upserts_of (effects r)) <= 1)%nat /\
  ((exhausted item = true /\ value r = n /\
    retry_queue (final r) = retry_queue st /\ upserts_of (effects r) = []) \/
   (exhausted item = false /\ value r = S n /\
    retry_queue (final r) = retry_queue st /\
    List.length (stored_upserts (effects r)) = 1%nat) \/
   (exhausted item = false /\ value r = n /\
    retry_queue (final r) = retry_queue st ++ [bump_retry item] /\
    stored_upserts (effects r) = [])).
Proof.
  cbv zeta.
  destruct (Z.leb_spec 5 (retry_count item)) as [Hex | Hlive].
  - rewrite (retry_item_exhausted item n st Hex). cbn [value final effects].
    repeat split; try reflexivity; try (cbn; lia).
    + tauto.
    + left. unfold exhausted. rewrite (proj2 (Z.leb_le _ _) Hex).
      repeat split; reflexivity.
  - assert (Hlv : exhausted item = false).
    { unfold exhausted. apply Z.leb_gt. exact Hlive. }
    destruct (retry_item_run item n st Hlive) as (ok & sup & cp & ci & evs & Hh & Hr).
    rewrite Hr. cbv zeta.
    destruct (health_effects _ _ _ _ Hh) as (Hu & _ & _).
    pose proof (check_supabase_health_keeps st) as Hk. cbv zeta in Hk.
    rewrite Hh in Hk. cbn [value final] in Hk.
    destruct Hk as (_ & _ & _ & _ & _ & Hsup & _).
    assert (Hsu : stored_upserts evs = []).
    { unfold stored_upserts. rewrite Hu. reflexivity. }
    destruct ok.
    + destruct (json_dumps (VDict (item_conversation item))) as [cd |].
      * destruct (w_upsert (world st) (c_upsert (cursor st)) [retry_row item cd]) eqn:Hw;
          cbn [value final effects];
          rewrite upserts_of_app, stored_upserts_app, Hu, Hsu; cbn;
          (repeat split; try reflexivity; try exact Hsup; try lia);
          try (right; left; repeat split; (reflexivity || assumption));
          try (right; right; repeat split; (reflexivity || assumption)).
      * cbn [value final effects].
        rewrite upserts_of_app, stored_upserts_app, Hu, Hsu; cbn.
        repeat split; try reflexivity; try exact Hsup; try lia.
        right; right; repeat split; (reflexivity || assumption).
    + cbn [value final effects].
      rewrite upserts_of_app, stored_upserts_app, Hu, Hsu; cbn.
      repeat split; try reflexivity; try exact Hsup; try lia.
      right; right; repeat split; (reflexivity || assumption).
Qed.

(** What a pass over the popped items comes to. *)
Lemma retry_items_account (temp_queue : list RetryItem) :
  forall (n : nat) (st : State),
    let r := fold_each retry_item temp_queue n st in
    world (final r) = world st /\
    conversation_history (final r) = conversation_history st /\
    agent (final r) = agent st /\
    session_id (final r) = session_id st /\
    (supabase st = true -> supabase (final r) = true) /\
    (List.length (upserts_of (effects r)) <= List.length temp_queue)%nat /\
    exists kept,
      subseq kept (filter live temp_queue) /\
      retry_queue (final r) = retry_queue st ++ map bump_retry kept /\
      value r = (n + List.length (stored_upserts (effects r)))%nat /\
      (List.length kept + List.length (stored_upserts (effects r))
       = List.length (filter live temp_queue))%nat.
Proof.
  induction temp_queue as [| item rest IH]; intros n st.
  - cbn. repeat split; try reflexivity; try tauto; try lia.
    exists []. cbn. rewrite app_nil_r.
    repeat split; try reflexivity; try lia. constructor.
  - cbv zeta. rewrite fold_each_cons. cbv zeta. cbn [value final effects].
    pose proof (retry_item_account item n st) as H1. cbv zeta in H1.
    destruct H1 as (Hw1 & Hh1 & Ha1 & Hs1 & Hsup1 & Hlen1 & Hcase).
    specialize (IH (value (retry_item item n st)) (final (retry_item item n st))).
    cbv zeta in IH.
    destruct IH as (Hw2 & Hh2 & Ha2 & Hs2 & Hsup2 & Hlen2 & kept & Hsub & Hq & Hv & Hcount).
    rewrite upserts_of_app, stored_upserts_app, !length_app.
    split; [congruence |]. split; [congruence |]. split; [congruence |].
    split; [congruence |]. split; [tauto |].
    split; [cbn [List.length]; lia |].
    cbn [filter].
    destruct Hcase as [(Hex & Hval & Hqueue & Hups)
                      | [(Hex & Hval & Hqueue & Hups) | (Hex & Hval & Hqueue & Hups)]];
      assert (Hl : live item = negb (exhausted item)) by reflexivity;
      rewrite Hex in Hl; cbn [negb] in Hl; rewrite Hl;
      rewrite Hval in *.
    + assert (Hst : stored_upserts (effects (retry_item item n st)) = []).
      { unfold stored_upserts. rewrite Hups. reflexivity. }
      exists kept. rewrite Hq, Hqueue, Hv, Hst. cbn [List.length].
      repeat split; try assumption; try lia.
    + exists kept. rewrite Hq, Hqueue, Hv, Hups.
      repeat split; cbn [List.length]; try lia.
      apply subseq_skip. exact Hsub.
    + exists (item :: kept). rewrite Hq, Hqueue, Hv, Hups.
      cbn [map List.length]. rewrite <- app_assoc. cbn [app].
      repeat split; try lia.
      apply subseq_keep. exact Hsub.
Qed.

(** X2.  A drain accounts for every item.  With an empty queue or without
    a client, [process_retry_queue] returns 0 and does nothing: no probe,
    no attempt to reconnect, the queue as it was.  Otherwise it pops the
    first [min(batch_size, len)] items and leaves the others at the front,
    in order; of the popped items that have failed fewer than five times,
    each is either stored (one upsert that came back with data, counted in
    the result) or pushed back behind them with its retry_count raised by
    one, in the order they were popped.  It sends at most one upsert per
    popped item, the queue never grows, and the Log is not touched. *)
Theorem drain_accounts_for_every_item (batch_size : nat) (st : State) :
  let q := retry_queue st in
  let k := Nat.min batch_size (List.length q) in
  let r := process_retry_queue batch_size st in
  conversation_history (final r) = conversation_history st /\
  (List.length (retry_queue (final r)) + value r <= List.length q)%nat /\
  (q = [] \/ supabase st = false ->
     value r = 0%nat /\ retry_queue (final r) = q /\
     upserts_of (effects r) = [] /\ probes_of (effects r) = []) /\
  (q <> [] -> supabase st = true ->
     (List.length (upserts_of (effects r)) <= k)%nat /\
     value r = List.length (stored_upserts (effects r)) /\
     exists kept,
       subseq kept (filter live (firstn k q)) /\
       retry_queue (final r) = skipn k q ++ map bump_retry kept /\
       (List.length kept + value r = List.length (filter live (firstn k q)))%nat).
Proof.
  cbv zeta.
  destruct (retry_queue st) as [| item0 q'] eqn:Hq.
  - assert (Hrun : process_retry_queue batch_size st = mkRun 0%nat st []).
    { unfold process_retry_queue, bind, get_state. cbn [value final effects].
      rewrite Hq. reflexivity. }
    rewrite Hrun. cbn [value final effects].
    split; [reflexivity |]. split; [rewrite Hq; cbn; lia |].
    split; [intros _; repeat split; assumption |].
    intros H. exfalso. apply H. reflexivity.
  - destruct (supabase st) eqn:Hsup.
    + assert (Hne : retry_queue st <> []) by (rewrite Hq; discriminate).
      pose proof (process_retry_queue_run batch_size st Hne Hsup) as Hrun.
      cbv zeta in Hrun. rewrite Hq in Hrun. rewrite Hrun. clear Hrun.
      cbn [value final effects].
      set (k := Nat.min batch_size (List.length (item0 :: q'))).
      pose proof (retry_items_account (firstn k (item0 :: q')) 0%nat
                    (set_queue (skipn k (item0 :: q')) st)) as H.
      cbv zeta in H.
      destruct H as (_ & Hh & _ & _ & _ & Hlen & kept & Hsub & Hqueue & Hv & Hcount).
      assert (Hk : (k <= List.length (item0 :: q'))%nat) by (unfold k; lia).
      assert (Hfl : List.length (firstn k (item0 :: q')) = k)
        by (rewrite length_firstn; lia).
      assert (Hups : forall evs,
                 upserts_of (EvLog Info "Processing retry queue" :: evs
                             ++ [EvLog Info "Retry queue processing done"])
                 = upserts_of evs).
      { intros evs. cbn [upserts_of]. rewrite upserts_of_app. cbn. apply app_nil_r. }
      assert (Hst : forall evs,
                 stored_upserts (EvLog Info "Processing retry queue" :: evs
                                 ++ [EvLog Info "Retry queue processing done"])
                 = stored_upserts evs).
      { intros evs. unfold stored_upserts. rewrite Hups. reflexivity. }
      rewrite Hups, Hst.
      cbn [set_queue retry_queue conversation_history] in Hqueue, Hh.
      assert (Hlive : (List.length (filter live (firstn k (item0 :: q'))) <= k)%nat).
      { rewrite <- Hfl at 2. apply filter_length_le. }
      split; [exact Hh |].
      split.
      { rewrite Hqueue, length_app, length_map, length_skipn. simpl in Hv. lia. }
      split; [intros [H | H]; discriminate H |].
      intros _ _.
      split; [lia |].
      split; [exact Hv |].
      exists kept. simpl in Hv. repeat split; try assumption; lia.
    + assert (Hrun : process_retry_queue batch_size st
                     = mkRun 0%nat st
                         [EvLog Warning
                            "Cannot process retry queue: Supabase client is not initialized"]).
      { unfold process_retry_queue, bind, get_state. cbn [value final effects].
        rewrite Hq, Hsup. reflexivity. }
      rewrite Hrun. cbn [value final effects].
      split; [reflexivity |]. split; [rewrite Hq; lia |].
      split; [intros _; repeat split; assumption |].
      intros _ H. discriminate H.
Qed.

(** A drain of two out of three items: the first is stored, the second has
    failed five times and is dropped, the third stays. *)
Lemma drain_accounts_for_every_item_witness :
  let st := queue_state calm_world
              [sample_item 0 0; sample_item 1 5; sample_item 2 0] in
  let r := process_retry_queue 2 st in
  retry_queue st <> [] /\ supabase st = true /\
  (List.length (upserts_of (effects r)) <= 2)%nat /\
  value r = List.length (stored_upserts (effects r)) /\
  value r = 1%nat /\
  retry_queue (final r) = [sample_item 2 0].
Proof.
  intros st r.
  assert (Hne : retry_queue st <> []) by discriminate.
  assert (Hsup : supabase st = true) by reflexivity.
  destruct (drain_accounts_for_every_item 2 st) as (_ & _ & _ & H).
  destruct (H Hne Hsup) as (Hups & Hval & _).
  split; [exact Hne |]. split; [exact Hsup |].
  split; [exact Hups |]. split; [exact Hval |].
  split; vm_compute; reflexivity.
Defined.
(** ** The retry counts *)

Lemma Forall_skipn_keeps {A} (P : A -> Prop) (n : nat) (l : list A) :
  Forall P l -> Forall P (skipn n l).
Proof.
  intros H. rewrite <- (firstn_skipn n l) in H.
  apply Forall_app in H. tauto.
Qed.

Lemma Forall_firstn_keeps {A} (P : A -> Prop) (n : nat) (l : list A) :
  Forall P l -> Forall P (firstn n l).
Proof.
  intros H. rewrite <- (firstn_skipn n l) in H.
  apply Forall_app in H. tauto.
Qed.

(** X3.  The retry counts stay between 0 and 5: when every item of the
    queue has a retry_count in that range, so has every item after an
    enqueue and after a drain, whatever the store does: no item is ever
    left in the queue with a count above 5. *)
Theorem retry_counts_stay_in_range (st : State) :
  counts_in_range (retry_queue st) ->
  (forall (sid pid : string) (conversation : dict),
      counts_in_range
        (retry_queue (final (add_to_retry_queue sid pid conversation st)))) /\
  (forall batch_size : nat,
      counts_in_range (retry_queue (final (process_retry_queue batch_size st)))).
Proof.
  intros Hq. split.
  - intros sid pid conversation.
    rewrite add_to_retry_queue_queue. unfold keep_newest.
    apply Forall_skipn_keeps. apply Forall_app. split; [exact Hq |].
    constructor; [| constructor].
    rewrite make_retry_item_count. lia.
  - intros batch_size.
    destruct (retry_queue st) as [| item0 q'] eqn:Hqueue.
    + unfold process_retry_queue, bind, get_state. cbn [value final effects].
      rewrite Hqueue. cbn. rewrite Hqueue. constructor.
    + destruct (supabase st) eqn:Hsup.
      * assert (Hne : retry_queue st <> []) by (rewrite Hqueue; discriminate).
        pose proof (process_retry_queue_run batch_size st Hne Hsup) as Hrun.
        cbv zeta in Hrun. rewrite Hrun. cbn [final]. clear Hrun.
        rewrite Hqueue.
        set (k := Nat.min batch_size (List.length (item0 :: q'))).
        pose proof (retry_items_pass (firstn k (item0 :: q')) 0%nat
                      (set_queue (skipn k (item0 :: q')) st)) as H.
        cbv zeta in H. destruct H as (pushed & Hfinal & Hpushed & _).
        rewrite Hfinal. cbn [set_queue retry_queue].
        apply Forall_app. split; [apply Forall_skipn_keeps; exact Hq |].
        apply Forall_forall. intros x Hx.
        destruct (Hpushed x Hx) as (item & Hin & Hlt & ->).
        assert (Hitem : (0 <= retry_count item <= 5)%Z).
        { unfold counts_in_range in Hq. rewrite Forall_forall in Hq. apply Hq.
          eapply (proj1 (Forall_forall _ _)
                    (Forall_firstn_keeps (fun y => In y (item0 :: q')) k (item0 :: q')
                       (proj2 (Forall_forall _ _) (fun y Hy => Hy)))).
          exact Hin. }
        unfold bump_retry. cbn [retry_count]. lia.
      * unfold process_retry_queue, bind, get_state. cbn [value final effects].
        rewrite Hqueue, Hsup. cbn. rewrite Hqueue. exact Hq.
Qed.

(** A queue of three items with counts 0, 4 and 5, drained on a store that
    is down: the counts that remain are 1 and 5. *)
Lemma retry_counts_stay_in_range_witness :
  let st := queue_state down_world
              [sample_item 0 0; sample_item 1 4; sample_item 2 5] in
  counts_in_range (retry_queue st) /\
  counts_in_range (retry_queue (final (process_retry_queue 10 st))) /\
  map retry_count (retry_queue (final (process_retry_queue 10 st))) = [1; 5]%Z.
Proof.
  intros st.
  assert (Hq : counts_in_range (retry_queue st)).
  { unfold counts_in_range. cbn. repeat constructor; cbn; lia. }
  split; [exact Hq |].
  split; [exact (proj2 (retry_counts_stay_in_range st Hq) 10%nat) |].
  vm_compute. reflexivity.
Defined.
(** ** Items that cannot be stored *)

Lemma subseq_length {A} (kept l : list A) :
  subseq kept l -> (List.length kept <= List.length l)%nat.
Proof. induction 1; cbn; lia. Qed.

Lemma subseq_full {A} (kept l : list A) :
  subseq kept l -> List.length kept = List.length l -> kept = l.
Proof.
  induction 1 as [| x kept l Hs IH | x kept l Hs IH]; intros Hlen.
  - reflexivity.
  - apply subseq_length in Hs. cbn in Hlen. lia.
  - cbn in Hlen. f_equal. apply IH. lia.
Qed.

(** Every reply a retried item gets is the store's. *)
Lemma retry_item_replies (item : RetryItem) (n : nat) (st : State) :
  forall rows reply,
    In (rows, reply) (upserts_of (effects (retry_item item n st))) ->
    reply = w_upsert (world st) (c_upsert (cursor st)) rows.
Proof.
  intros rows reply Hin.
  destruct (Z.leb_spec 5 (retry_count item)) as [Hex | Hlive].
  - rewrite (retry_item_exhausted item n st Hex) in Hin. cbn in Hin. contradiction.
  - destruct (retry_item_run item n st Hlive) as (ok & sup & cp & ci & evs & Hh & Hr).
    rewrite Hr in Hin. cbv zeta in Hin.
    destruct (health_effects _ _ _ _ Hh) as (Hu & _ & _).
    destruct ok.
    + destruct (json_dumps (VDict (item_conversation item))) as [cd |].
      * destruct (w_upsert (world st) (c_upsert (cursor st)) [retry_row item cd]) eqn:Hw;
          cbn [effects] in Hin; rewrite upserts_of_app, Hu in Hin; cbn in Hin;
          destruct Hin as [Hin | []]; inversion Hin; subst; symmetry; exact Hw.
      * cbn [effects] in Hin. rewrite upserts_of_app, Hu in Hin. cbn in Hin.
        contradiction.
    + cbn [effects] in Hin. rewrite upserts_of_app, Hu in Hin. cbn in Hin.
      contradiction.
Qed.

(** On a store that never returns data, an item that is not exhausted is
    pushed back. *)
Lemma retry_item_never_data (item : RetryItem) (n : nat) (st : State) :
  never_data (world st) ->
  let r := retry_item item n st in
  value r = n /\
  retry_queue (final r)
  = retry_queue st ++ (if live item then [bump_retry item] else []) /\
  stored_upserts (effects r) = [] /\
  (List.length (upserts_of (effects r)) <= if live item then 1 else 0)%nat.
Proof.
  intros Hnd. cbv zeta.
  assert (Hst : stored_upserts (effects (retry_item item n st)) = []).
  { unfold stored_upserts.
    destruct (filter _ _) as [| [rows reply] rest] eqn:Hf; [reflexivity |].
    assert (Hin : In (rows, reply)
                     (filter (fun u => is_data (snd u))
                        (upserts_of (effects (retry_item item n st)))))
      by (rewrite Hf; left; reflexivity).
    apply filter_In in Hin. destruct Hin as (Hin & Hd).
    apply retry_item_replies in Hin. cbn in Hd.
    destruct reply; try discriminate Hd.
    exfalso. apply (Hnd (c_upsert (cursor st)) rows). symmetry. exact Hin. }
  pose proof (retry_item_account item n st) as H. cbv zeta in H.
  destruct H as (_ & _ & _ & _ & _ & Hlen & Hcase).
  unfold live.
  destruct Hcase as [(Hex & Hval & Hqueue & Hups)
                    | [(Hex & Hval & Hqueue & Hups) | (Hex & Hval & Hqueue & Hups)]];
    rewrite Hex; cbn [negb].
  - rewrite Hups, Hqueue, app_nil_r. repeat split; try assumption. cbn. lia.
  - rewrite Hst in Hups. discriminate Hups.
  - repeat split; assumption.
Qed.

Lemma retry_items_never_data (temp_queue : list RetryItem) :
  forall (n : nat) (st : State),
    never_data (world st) ->
    let r := fold_each retry_item temp_queue n st in
    value r = n /\
    retry_queue (final r) = retry_queue st ++ pushed_back temp_queue /\
    stored_upserts (effects r) = [] /\
    (List.length (upserts_of (effects r)) <= List.length (filter live temp_queue))%nat.
Proof.
  induction temp_queue as [| item rest IH]; intros n st Hnd.
  - cbn. rewrite app_nil_r. repeat split; try reflexivity; try lia.
  - cbv zeta. rewrite fold_each_cons. cbv zeta. cbn [value final effects].
    destruct (retry_item_never_data item n st Hnd) as (Hv1 & Hq1 & Hs1 & Hl1).
    pose proof (retry_item_account item n st) as Hw. cbv zeta in Hw.
    destruct Hw as (Hw & _).
    assert (Hnd' : never_data (world (final (retry_item item n st))))
      by (rewrite Hw; exact Hnd).
    destruct (IH (value (retry_item item n st)) (final (retry_item item n st)) Hnd')
      as (Hv2 & Hq2 & Hs2 & Hl2).
    rewrite upserts_of_app, stored_upserts_app, length_app, Hs1, Hs2, Hv2, Hq2, Hq1, Hv1.
    rewrite Hv1 in Hl2.
    unfold pushed_back. cbn [filter].
    destruct (live item); cbn [map List.length app] in *;
      rewrite <- ?app_assoc; repeat split; try reflexivity; try lia.
Qed.

Lemma pushed_back_length (q : list RetryItem) :
  (List.length (pushed_back q) <= List.length q)%nat.
Proof.
  unfold pushed_back. rewrite length_map. apply filter_length_le.
Qed.

(** One drain of the whole queue on a store that never returns data. *)
Lemma drain_never_data (batch_size : nat) (st : State) :
  supabase st = true ->
  never_data (world st) ->
  (List.length (retry_queue st) <= batch_size)%nat ->
  let r := process_retry_queue batch_size st in
  value r = 0%nat /\
  retry_queue (final r) = pushed_back (retry_queue st) /\
  world (final r) = world st /\
  supabase (final r) = true /\
  stored_upserts (effects r) = [] /\
  (List.length (upserts_of (effects r))
   <= List.length (filter live (retry_queue st)))%nat.
Proof.
  intros Hsup Hnd Hlen. cbv zeta.
  destruct (retry_queue st) as [| item0 q'] eqn:Hq.
  - unfold process_retry_queue, bind, get_state. cbn [value final effects].
    rewrite Hq. cbn. repeat split; try assumption. lia.
  - assert (Hne : retry_queue st <> []) by (rewrite Hq; discriminate).
    pose proof (process_retry_queue_run batch_size st Hne Hsup) as Hrun.
    cbv zeta in Hrun. rewrite Hrun. clear Hrun. rewrite Hq.
    assert (Hk : Nat.min batch_size (List.length (item0 :: q'))
                 = List.length (item0 :: q')) by lia.
    rewrite Hk, firstn_all, skipn_all.
    cbn [value final effects].
    set (st0 := set_queue [] st).
    assert (Hnd0 : never_data (world st0)) by exact Hnd.
    destruct (retry_items_never_data (item0 :: q') 0%nat st0 Hnd0)
      as (Hv & Hqueue & Hst & Hl).
    pose proof (retry_items_account (item0 :: q') 0%nat st0) as Ha.
    cbv zeta in Ha. destruct Ha as (Hw & _ & _ & _ & Hs & _).
    assert (Hups : forall evs,
               upserts_of (EvLog Info "Processing retry queue" :: evs
                           ++ [EvLog Info "Retry queue processing done"])
               = upserts_of evs).
    { intros evs. cbn [upserts_of]. rewrite upserts_of_app. cbn. apply app_nil_r. }
    unfold stored_upserts in *. rewrite Hups.
    repeat split; try assumption.
    + apply Hs. exact Hsup.
Qed.

Lemma pushed_back_counts (j : Z) (q : list RetryItem) :
  Forall (fun item => (j <= retry_count item)%Z) q ->
  Forall (fun item => (j + 1 <= retry_count item)%Z) (pushed_back q).
Proof.
  unfold pushed_back. induction 1 as [| item q Hitem Hq IH]; cbn; [constructor |].
  destruct (live item); cbn; [| exact IH].
  constructor; [cbn; lia | exact IH].
Qed.

Lemma pushed_back_exhausted (q : list RetryItem) :
  Forall (fun item => (5 <= retry_count item)%Z) q ->
  filter live q = [] /\ pushed_back q = [].
Proof.
  unfold pushed_back. induction 1 as [| item q Hitem Hq IH]; cbn [filter map].
  - split; reflexivity.
  - assert (Hl : live item = false).
    { unfold live, exhausted. rewrite (proj2 (Z.leb_le _ _) Hitem). reflexivity. }
    rewrite Hl. exact IH.
Qed.

Lemma after_drains_nil (times : nat) : after_drains times [] = [].
Proof. induction times; cbn; auto. Qed.

Lemma attempts_of_drains_nil (times : nat) : attempts_of_drains times [] = 0%nat.
Proof. induction times; cbn; auto. Qed.

(** Items with counts of at least [5 - left] are gone after [left + 1]
    drains, each having been sent at most [left] times. *)
Lemma after_drains_counts (left : nat) :
  forall (times : nat) (q : list RetryItem),
    Forall (fun item => (5 - Z.of_nat left <= retry_count item)%Z) q ->
    (left < times)%nat ->
    after_drains times q = [] /\
    (attempts_of_drains times q <= left * List.length q)%nat.
Proof.
  induction left as [| left IH]; intros times q Hq Hlt.
  - destruct times as [| times]; [lia |].
    cbn [after_drains attempts_of_drains].
    assert (Hq' : Forall (fun item => (5 <= retry_count item)%Z) q).
    { eapply Forall_impl; [| exact Hq]. intros item H. cbv beta in H. change (Z.of_nat 0) with 0%Z in H. lia. }
    destruct (pushed_back_exhausted q Hq') as (H1 & H2).
    rewrite H1, H2, after_drains_nil, attempts_of_drains_nil. cbn. split; [reflexivity | lia].
  - destruct times as [| times]; [lia |].
    cbn [after_drains attempts_of_drains].
    assert (Hq' : Forall (fun item => (5 - Z.of_nat left <= retry_count item)%Z)
                         (pushed_back q)).
    { eapply Forall_impl; [| exact (pushed_back_counts _ q Hq)]. intros item H. cbv beta in H. lia. }
    destruct (IH times (pushed_back q) Hq' ltac:(lia)) as (H1 & H2).
    split; [exact H1 |].
    pose proof (pushed_back_length q) as Hl.
    pose proof (filter_length_le live q) as Hf.
    nia.
Qed.

Lemma drain_times_never_data (times batch_size : nat) :
  forall st : State,
    supabase st = true ->
    never_data (world st) ->
    (List.length (retry_queue st) <= batch_size)%nat ->
    let r := drain_times times batch_size st in
    value r = 0%nat /\
    retry_queue (final r) = after_drains times (retry_queue st) /\
    stored_upserts (effects r) = [] /\
    (List.length (upserts_of (effects r))
     <= attempts_of_drains times (retry_queue st))%nat.
Proof.
  induction times as [| times IH]; intros st Hsup Hnd Hlen.
  - cbn. repeat split; try reflexivity; try lia.
  - cbv zeta. cbn [drain_times]. unfold bind.
    destruct (drain_never_data batch_size st Hsup Hnd Hlen)
      as (Hv & Hq & Hw & Hs & Hst & Hl).
    destruct (process_retry_queue batch_size st) as [v1 st1 e1].
    cbn [value final effects] in *.
    assert (Hnd1 : never_data (world st1)) by (rewrite Hw; exact Hnd).
    assert (Hlen1 : (List.length (retry_queue st1) <= batch_size)%nat).
    { rewrite Hq. pose proof (pushed_back_length (retry_queue st)). lia. }
    specialize (IH st1 Hs Hnd1 Hlen1). cbv zeta in IH.
    destruct IH as (Hv2 & Hq2 & Hst2 & Hl2).
    destruct (drain_times times batch_size st1) as [v2 st2 e2].
    cbn [value final effects ret] in *.
    rewrite app_nil_r, upserts_of_app, stored_upserts_app, length_app.
    rewrite Hst, Hst2, Hq2, Hq, Hv, Hv2. cbn [after_drains attempts_of_drains].
    repeat split; try reflexivity. rewrite Hq in Hl2. lia.
Qed.

(** X4.  A message the store never accepts is given up.  On a store none
    of whose upserts ever returns data, six drains of the whole queue (or
    more) empty it: every item has been pushed back with its count raised
    until the count reached 5 and was then dropped.  Nothing was stored,
    and no item was sent more than five times. *)
Theorem undeliverable_items_are_given_up (batch_size extra : nat) (st : State) :
  supabase st = true ->
  never_data (world st) ->
  Forall (fun item => (0 <= retry_count item)%Z) (retry_queue st) ->
  (List.length (retry_queue st) <= batch_size)%nat ->
  let r := drain_times (6 + extra) batch_size st in
  value r = 0%nat /\
  retry_queue (final r) = [] /\
  stored_upserts (effects r) = [] /\
  (List.length (upserts_of (effects r)) <= 5 * List.length (retry_queue st))%nat.
Proof.
  intros Hsup Hnd Hcounts Hlen. cbv zeta.
  destruct (drain_times_never_data (6 + extra) batch_size st Hsup Hnd Hlen)
    as (Hv & Hq & Hst & Hl).
  destruct (after_drains_counts 5 (6 + extra) (retry_queue st)) as (H1 & H2).
  - eapply Forall_impl; [| exact Hcounts]. cbn. intros item H. lia.
  - lia.
  - rewrite Hq, H1. repeat split; try assumption. lia.
Qed.

(** Two fresh items on a store whose upserts all time out. *)
Lemma undeliverable_items_are_given_up_witness :
  let st := queue_state (raising_world "APIError" "timeout")
              [sample_item 0 0; sample_item 1 0] in
  let r := drain_times 6 10 st in
  value r = 0%nat /\
  retry_queue (final r) = [] /\
  stored_upserts (effects r) = [] /\
  (List.length (upserts_of (effects r)) <= 10)%nat /\
  List.length (upserts_of (effects r)) = 10%nat.
Proof.
  intros st r.
  assert (Hsup : supabase st = true) by reflexivity.
  assert (Hnd : never_data (world st)) by (intros k rows; discriminate).
  assert (Hcounts : Forall (fun item => (0 <= retry_count item)%Z) (retry_queue st)).
  { cbn. repeat constructor; cbn; lia. }
  assert (Hlen : (List.length (retry_queue st) <= 10)%nat) by (cbn; lia).
  destruct (undeliverable_items_are_given_up 10 0 st Hsup Hnd Hcounts Hlen)
    as (Hv & Hq & Hst & Hl).
  split; [exact Hv |]. split; [exact Hq |]. split; [exact Hst |].
  split; [exact Hl |]. vm_compute. reflexivity.
Defined.
(** ** From the retry queue to the store *)

Lemma check_supabase_health_healthy (st : State) :
  supabase st = true -> next_probe st = true ->
  check_supabase_health st
  = mkRun true (set_cursor (bump_probe (cursor st)) st)
          [EvProbe true; EvLog Debug "Supabase connection is healthy"].
Proof.
  unfold next_probe. intros Hsup Hp.
  unfold check_supabase_health, bind, get_state, select_probe, log, emit, ret.
  cbn [value final effects]. rewrite Hsup. cbn [negb]. rewrite Hp. reflexivity.
Qed.

(** X5.  What reaches the store by way of the retry queue.  A message
    enqueued into an empty queue and drained while the store is healthy is
    sent as one row: the session and participant it was enqueued with, its
    content as raw_conversation, its own timestamp (the time of the enqueue
    when it has none), message_count 1 and email_sent False; but the
    conversation column holds only the reduced record of role, content,
    timestamp and message_id, and user_email is empty: the message's
    metadata does not survive the queue.  When the upsert returns data the
    drain returns 1 and the queue is empty again. *)
Theorem enqueue_then_drain (sid pid : string) (conversation : dict)
  (batch_size : nat) (st : State) :
  retry_queue st = [] ->
  supabase st = true ->
  next_probe st = true ->
  (0 < batch_size)%nat ->
  serializable (VDict (queued_record conversation st)) = true ->
  w_upsert (world st) (c_upsert (cursor st)) [retried_row sid pid conversation st]
  = UpsertData ->
  let queued := final (add_to_retry_queue sid pid conversation st) in
  let r := process_retry_queue batch_size queued in
  List.length (retry_queue queued) = 1%nat /\
  map fst (queued_record conversation st)
  = ["role"; "content"; "timestamp"; "message_id"] /\
  value r = 1%nat /\
  retry_queue (final r) = [] /\
  upserts_of (effects r) = [([retried_row sid pid conversation st], UpsertData)].
Proof.
  intros Hq Hsup Hp Hbs Hser Hw. cbv zeta.
  rewrite add_to_retry_queue_run. cbn [final].
  rewrite Hq. cbn [app]. rewrite keep_newest_short by (cbn; unfold MAX_RETRY_QUEUE_SIZE; lia).
  rewrite make_retry_item_run. cbn [value].
  set (item := mkRetryItem _ _ _ _ _ _ _ _ _ _).
  set (st1 := set_queue [item] _).
  split; [reflexivity |]. split; [reflexivity |].
  assert (Hne : retry_queue st1 <> []) by discriminate.
  assert (Hsup1 : supabase st1 = true) by exact Hsup.
  pose proof (process_retry_queue_run batch_size st1 Hne Hsup1) as Hrun.
  cbv zeta in Hrun. rewrite Hrun. clear Hrun.
  assert (Hk : Nat.min batch_size (List.length (retry_queue st1)) = 1%nat)
    by (cbn [st1 set_queue retry_queue List.length]; lia).
  rewrite Hk. cbn [st1 set_queue retry_queue firstn skipn].
  fold st1.
  set (st2 := set_queue [] st1).
  rewrite fold_each_cons. cbv zeta. cbn [fold_each ret value final effects].
  assert (Hlive : (retry_count item < 5)%Z) by (cbn; lia).
  destruct (retry_item_run item 0%nat st2 Hlive) as (ok & sup & cp & ci & evs & Hh & Hr).
  assert (Hsup2 : supabase st2 = true) by exact Hsup.
  assert (Hp2 : next_probe st2 = true) by exact Hp.
  rewrite (check_supabase_health_healthy st2 Hsup2 Hp2) in Hh.
  injection Hh as Hok Hstate Hevs. subst ok evs.
  rewrite Hr. cbv zeta.
  assert (Hconv : item_conversation item = queued_record conversation st) by reflexivity.
  rewrite Hconv. unfold json_dumps. rewrite Hser.
  assert (Hrow : retry_row item (JsonText (VDict (queued_record conversation st)))
                 = retried_row sid pid conversation st).
  { unfold retry_row, retried_row, item. cbn. reflexivity. }
  rewrite Hrow.
  assert (Hws : w_upsert (world st2) (c_upsert (cursor st2))
                  [retried_row sid pid conversation st] = UpsertData) by exact Hw.
  rewrite Hws. cbn [value final effects].
  rewrite <- Hstate. cbn [set_cursor retry_queue st2 st1 set_queue].
  split; [reflexivity |]. split; [reflexivity |].
  cbn. reflexivity.
Qed.

(** A user message with an address in its metadata: the row the drain
    sends has lost it. *)
Lemma enqueue_then_drain_witness :
  let st := idle_state calm_world in
  let queued := final (add_to_retry_queue "session-1" "user" mailed_message st) in
  let r := process_retry_queue 10 queued in
  value r = 1%nat /\
  retry_queue (final r) = [] /\
  upserts_of (effects r)
  = [([retried_row "session-1" "user" mailed_message st], UpsertData)] /\
  user_email_of mailed_message = VStr "ada@example.org" /\
  row_user_email (retried_row "session-1" "user" mailed_message st) = VStr "" /\
  dict_get "metadata" (queued_record mailed_message st) = None.
Proof.
  intros st queued r.
  assert (Hq : retry_queue st = []) by reflexivity.
  assert (Hsup : supabase st = true) by reflexivity.
  assert (Hp : next_probe st = true) by reflexivity.
  assert (Hbs : (0 < 10)%nat) by lia.
  assert (Hser : serializable (VDict (queued_record mailed_message st)) = true)
    by reflexivity.
  assert (Hw : w_upsert (world st) (c_upsert (cursor st))
                 [retried_row "session-1" "user" mailed_message st] = UpsertData)
    by reflexivity.
  destruct (enqueue_then_drain "session-1" "user" mailed_message 10 st
              Hq Hsup Hp Hbs Hser Hw) as (_ & _ & Hv & Hqueue & Hups).
  split; [exact Hv |]. split; [exact Hqueue |]. split; [exact Hups |].
  repeat split; reflexivity.
Defined.
(** ** What a flush may change in the Log *)

Lemma flush_keeps_refl (msg : dict) : flush_keeps msg msg.
Proof.
  repeat split; try tauto.
  intros metadata H. exists metadata. split; [exact H | reflexivity].
Qed.

Lemma flush_keeps_trans (a b c : dict) :
  flush_keeps a b -> flush_keeps b c -> flush_keeps a c.
Proof.
  intros (H1 & H2 & H3 & H4) (K1 & K2 & K3 & K4).
  repeat split.
  - intros k Hk1 Hk2. rewrite K1, H1 by assumption. reflexivity.
  - intros v Hv. apply K2, H2, Hv.
  - intros Hs. apply K3, H3, Hs.
  - intros metadata Hm.
    destruct (H4 metadata Hm) as (mb & Hb & Hkb).
    destruct (K4 mb Hb) as (mc & Hc & Hkc).
    exists mc. split; [exact Hc |].
    intros k Hk. rewrite Hkc, Hkb by assumption. reflexivity.
Qed.

Lemma flush_keeps_set_stored (msg : dict) : flush_keeps msg (set_stored msg).
Proof.
  unfold set_stored. repeat split.
  - intros k _ Hk. apply dict_get_set_other. exact Hk.
  - intros v Hv. rewrite dict_get_set_other by discriminate. exact Hv.
  - intros _. apply stored_flag_set_stored.
  - intros metadata Hm. rewrite Hm, dict_get_set_same.
    eexists. split; [reflexivity |].
    intros k Hk. apply dict_get_set_other. exact Hk.
Qed.

Lemma flush_keeps_same_but_id (msg msg' : dict) :
  same_but_id msg msg' -> flush_keeps msg msg'.
Proof.
  intros [-> | (Hno & fresh & ->)]; [apply flush_keeps_refl |].
  repeat split.
  - intros k Hk _. apply dict_get_set_other. exact Hk.
  - intros v Hv. unfold dict_has in Hno. rewrite Hv in Hno. discriminate Hno.
  - intros Hs. unfold stored_flag in *.
    rewrite dict_get_set_other by discriminate. exact Hs.
  - intros metadata Hm. exists metadata.
    rewrite dict_get_set_other by discriminate. split; [exact Hm | reflexivity].
Qed.

Lemma Forall2_flush_keeps_refl (h : list dict) : Forall2 flush_keeps h h.
Proof. induction h; constructor; [apply flush_keeps_refl | assumption]. Qed.

Lemma Forall2_flush_keeps_trans (a b c : list dict) :
  Forall2 flush_keeps a b -> Forall2 flush_keeps b c -> Forall2 flush_keeps a c.
Proof.
  intros Hab. revert c.
  induction Hab as [| x y a b Hxy Hab IH]; intros c Hbc; inversion Hbc; subst.
  - constructor.
  - constructor; [eapply flush_keeps_trans; eassumption | apply IH; assumption].
Qed.

Lemma mark_step_keeps (row : Row) (history : list dict) :
  Forall2 flush_keeps history (mark_step row history).
Proof.
  unfold mark_step.
  destruct (mark_first row history) as [marked |] eqn:Hm;
    [| apply Forall2_flush_keeps_refl].
  destruct (mark_first_some row history marked Hm) as (pre & msg & post & -> & _ & _ & ->).
  apply Forall2_app; [apply Forall2_flush_keeps_refl |].
  constructor; [apply flush_keeps_set_stored | apply Forall2_flush_keeps_refl].
Qed.

Lemma mark_all_keeps (rows : list Row) :
  forall history, Forall2 flush_keeps history (mark_all rows history).
Proof.
  unfold mark_all.
  induction rows as [| row rows IH]; intros history; cbn [fold_left].
  - apply Forall2_flush_keeps_refl.
  - eapply Forall2_flush_keeps_trans; [apply (mark_step_keeps row) | apply IH].
Qed.

Lemma store_single_history (msg_data : Row) (n : nat) (st : State) :
  let r := store_single msg_data n st in
  conversation_history (final r) = conversation_history st \/
  conversation_history (final r) = mark_step msg_data (conversation_history st).
Proof.
  cbv zeta. rewrite store_single_run. cbv zeta. unfold mark_step.
  destruct (w_upsert (world st) (c_upsert (cursor st)) [msg_data]);
    try (left; reflexivity).
  destruct (mark_first msg_data (conversation_history st));
    [right | left]; reflexivity.
Qed.

Lemma store_singles_keep (batch : list Row) :
  forall n st,
    Forall2 flush_keeps (conversation_history st)
            (conversation_history (final (fold_each store_single batch n st))).
Proof.
  induction batch as [| row batch IH]; intros n st.
  - apply Forall2_flush_keeps_refl.
  - rewrite fold_each_cons. cbv zeta. cbn [final].
    eapply Forall2_flush_keeps_trans; [| apply IH].
    destruct (store_single_history row n st) as [-> | ->];
      [apply Forall2_flush_keeps_refl | apply mark_step_keeps].
Qed.

Lemma store_batch_keeps (batch : list Row) (n : nat) (st : State) :
  Forall2 flush_keeps (conversation_history st)
          (conversation_history (final (store_batch batch n st))).
Proof.
  rewrite store_batch_run. cbv zeta.
  destruct (w_upsert (world st) (c_upsert (cursor st)) batch); cbn [final].
  - rewrite mark_all_history. apply mark_all_keeps.
  - apply Forall2_flush_keeps_refl.
  - apply Forall2_flush_keeps_refl.
  - apply (store_singles_keep batch n (set_cursor (bump_upsert (cursor st)) st)).
Qed.

Lemma store_batches_keep (bs : list (list Row)) :
  forall n st,
    Forall2 flush_keeps (conversation_history st)
            (conversation_history (final (fold_each store_batch bs n st))).
Proof.
  induction bs as [| b bs IH]; intros n st.
  - apply Forall2_flush_keeps_refl.
  - rewrite fold_each_cons. cbv zeta. cbn [final].
    eapply Forall2_flush_keeps_trans; [apply store_batch_keeps | apply IH].
Qed.

Lemma prepare_message_same (sid : string) (message : dict) (st : State) :
  same_but_id message (fst (value (prepare_message sid message st))).
Proof.
  rewrite prepare_message_run. unfold same_but_id.
  destruct (stored_flag message) as [[|] |]; cbv zeta; cbn [value fst];
    try (left; reflexivity);
    destruct (dict_has "message_id" message) eqn:Hid;
    repeat match goal with
           | |- context [if ?b then _ else _] => destruct b
           end;
    cbn [value fst];
    first [left; reflexivity | right; split; [reflexivity | eexists; reflexivity]].
Qed.

Lemma collect_messages_same (sid : string) (history : list dict) :
  forall st,
    Forall2 same_but_id history (fst (value (collect_messages sid history st))).
Proof.
  induction history as [| message history IH]; intros st.
  - constructor.
  - cbn [collect_messages]. unfold bind.
    pose proof (prepare_message_same sid message st) as Hp.
    destruct (prepare_message sid message st) as [p st1 e1].
    specialize (IH st1).
    destruct (collect_messages sid history st1) as [rest st2 e2].
    cbn [ret value fst] in *.
    constructor; assumption.
Qed.

Lemma Forall2_flush_keeps_same (h h' : list dict) :
  Forall2 same_but_id h h' -> Forall2 flush_keeps h h'.
Proof.
  induction 1; constructor; [apply flush_keeps_same_but_id | ]; assumption.
Qed.

(** What a flush leaves of the Log and of the other globals. *)
Lemma store_full_conversation_keeps (st : State) :
  let r := store_full_conversation st in
  Forall2 flush_keeps (conversation_history st) (conversation_history (final r)) /\
  exists k, flush_frame k st (final r).
Proof.
  cbv zeta.
  destruct (store_full_conversation_cases st)
    as [(l & msg & E & _) | (sid & n & Hready)].
  - rewrite E. cbn [final]. split; [apply Forall2_flush_keeps_refl |].
    exists 0%nat. apply flush_frame_refl.
  - rewrite (store_full_conversation_run st sid n Hready). cbv zeta. cbn [final].
    destruct (collect_messages_frame sid (conversation_history st) st)
      as (Fc & Hhc & _).
    set (c := collect_messages sid (conversation_history st) st) in *.
    set (st2 := set_history (fst (value c)) (final c)).
    split.
    + eapply Forall2_flush_keeps_trans;
        [| apply (store_batches_keep (batches_of_rows (snd (value c))) 0%nat st2)].
      apply Forall2_flush_keeps_same. apply collect_messages_same.
    + destruct (store_batches_frame (batches_of_rows (snd (value c))) 0%nat st2)
        as ((k & Fk) & _).
      exists k.
      assert (F2 : flush_frame 0 st st2).
      { unfold flush_frame in *. cbn [st2 set_history world supabase agent session_id
                                        retry_queue cursor]. exact Fc. }
      exact (flush_frame_trans 0 k st st2 _ F2 Fk).
Qed.

(** X6.  A flush never loses, reorders or rewrites a message.  After
    [store_full_conversation] the Log has the entries it had, in the same
    order; an entry can only have gained a message_id, where it had none,
    and a stored flag: its role, content, timestamp and every other key, a
    message_id it had, a stored flag that was set and the other keys of its
    metadata are as before.  The flush does not touch the Retry Queue
    either: a message whose upsert fails in a flush is not enqueued. *)
Theorem flush_keeps_the_log (st : State) :
  let r := store_full_conversation st in
  Forall2 flush_keeps (conversation_history st) (conversation_history (final r)) /\
  List.length (conversation_history (final r))
  = List.length (conversation_history st) /\
  retry_queue (final r) = retry_queue st /\
  supabase (final r) = supabase st /\
  session_id (final r) = session_id st.
Proof.
  cbv zeta.
  destruct (store_full_conversation_keeps st) as (Hk & k & (_ & Hsup & _ & Hsid & Hq & _)).
  split; [exact Hk |].
  split; [symmetry; eapply Forall2_length_eq; exact Hk |].
  repeat split; assumption.
Qed.
(** ** What a flush sends *)

Lemma get_or_set_other (k k' : string) (default v : pyval) (d : dict) :
  k <> k' -> get_or k default (dict_set k' v d) = get_or k default d.
Proof. intros H. unfold get_or. rewrite dict_get_set_other by exact H. reflexivity. Qed.

Lemma row_of_message_same (sid : string) (msg msg' : dict) (row : Row) :
  same_but_id msg msg' -> row_of_message sid msg' row -> row_of_message sid msg row.
Proof.
  intros [-> | (_ & fresh & ->)]; [tauto |].
  unfold row_of_message, participant_of.
  rewrite !get_or_set_other by discriminate.
  intros (H1 & H2 & H3 & (now & H4) & H5 & H6).
  repeat split; try assumption.
  exists now. rewrite get_or_set_other in H4 by discriminate. exact H4.
Qed.

Lemma full_row_of_message (sid : string) (msg : dict) (now : string) :
  row_of_message sid msg (full_row sid msg now).
Proof. repeat split. exists now. reflexivity. Qed.

Lemma safe_row_of_message (sid : string) (msg : dict) (now now' : string)
  (message_id : pyval) :
  row_of_message sid msg (safe_row sid msg (safe_message_of msg now message_id) now').
Proof. repeat split. exists now. reflexivity. Qed.

(** The row the collecting loop appends for an entry, if any, is a row for
    that entry, and the entry was not stored. *)
Lemma prepare_message_row (sid : string) (message : dict) (st : State) (row : Row) :
  snd (value (prepare_message sid message st)) = Some row ->
  unstored message = true /\ row_of_message sid message row.
Proof.
  pose proof (prepare_message_same sid message st) as Hsame.
  revert Hsame. rewrite prepare_message_run. unfold unstored.
  destruct (stored_flag message) as [[|] |]; cbv zeta; cbn [value fst snd];
    try discriminate;
    repeat match goal with
           | |- context [if serializable ?v then _ else _] =>
               destruct (serializable v)
           end;
    cbn [value fst snd]; intros Hsame H; try discriminate H;
    injection H as <-; (split; [reflexivity |]);
    (eapply row_of_message_same; [exact Hsame |]);
    first [apply full_row_of_message | apply safe_row_of_message].
Qed.

Lemma collect_messages_rows (sid : string) (history : list dict) :
  forall (st : State) (row : Row),
    In row (snd (value (collect_messages sid history st))) ->
    exists msg, In msg history /\ unstored msg = true /\ row_of_message sid msg row.
Proof.
  induction history as [| message history IH]; intros st row Hin.
  - cbn in Hin. contradiction.
  - cbn [collect_messages] in Hin. unfold bind in Hin.
    pose proof (prepare_message_row sid message st) as Hp.
    destruct (prepare_message sid message st) as [p st1 e1].
    specialize (IH st1 row).
    destruct (collect_messages sid history st1) as [rest st2 e2].
    cbn [ret value fst snd] in *.
    destruct (snd p) as [insert_data |].
    + destruct Hin as [<- | Hin].
      * destruct (Hp insert_data eq_refl) as (Hu & Hr).
        exists message. split; [left; reflexivity | tauto].
      * destruct (IH Hin) as (msg & Hm & Hrest).
        exists msg. split; [right; exact Hm | exact Hrest].
    + destruct (IH Hin) as (msg & Hm & Hrest).
      exists msg. split; [right; exact Hm | exact Hrest].
Qed.

(** Every list a pass over the groups sends is a group or one row of a
    group. *)
Lemma expected_upserts_in (w : World) (bs : list (list Row)) :
  forall (n : nat) (rows : list Row),
    In rows (expected_upserts w n bs) ->
    exists b, In b bs /\ (rows = b \/ exists row, In row b /\ rows = [row]).
Proof.
  induction bs as [| b bs IH]; intros n rows Hin; [contradiction |].
  cbn [expected_upserts] in Hin.
  assert (Hrest : forall m, In rows (expected_upserts w m bs) ->
            exists b0, In b0 (b :: bs) /\
                       (rows = b0 \/ exists row, In row b0 /\ rows = [row])).
  { intros m H. destruct (IH m rows H) as (b0 & Hb0 & Hr).
    exists b0. split; [right; exact Hb0 | exact Hr]. }
  destruct (w_upsert w n b).
  1-3: destruct Hin as [<- | Hin];
       [exists b; split; [left; reflexivity | left; reflexivity] | eapply Hrest; exact Hin].
  destruct Hin as [<- | Hin];
    [exists b; split; [left; reflexivity | left; reflexivity] |].
  apply in_app_or in Hin. destruct Hin as [Hin | Hin]; [| eapply Hrest; exact Hin].
  apply in_map_iff in Hin. destruct Hin as (row & <- & Hrow).
  exists b. split; [left; reflexivity |]. right. exists row. tauto.
Qed.

Lemma batches_of_rows_in {A} (l b : list A) :
  In b (batches_of_rows l) ->
  (1 <= List.length b <= batch_size)%nat /\ forall x, In x b -> In x l.
Proof.
  intros Hb.
  destruct (batches_of_rows_partition l) as (Hc & Hlen & _).
  split; [exact (proj1 (Forall_forall _ _) Hlen b Hb) |].
  intros x Hx. rewrite <- Hc. apply in_concat. exists b. tauto.
Qed.

(** X7.  A flush sends rows for unstored entries only.  Every upsert of
    [store_full_conversation] carries between 1 and 10 rows, and each row
    is a row for an entry of the Log that was not marked stored when the
    flush began: it has the session's id, that entry's participant_id (or
    role), content and timestamp, message_count 1 and email_sent False.
    An entry already marked stored is never sent again. *)
Theorem flush_sends_only_unstored (st : State) (sid : string) :
  session_id st = Some sid ->
  let r := store_full_conversation st in
  forall (rows : list Row) (reply : upsert_reply),
    In (rows, reply) (upserts_of (effects r)) ->
    (1 <= List.length rows <= 10)%nat /\
    Forall (fun row =>
              exists msg, In msg (conversation_history st) /\
                          unstored msg = true /\
                          row_of_message sid msg row) rows.
Proof.
  intros Hsid r rows reply Hin. unfold r in Hin. clear r.
  destruct (store_full_conversation_cases st)
    as [(l & msg & E & _) | (sid' & n & Hready)].
  - rewrite E in Hin. cbn in Hin. contradiction.
  - assert (sid' = sid).
    { destruct Hready as (_ & Hs & _). congruence. }
    subst sid'.
    rewrite (store_full_conversation_run st sid n Hready) in Hin.
    cbv zeta in Hin. cbn [effects] in Hin.
    destruct (collect_messages_frame sid (conversation_history st) st)
      as (Fc & _ & (Uc & _ & _)).
    set (c := collect_messages sid (conversation_history st) st) in *.
    set (st2 := set_history (fst (value c)) (final c)) in *.
    rewrite !upserts_of_app, Uc in Hin. cbn [app upserts_of] in Hin.
    rewrite app_nil_r in Hin.
    destruct (store_batches_frame (batches_of_rows (snd (value c))) 0%nat st2)
      as (_ & Hb & _).
    assert (Hrows : In rows (batches_of
                      (effects (fold_each store_batch
                                  (batches_of_rows (snd (value c))) 0%nat st2)))).
    { unfold batches_of. apply in_map_iff. exists (rows, reply). tauto. }
    rewrite Hb in Hrows.
    destruct (expected_upserts_in _ _ _ _ Hrows) as (b & Hbin & Hcase).
    destruct (batches_of_rows_in _ _ Hbin) as (Hlen & Hsub).
    unfold batch_size in Hlen.
    assert (Hall : forall row, In row b ->
              exists msg, In msg (conversation_history st) /\
                          unstored msg = true /\ row_of_message sid msg row).
    { intros row Hrow. apply (collect_messages_rows sid _ st row). apply Hsub, Hrow. }
    destruct Hcase as [-> | (row & Hrow & ->)].
    + split; [exact Hlen |]. apply Forall_forall. exact Hall.
    + split; [cbn; lia |]. constructor; [apply Hall, Hrow | constructor].
Qed.

(** Twelve unstored messages: the first upsert carries ten rows, each for
    an unstored entry of the Log. *)
Lemma flush_sends_only_unstored_witness :
  let st := log_state calm_world 12 in
  let r := store_full_conversation st in
  let first := hd ([], UpsertEmpty) (upserts_of (effects r)) in
  session_id st = Some "session-1" /\
  In first (upserts_of (effects r)) /\
  List.length (fst first) = 10%nat /\
  Forall (fun row =>
            exists msg, In msg (conversation_history st) /\
                        unstored msg = true /\
                        row_of_message "session-1" msg row) (fst first).
Proof.
  intros st r first.
  assert (Hsid : session_id st = Some "session-1") by reflexivity.
  assert (Hin : In first (upserts_of (effects r))) by (vm_compute; left; reflexivity).
  split; [exact Hsid |]. split; [exact Hin |].
  split; [vm_compute; reflexivity |].
  destruct first as [rows reply].
  exact (proj2 (flush_sends_only_unstored st "session-1" Hsid rows reply Hin)).
Defined.
(** ** A flush that succeeds, and the next one *)

Lemma full_row_key (sid : string) (m : dict) (now : string) :
  well_keyed m -> row_key (full_row sid m now) = key_of m.
Proof.
  intros ((t & Ht) & (ro & Hro) & Hp).
  unfold row_key, key_of, full_row, participant_of, get_or. cbn.
  rewrite Ht, Hro, Hp. reflexivity.
Qed.

(** When every upsert returns data and the entries of the Log have
    distinct string (timestamp, role) pairs, a flush leaves nothing
    unstored. *)
Lemma flush_stores_all (st : State) (sid : string) (n : nat) :
  flush_ready st sid n ->
  Forall (fun m => unstored m = true -> serializable (VDict m) = true)
         (conversation_history st) ->
  (forall k rows, w_upsert (world st) k rows = UpsertData) ->
  Forall well_keyed (conversation_history st) ->
  NoDup (map key_of (conversation_history st)) ->
  count_unstored (conversation_history (final (store_full_conversation st)))
  = Some 0%nat.
Proof.
  intros Hready Henc Hall Hwk Hnd.
  pose proof Hready as (Hsup & Hsid & Hne & Hcount).
  destruct (count_unstored_filter _ _ Hcount) as (Hflags & Hlen).
  destruct (collect_messages_spec sid (conversation_history st) st Henc) as (Hsame & Hrows).
  destruct (collect_messages_frame sid (conversation_history st) st) as (Fc & _ & _).
  rewrite (store_full_conversation_run st sid n Hready). cbv zeta. cbn [final].
  set (c := value (collect_messages sid (conversation_history st) st)) in *.
  set (st2 := set_history (fst c) (final (collect_messages sid (conversation_history st) st))).
  assert (Hw2 : world st2 = world st) by apply Fc.
  rewrite store_batches_history by (intros; rewrite Hw2; apply Hall).
  destruct (batches_of_rows_partition (snd c)) as (Hcat & _ & _).
  rewrite Hcat. cbn [st2 set_history conversation_history].
  apply count_unstored_all_stored.
  assert (Hkeys : map key_of (fst c) = map key_of (conversation_history st)).
  { clear - Hsame. induction Hsame as [| m m' h h' Hm Hh IH]; [reflexivity |].
    cbn [map]. rewrite IH, (proj1 (same_but_id_facts _ _ Hm)). reflexivity. }
  assert (Hwk' : Forall well_keyed (fst c)).
  { clear - Hsame Hwk. induction Hsame as [| m m' h h' Hm Hh IH]; [constructor |].
    inversion Hwk; subst. constructor; [| apply IH; assumption].
    apply (proj1 (proj2 (proj2 (same_but_id_facts _ _ Hm)))). assumption. }
  assert (Hflags' : Forall (fun m => stored_flag m <> None) (fst c)).
  { clear - Hsame Hflags. induction Hsame as [| m m' h h' Hm Hh IH]; [constructor |].
    inversion Hflags; subst. constructor; [| apply IH; assumption].
    rewrite (proj1 (proj2 (same_but_id_facts _ _ Hm))). assumption. }
  assert (Hpairs : forall row, In row (snd c) ->
            exists m, In m (filter unstored (fst c)) /\ row_key row = key_of m).
  { clear - Hrows Hwk'. intros row Hin.
    assert (Hwf : Forall well_keyed (filter unstored (fst c))).
    { apply Forall_forall. intros m Hm. apply filter_In in Hm.
      rewrite Forall_forall in Hwk'. apply Hwk'. tauto. }
    induction Hrows as [| m0 row0 ms rs (now & Hrow) Hrest IH]; [contradiction |].
    inversion Hwf; subst.
    destruct Hin as [<- | Hin].
    - exists m0. split; [left; reflexivity | apply full_row_key; assumption].
    - destruct (IH Hin ltac:(assumption)) as (m & Hm & Hk).
      exists m. split; [right; exact Hm | exact Hk]. }
  assert (Hcover : forall m, In m (filter unstored (fst c)) ->
            exists row, In row (snd c) /\ row_key row = key_of m).
  { clear - Hrows Hwk'. intros m Hin.
    assert (Hwf : Forall well_keyed (filter unstored (fst c))).
    { apply Forall_forall. intros m' Hm. apply filter_In in Hm.
      rewrite Forall_forall in Hwk'. apply Hwk'. tauto. }
    induction Hrows as [| m0 row0 ms rs (now & Hrow) Hrest IH]; [contradiction |].
    inversion Hwf; subst.
    destruct Hin as [-> | Hin].
    - eexists. split; [left; reflexivity | apply full_row_key; assumption].
    - destruct (IH Hin ltac:(assumption)) as (row & Hr & Hk).
      exists row. split; [right; exact Hr | exact Hk]. }
  apply (mark_all_stores_all (snd c) (fst c)); auto.
  - rewrite Hkeys. exact Hnd.
  - intros row Hin. destruct (Hpairs row Hin) as (m & Hm & Hk).
    exists m. split; [| exact Hk].
    apply filter_In in Hm. rewrite Forall_forall in Hwk'. apply Hwk'. tauto.
  - intros m Hin Hun. destruct (Hcover m) as (row & Hr & Hk).
    { apply filter_In. auto. }
    rewrite <- Hk. apply in_map. exact Hr.
Qed.

(** X8.  A flush that went through leaves nothing for the next one.  Take
    a flush that reaches its batch loop, on a store whose every upsert
    returns data, over a Log in which every unstored entry can be encoded,
    every entry has a string timestamp, a string role and no participant_id
    key of its own, and no two entries share their (timestamp, role) pair.
    Then a second [store_full_conversation] right after the first sends
    nothing and changes nothing: it logs that all messages are already
    stored. *)
Theorem second_flush_sends_nothing (st : State) (sid : string) (n : nat) :
  flush_ready st sid n ->
  Forall (fun m => unstored m = true -> serializable (VDict m) = true)
         (conversation_history st) ->
  (forall k rows, w_upsert (world st) k rows = UpsertData) ->
  Forall well_keyed (conversation_history st) ->
  NoDup (map key_of (conversation_history st)) ->
  let st1 := final (store_full_conversation st) in
  store_full_conversation st1
  = mkRun tt st1 [EvLog Info "All messages already stored"].
Proof.
  intros Hready Henc Hall Hwk Hnd st1.
  pose proof (flush_stores_all st sid n Hready Henc Hall Hwk Hnd) as Hzero.
  fold st1 in Hzero.
  destruct (store_full_conversation_keeps st) as (Hk & k & (_ & Hsup & _ & Hsid & _)).
  fold st1 in Hk, Hsup, Hsid.
  destruct Hready as (Hsup0 & Hsid0 & Hne & Hcount).
  assert (Hhist : conversation_history st1 <> []).
  { intros E. rewrite E in Hk. inversion Hk as [E0 |]. rewrite <- E0 in Hcount.
    discriminate Hcount. }
  unfold store_full_conversation at 1. unfold bind, get_state.
  cbn [value final effects].
  rewrite Hsup, Hsup0, Hsid, Hsid0. cbn [negb].
  destruct sid as [| a sid']; [contradiction |].
  destruct (conversation_history st1) as [| m h] eqn:Hh; [contradiction |].
  rewrite Hzero. reflexivity.
Qed.

(** Twelve unstored messages on a store that answers every call. *)
Lemma second_flush_sends_nothing_witness :
  let st := log_state calm_world 12 in
  let st1 := final (store_full_conversation st) in
  flush_ready st "session-1" 11 /\
  List.length (upserts_of (effects (store_full_conversation st))) = 2%nat /\
  store_full_conversation st1
  = mkRun tt st1 [EvLog Info "All messages already stored"].
Proof.
  intros st st1.
  assert (Hready : flush_ready st "session-1" 11).
  { unfold flush_ready. repeat split; try reflexivity. discriminate. }
  assert (Henc : Forall (fun m => unstored m = true -> serializable (VDict m) = true)
                        (conversation_history st)).
  { apply Forall_forall. intros m Hin _.
    apply in_map_iff in Hin. destruct Hin as (k & <- & _). reflexivity. }
  assert (Hall : forall k rows, w_upsert (world st) k rows = UpsertData)
    by reflexivity.
  assert (Hwk : Forall well_keyed (conversation_history st)).
  { apply Forall_forall. intros m Hin.
    apply in_map_iff in Hin. destruct Hin as (k & <- & _).
    repeat split; eexists; reflexivity. }
  assert (Hnd : NoDup (map key_of (conversation_history st))).
  { assert (Hkeys : map key_of (conversation_history st)
                    = map (fun s => (VStr s, VStr "user"))
                          (map (fun k => ("2025-01-01T00:00:00." ++ dec k ++ "+00:00")%string)
                               (seq 0 12))).
    { cbn [st log_state set_history conversation_history].
      rewrite !map_map. reflexivity. }
    rewrite Hkeys.
    apply NoDup_map_injective.
    - intros a b H. injection H. tauto.
    - apply distinct_strings_NoDup. vm_compute. reflexivity. }
  split; [exact Hready |].
  split; [vm_compute; reflexivity |].
  exact (second_flush_sends_nothing st "session-1" 11 Hready Henc Hall Hwk Hnd).
Defined.
(** ** A flush on a store that stores nothing *)

Lemma store_single_never_data (msg_data : Row) (n : nat) (st : State) :
  never_data (world st) ->
  let r := store_single msg_data n st in
  conversation_history (final r) = conversation_history st /\
  world (final r) = world st /\ value r = n.
Proof.
  intros Hnd. cbv zeta. rewrite store_single_run. cbv zeta.
  destruct (w_upsert (world st) (c_upsert (cursor st)) [msg_data]) eqn:Hw;
    try (repeat split; reflexivity).
  exfalso. exact (Hnd _ _ Hw).
Qed.

Lemma store_singles_never_data (batch : list Row) :
  forall n st,
    never_data (world st) ->
    let r := fold_each store_single batch n st in
    conversation_history (final r) = conversation_history st /\
    world (final r) = world st /\ value r = n.
Proof.
  induction batch as [| row batch IH]; intros n st Hnd.
  - repeat split; reflexivity.
  - cbv zeta. rewrite fold_each_cons. cbv zeta. cbn [value final].
    destruct (store_single_never_data row n st Hnd) as (Hh & Hw & Hv).
    assert (Hnd' : never_data (world (final (store_single row n st))))
      by (rewrite Hw; exact Hnd).
    destruct (IH (value (store_single row n st)) (final (store_single row n st)) Hnd')
      as (Hh2 & Hw2 & Hv2).
    rewrite Hh2, Hw2, Hv2. repeat split; assumption.
Qed.

Lemma store_batch_never_data (batch : list Row) (n : nat) (st : State) :
  never_data (world st) ->
  let r := store_batch batch n st in
  conversation_history (final r) = conversation_history st /\
  world (final r) = world st /\ value r = n.
Proof.
  intros Hnd. cbv zeta. rewrite store_batch_run. cbv zeta.
  destruct (w_upsert (world st) (c_upsert (cursor st)) batch) eqn:Hw;
    cbn [value final].
  - exfalso. exact (Hnd _ _ Hw).
  - repeat split; reflexivity.
  - repeat split; reflexivity.
  - apply (store_singles_never_data batch n (set_cursor (bump_upsert (cursor st)) st)).
    exact Hnd.
Qed.

Lemma store_batches_never_data (bs : list (list Row)) :
  forall n st,
    never_data (world st) ->
    let r := fold_each store_batch bs n st in
    conversation_history (final r) = conversation_history st /\
    world (final r) = world st /\ value r = n.
Proof.
  induction bs as [| b bs IH]; intros n st Hnd.
  - repeat split; reflexivity.
  - cbv zeta. rewrite fold_each_cons. cbv zeta. cbn [value final].
    destruct (store_batch_never_data b n st Hnd) as (Hh & Hw & Hv).
    assert (Hnd' : never_data (world (final (store_batch b n st))))
      by (rewrite Hw; exact Hnd).
    destruct (IH (value (store_batch b n st)) (final (store_batch b n st)) Hnd')
      as (Hh2 & Hw2 & Hv2).
    rewrite Hh2, Hw2, Hv2. repeat split; assumption.
Qed.

Lemma stored_flags_same (h h' : list dict) :
  Forall2 same_but_id h h' -> map stored_flag h' = map stored_flag h.
Proof.
  induction 1 as [| m m' h h' Hm Hh IH]; [reflexivity |].
  cbn [map]. rewrite IH, (proj1 (proj2 (same_but_id_facts _ _ Hm))). reflexivity.
Qed.

Lemma flush_never_data (st : State) :
  never_data (world st) ->
  map stored_flag (conversation_history (final (store_full_conversation st)))
  = map stored_flag (conversation_history st).
Proof.
  intros Hnd.
  destruct (store_full_conversation_cases st)
    as [(l & msg & E & _) | (sid & n & Hready)].
  - rewrite E. reflexivity.
  - rewrite (store_full_conversation_run st sid n Hready). cbv zeta. cbn [final].
    destruct (collect_messages_frame sid (conversation_history st) st) as (Fc & _ & _).
    set (c := collect_messages sid (conversation_history st) st) in *.
    set (st2 := set_history (fst (value c)) (final c)).
    assert (Hnd2 : never_data (world st2)).
    { unfold st2. cbn [set_history world]. rewrite (proj1 Fc). exact Hnd. }
    destruct (store_batches_never_data (batches_of_rows (snd (value c))) 0%nat st2 Hnd2)
      as (Hh & _ & _).
    rewrite Hh. cbn [st2 set_history conversation_history].
    apply stored_flags_same. apply collect_messages_same.
Qed.

(** X9.  [ensure_storage_completed] always returns True.  It runs one
    flush and reports success whatever the flush did: it returns True when
    there is no client, and on a store none of whose upserts returns data
    it returns True with every stored flag of the Log as it was before the
    call. *)
Theorem ensure_storage_reports_success (st : State) :
  let r := ensure_storage_completed st in
  value r = true /\
  final r = final (store_full_conversation st) /\
  effects r = effects (store_full_conversation st)
              ++ [EvLog Info "Storage operation completed"] /\
  (supabase st = false -> upserts_of (effects r) = []) /\
  (never_data (world st) ->
     map stored_flag (conversation_history (final r))
     = map stored_flag (conversation_history st)).
Proof.
  cbv zeta.
  assert (Hrun : ensure_storage_completed st
                 = mkRun true (final (store_full_conversation st))
                     (effects (store_full_conversation st)
                      ++ [EvLog Info "Storage operation completed"])).
  { unfold ensure_storage_completed, bind, log, emit, ret.
    destruct (store_full_conversation st) as [v st1 e1]. reflexivity. }
  rewrite Hrun. cbn [value final effects].
  split; [reflexivity |]. split; [reflexivity |]. split; [reflexivity |].
  split.
  - intros Hsup. rewrite upserts_of_app. cbn [upserts_of]. rewrite app_nil_r.
    destruct (store_full_conversation_cases st)
      as [(l & msg & E & _) | (sid & n & (Hs & _))].
    + rewrite E. reflexivity.
    + congruence.
  - apply flush_never_data.
Qed.

(** Three unstored messages on a store whose upserts all time out: the
    call returns True and the three messages are unstored still. *)
Lemma ensure_storage_reports_success_witness :
  let st := log_state (raising_world "APIError" "timeout") 3 in
  let r := ensure_storage_completed st in
  never_data (world st) /\
  value r = true /\
  map stored_flag (conversation_history (final r))
  = map stored_flag (conversation_history st) /\
  count_unstored (conversation_history (final r)) = Some 3%nat /\
  List.length (upserts_of (effects r)) = 4%nat.
Proof.
  intros st r.
  assert (Hnd : never_data (world st)) by (intros k rows; discriminate).
  destruct (ensure_storage_reports_success st) as (Hv & _ & _ & _ & Hflags).
  split; [exact Hnd |]. split; [exact Hv |]. split; [exact (Hflags Hnd) |].
  split; vm_compute; reflexivity.
Defined.
(** ** Assistant messages *)

Lemma is_assistant_duplicate_kept (msg_content : string) (msg msg' : dict) :
  flush_keeps msg msg' ->
  is_assistant_duplicate msg_content msg' = is_assistant_duplicate msg_content msg.
Proof.
  intros (H & _). unfold is_assistant_duplicate, get_or.
  rewrite (H "role"), (H "content") by discriminate. reflexivity.
Qed.

Lemma existsb_duplicate_kept (msg_content : string) (h h' : list dict) :
  Forall2 flush_keeps h h' ->
  existsb (is_assistant_duplicate msg_content) h'
  = existsb (is_assistant_duplicate msg_content) h.
Proof.
  induction 1 as [| m m' h h' Hm Hh IH]; [reflexivity |].
  cbn [existsb]. rewrite IH, (is_assistant_duplicate_kept _ _ _ Hm). reflexivity.
Qed.

Lemma store_assistant_message_run (msg_content event_type : string) (st : State) :
  store_assistant_message msg_content event_type st
  = if existsb (is_assistant_duplicate msg_content) (conversation_history st) then
      mkRun tt st [EvLog Info "Skipping duplicate assistant message"]
    else
      let st1 := set_history
                   (conversation_history st
                    ++ [assistant_message_of msg_content event_type (clock st)])
                   (tick st) in
      mkRun tt (final (store_full_conversation st1))
        (effects (store_full_conversation st1)
         ++ [EvLog Info "Added assistant message to conversation history"]).
Proof.
  unfold store_assistant_message, bind, get_state. cbn [value final effects].
  destruct (existsb _ _); [reflexivity |].
  unfold utcnow_isoformat, get_current_timestamp, modify, log, emit.
  cbn [value final effects]. cbv zeta.
  change (set_cursor (bump_clock (cursor st)) st) with (tick st).
  change (w_clock (world st) (c_clock (cursor st))) with (clock st).
  cbn [conversation_history tick set_cursor].
  match goal with
  | |- context [store_full_conversation ?s] =>
      destruct (store_full_conversation s) as [v st2 e2]
  end.
  destruct v. reflexivity.
Qed.

(** X10.  An assistant message enters the Log once.  When the Log already
    holds an assistant entry with the same content,
    [store_assistant_message] changes nothing and sends nothing.
    Otherwise it appends one entry, with role assistant and that content,
    and flushes the Log.  In both cases a second call with the same
    content, from whatever event, finds the entry and is a no-op: the four
    event handlers that report the same reply add it once. *)
Theorem assistant_message_kept_once (msg_content event event' : string)
  (st : State) :
  let duplicate := existsb (is_assistant_duplicate msg_content) in
  let r := store_assistant_message msg_content event st in
  let r' := store_assistant_message msg_content event' (final r) in
  (duplicate (conversation_history st) = true ->
     final r = st /\ upserts_of (effects r) = []) /\
  (duplicate (conversation_history st) = false ->
     Forall2 flush_keeps
       (conversation_history st
        ++ [assistant_message_of msg_content event (clock st)])
       (conversation_history (final r))) /\
  duplicate (conversation_history (final r)) = true /\
  final r' = final r /\
  effects r' = [EvLog Info "Skipping duplicate assistant message"].
Proof.
  cbv zeta.
  assert (Hnew : is_assistant_duplicate msg_content
                   (assistant_message_of msg_content event (clock st)) = true).
  { unfold is_assistant_duplicate, assistant_message_of, get_or. cbn.
    rewrite String.eqb_refl. reflexivity. }
  assert (Hdup : existsb (is_assistant_duplicate msg_content)
                   (conversation_history
                      (final (store_assistant_message msg_content event st))) = true
                 /\ (existsb (is_assistant_duplicate msg_content)
                       (conversation_history st) = false ->
                     Forall2 flush_keeps
                       (conversation_history st
                        ++ [assistant_message_of msg_content event (clock st)])
                       (conversation_history
                          (final (store_assistant_message msg_content event st))))).
  { rewrite store_assistant_message_run.
    destruct (existsb _ (conversation_history st)) eqn:Hd; cbn [final].
    - split; [exact Hd | discriminate].
    - cbv zeta. cbn [final].
      set (st1 := set_history _ (tick st)).
      destruct (store_full_conversation_keeps st1) as (Hk & _).
      split; [| intros _; exact Hk].
      rewrite (existsb_duplicate_kept _ _ _ Hk).
      unfold st1. cbn [set_history conversation_history].
      rewrite existsb_app. cbn [existsb]. rewrite Hnew.
      rewrite orb_true_r. reflexivity. }
  destruct Hdup as (Hdup & Hgrow).
  split.
  { intros Hd. rewrite store_assistant_message_run, Hd. cbn. tauto. }
  split; [exact Hgrow |].
  split; [exact Hdup |].
  rewrite (store_assistant_message_run msg_content event'
             (final (store_assistant_message msg_content event st))).
  rewrite Hdup. cbn [final effects]. tauto.
Qed.

(** The same reply reported by two events: one entry, one upsert. *)
Lemma assistant_message_kept_once_witness :
  let st := idle_state calm_world in
  let r := store_assistant_message "Tell me about the role." "assistant_response" st in
  let r' := store_assistant_message "Tell me about the role." "message_sent" (final r) in
  existsb (is_assistant_duplicate "Tell me about the role.")
          (conversation_history st) = false /\
  List.length (conversation_history (final r)) = 1%nat /\
  List.length (upserts_of (effects r)) = 1%nat /\
  final r' = final r /\
  effects r' = [EvLog Info "Skipping duplicate assistant message"].
Proof.
  intros st r r'.
  destruct (assistant_message_kept_once "Tell me about the role."
              "assistant_response" "message_sent" st)
    as (_ & Hgrow & _ & Hfinal & Heffects).
  assert (Hnone : existsb (is_assistant_duplicate "Tell me about the role.")
                          (conversation_history st) = false) by reflexivity.
  split; [exact Hnone |].
  split.
  { unfold r. rewrite <- (Forall2_length_eq _ _ _ (Hgrow Hnone)). reflexivity. }
  split; [vm_compute; reflexivity |].
  split; [exact Hfinal | exact Heffects].
Defined.
(** ** The watchdog while the session is active *)

Lemma refresh_activity_after_time_reads (n : nat) (st : State) (t : Z) :
  refresh_activity (after_time_reads n st) t = refresh_activity st t.
Proof. reflexivity. Qed.

(** The refreshed activity time is the later of the old one and the last
    entry's, and refreshing is idempotent. *)
Lemma refresh_activity_later (st : State) (t0 t : Z) :
  refresh_activity st t0 = Some t ->
  (t0 <= t)%Z /\ refresh_activity st t = Some t.
Proof.
  unfold refresh_activity.
  destruct (conversation_history st) as [| m h]; [intros H; injection H as <-; split; [lia | reflexivity] |].
  destruct (latest_msg_time (world st) (last (m :: h) m)) as [latest |];
    [| discriminate].
  intros H. injection H as <-.
  destruct (Z.ltb_spec t0 latest) as [Hlt | Hge].
  - split; [lia |]. rewrite Z.ltb_irrefl. reflexivity.
  - split; [lia |]. destruct (Z.ltb_spec t0 latest); [lia | reflexivity].
Qed.

Lemma after_time_reads_add (n m : nat) (st : State) :
  after_time_reads n (after_time_reads m st) = after_time_reads (n + m) st.
Proof.
  unfold after_time_reads, set_cursor. cbn.
  rewrite Nat.add_assoc. reflexivity.
Qed.

Lemma watchdog_round_quiet (sid : string) (t0 t : Z) (st : State) :
  refresh_activity st t0 = Some t ->
  (w_time (world st) (c_time (cursor st)) - t <= inactivity_threshold)%Z ->
  watchdog_round sid t0 st
  = mkRun (Watching t) (after_time_reads 1 st) [EvSleep 120000].
Proof.
  intros Hact Hidle.
  unfold watchdog_round, bind, sleep, emit, get_state, time_time, ret.
  cbn [value final effects]. rewrite Hact.
  cbn [world cursor set_cursor c_time].
  destruct (Z.ltb_spec inactivity_threshold
              (w_time (world st) (c_time (cursor st)) - t)) as [Hlt | _]; [lia |].
  reflexivity.
Qed.

(** X11.  The watchdog does nothing while the session is active.  Take
    any number of rounds, with any messages appended to the Log during the
    sleep of each.  If in every round the last entry of the Log can be
    dated, the activity time the round arrives at (the later of the one it
    carried and the time of the last entry) is within the range of the
    floats, and the clock the round reads is at most 300 s past it, then
    each round only sleeps its 120 s and goes on watching: the watchdog
    appends nothing to the Log, which holds what it held and what arrived,
    spawns no write and logs nothing.  The activity time it carries never
    moves backwards. *)
Theorem watchdog_quiet_while_active (sid : string) :
  forall (arrivals : list (list dict)) (t0 : Z) (st : State),
    stays_active t0 arrivals st = true ->
    let r := watched_rounds sid t0 arrivals st in
    exists t : Z,
      value r = Watching t /\
      (t0 <= t)%Z /\
      effects r = repeat (EvSleep 120000) (List.length arrivals) /\
      final r
      = set_history (conversation_history st ++ List.concat arrivals)
                    (after_time_reads (List.length arrivals) st).
Proof.
  induction arrivals as [| arrived arrivals IH]; intros t0 st Hact.
  - exists t0. cbn. split; [reflexivity |]. split; [lia |].
    split; [reflexivity |].
    rewrite app_nil_r. destruct st as [w [cp ci cu cc cid ct] s a sn h q].
    reflexivity.
  - cbn [stays_active] in Hact.
    set (st1 := set_history (conversation_history st ++ arrived) st) in *.
    destruct (refresh_activity st1 t0) as [t |] eqn:Hrefresh; [| discriminate Hact].
    apply andb_true_iff in Hact. destruct Hact as [Hact Hrest].
    apply andb_true_iff in Hact. destruct Hact as [_ Hidle].
    apply Z.leb_le in Hidle.
    destruct (refresh_activity_later st1 t0 t Hrefresh) as (Hle & _).
    destruct (IH t (after_time_reads 1 st1) Hrest) as (t' & Hv & Hle' & He & Hf).
    assert (Hstep : watched_rounds sid t0 (arrived :: arrivals) st
                    = let r' := watched_rounds sid t arrivals (after_time_reads 1 st1) in
                      mkRun (value r') (final r') (EvSleep 120000 :: effects r')).
    { cbn [watched_rounds]. unfold bind at 1. unfold arrive at 1. cbn [modify].
      fold st1. unfold bind at 1.
      rewrite (watchdog_round_quiet sid t0 t st1 Hrefresh Hidle). cbv zeta.
      destruct (watched_rounds sid t arrivals (after_time_reads 1 st1)).
      reflexivity. }
    exists t'. cbv zeta. rewrite Hstep. cbv zeta. cbn [value final effects].
    split; [exact Hv |]. split; [lia |].
    split; [rewrite He; reflexivity |].
    rewrite Hf. cbn [List.length List.concat].
    unfold after_time_reads, set_history, set_cursor, st1. cbn.
    rewrite <- app_assoc.
    replace (List.length arrivals + S (c_time (cursor st)))%nat
      with (S (List.length arrivals + c_time (cursor st)))%nat by lia.
    reflexivity.
Qed.

(** Four rounds of a session in which two messages arrive: the clock runs
    from 1000 s to 1480 s, well past 300 s after the start, and the
    watchdog keeps quiet, its activity time moving on to 1470 s. *)
Lemma watchdog_quiet_while_active_witness :
  let arrivals := [[]; [user_message 1]; []; [user_message 2]] in
  let r := watched_rounds "session-1" 1000 arrivals ticking_state in
  stays_active 1000 arrivals ticking_state = true /\
  value r = Watching 1470 /\
  effects r = repeat (EvSleep 120000) 4 /\
  conversation_history (final r)
  = [user_message 0; user_message 1; user_message 2] /\
  (inactivity_threshold
   < w_time ticking_world (c_time (cursor (final r)) - 1) - 1000)%Z.
Proof.
  intros arrivals r.
  assert (Hact : stays_active 1000 arrivals ticking_state = true)
    by (vm_compute; reflexivity).
  destruct (watchdog_quiet_while_active "session-1" arrivals 1000 ticking_state Hact)
    as (t & Hv & _ & He & Hf).
  fold r in Hv, He, Hf.
  split; [exact Hact |].
  split; [vm_compute; reflexivity |].
  split; [exact He |].
  split; [rewrite Hf; reflexivity |].
  rewrite Hf. vm_compute. reflexivity.
Defined.

(** X12.  One entry the watchdog cannot date ends the watchdog.  When the
    timestamp of the last Log entry is neither a number nor a string (None,
    a list, a dict, a datetime object), comparing it with the activity
    time raises; the round logs "Error in connection status
    checker" and the coroutine ends, in its first round and however long
    the session has been idle: no inactivity message is appended, no write
    is spawned, and no later round runs. *)
Theorem watchdog_ends_on_undatable_entry (sid : string) (t0 : Z)
  (rounds : nat) (st : State) (msg : dict) (before : list dict) :
  conversation_history st = before ++ [msg] ->
  latest_msg_time (world st) msg = None ->
  watchdog_rounds (S rounds) sid t0 st
  = mkRun LoopLeft st
          [EvSleep 120000; EvLog Error "Error in connection status checker"].
Proof.
  intros Hhist Hlate.
  assert (Hact : refresh_activity st t0 = None).
  { unfold refresh_activity. rewrite Hhist.
    destruct (before ++ [msg]) as [| m h] eqn:E.
    - destruct before; discriminate E.
    - rewrite <- E, last_last, Hlate. reflexivity. }
  cbn [watchdog_rounds]. unfold bind, watchdog_round, bind, sleep, emit, get_state,
    log, emit, ret.
  cbn [value final effects]. rewrite Hact. reflexivity.
Qed.

(** A Log that ends in a message stamped with a datetime object, on a
    clock that has run far past the threshold. *)
Lemma watchdog_ends_on_undatable_entry_witness :
  let st := set_history [user_message 0; datetime_message] (idle_state silent_world) in
  conversation_history st = [user_message 0] ++ [datetime_message] /\
  latest_msg_time (world st) datetime_message = None /\
  watchdog_rounds 5 "session-1" 0 st
  = mkRun LoopLeft st
          [EvSleep 120000; EvLog Error "Error in connection status checker"].
Proof.
  intros st.
  assert (Hhist : conversation_history st = [user_message 0] ++ [datetime_message])
    by reflexivity.
  assert (Hlate : latest_msg_time (world st) datetime_message = None) by reflexivity.
  split; [exact Hhist |]. split; [exact Hlate |].
  exact (watchdog_ends_on_undatable_entry "session-1" 0 4 st datetime_message
           [user_message 0] Hhist Hlate).
Defined.
(** ** The periodic retry processor *)

Lemma init_supabase_keeps (st : State) :
  let r := init_supabase st in
  world (final r) = world st /\
  conversation_history (final r) = conversation_history st /\
  retry_queue (final r) = retry_queue st /\
  agent (final r) = agent st /\
  upserts_of (effects r) = [] /\
  probes_of (effects r) = [EvInit (next_init st)] /\
  (value r = true -> supabase (final r) = true) /\
  value r = init_ready (next_init st).
Proof.
  unfold init_supabase, next_init. cbv zeta.
  destruct (w_init (world st) (c_init (cursor st))); cbn;
    repeat split; try reflexivity; try discriminate.
Qed.

(** What any drain leaves alone, and how much it can do. *)
Lemma drain_bounds (batch_size : nat) (st : State) :
  let r := process_retry_queue batch_size st in
  world (final r) = world st /\
  conversation_history (final r) = conversation_history st /\
  agent (final r) = agent st /\
  (List.length (retry_queue (final r)) <= List.length (retry_queue st))%nat /\
  (List.length (upserts_of (effects r)) <= batch_size)%nat.
Proof.
  cbv zeta.
  destruct (retry_queue st) as [| item0 q'] eqn:Hq.
  - unfold process_retry_queue, bind, get_state. cbn [value final effects].
    rewrite Hq. cbn. rewrite Hq. repeat split; cbn; lia.
  - destruct (supabase st) eqn:Hsup.
    + assert (Hne : retry_queue st <> []) by (rewrite Hq; discriminate).
      pose proof (process_retry_queue_run batch_size st Hne Hsup) as Hrun.
      cbv zeta in Hrun. rewrite Hq in Hrun. rewrite Hrun. clear Hrun.
      cbn [value final effects].
      set (k := Nat.min batch_size (List.length (item0 :: q'))).
      pose proof (retry_items_account (firstn k (item0 :: q')) 0%nat
                    (set_queue (skipn k (item0 :: q')) st)) as H.
      cbv zeta in H.
      destruct H as (Hw & Hh & Ha & _ & _ & Hlen & kept & Hsub & Hqueue & _ & Hcount).
      assert (Hfl : List.length (firstn k (item0 :: q')) = k)
        by (rewrite length_firstn; unfold k; lia).
      pose proof (filter_length_le live (firstn k (item0 :: q'))) as Hlive.
      cbn [upserts_of]. rewrite upserts_of_app. cbn [upserts_of]. rewrite app_nil_r.
      cbn [set_queue retry_queue] in Hqueue.
      split; [exact Hw |]. split; [exact Hh |]. split; [exact Ha |].
      split.
      * rewrite Hqueue, length_app, length_map, length_skipn. fold k.
        assert (k <= List.length (item0 :: q'))%nat by (unfold k; lia). lia.
      * assert (k <= batch_size)%nat by (unfold k; lia). lia.
    + unfold process_retry_queue, bind, get_state. cbn [value final effects].
      rewrite Hq, Hsup. cbn. rewrite Hq. repeat split; cbn; lia.
Qed.

(** X13.  One round of the periodic retry processor.  With an empty queue,
    or while the agent is speaking, the round only sleeps: it builds no
    client, probes nothing, sends nothing and leaves the queue alone.
    Otherwise it first rebuilds the client with [init_supabase], whatever
    the state of the one it has, and drains at most 5 items when that
    succeeds; when it fails the queue is left as it is.  A round never
    lengthens the queue, never sends more than 5 upserts and never touches
    the Log. *)
Theorem retry_processor_round_is_bounded (st : State) :
  let r := retry_processor_round st in
  conversation_history (final r) = conversation_history st /\
  (List.length (retry_queue (final r)) <= List.length (retry_queue st))%nat /\
  (List.length (upserts_of (effects r)) <= 5)%nat /\
  (retry_queue st = [] \/ background_paused st = true ->
     final r = st /\ probes_of (effects r) = [] /\ upserts_of (effects r) = []) /\
  (retry_queue st <> [] -> background_paused st = false ->
     hd_error (probes_of (effects r)) = Some (EvInit (next_init st)) /\
     (init_ready (next_init st) = false ->
        retry_queue (final r) = retry_queue st /\ upserts_of (effects r) = [])).
Proof.
  cbv zeta. unfold retry_processor_round, bind, sleep, emit, get_state.
  cbn [value final effects].
  destruct (retry_queue st) as [| item0 q'] eqn:Hq.
  - cbn. rewrite Hq.
    split; [reflexivity |]. split; [cbn; lia |]. split; [lia |].
    split; [intros _; repeat split; reflexivity |].
    intros H. exfalso. apply H. reflexivity.
  - destruct (background_paused st) eqn:Hp.
    + cbn. rewrite Hq.
      split; [reflexivity |]. split; [cbn; lia |]. split; [lia |].
      split; [intros _; repeat split; reflexivity |].
      intros _ H. discriminate H.
    + pose proof (init_supabase_keeps st) as Hi. cbv zeta in Hi.
      destruct Hi as (Hw & Hh & Hqi & Ha & Hu & Hpr & Hsup & Hv).
      destruct (init_supabase st) as [ok st1 e1]. cbn [value final effects] in *.
      destruct ok.
      * pose proof (drain_bounds 5 st1) as Hd. cbv zeta in Hd.
        destruct Hd as (_ & Hh2 & _ & Hlen2 & Hups2).
        destruct (process_retry_queue 5 st1) as [v st2 e2].
        cbn [value final effects ret] in *.
        rewrite app_nil_r. cbn [app upserts_of probes_of].
        rewrite upserts_of_app, probes_of_app, Hu, Hpr. cbn [app hd_error].
        rewrite Hqi, Hq in Hlen2.
        split; [congruence |]. split; [exact Hlen2 |]. split; [exact Hups2 |].
        split; [intros [H | H]; discriminate H |].
        intros _ _. split; [reflexivity |].
        intros H. rewrite H in Hv. discriminate Hv.
      * cbn [log emit value final effects].
        cbn [app upserts_of probes_of].
        rewrite upserts_of_app, probes_of_app, Hu, Hpr, Hqi, Hq. cbn.
        split; [exact Hh |]. split; [lia |]. split; [lia |].
        split; [intros [H | H]; discriminate H |].
        intros _ _. split; [reflexivity |]. intros _. split; reflexivity.
Qed.

(** A round on a sample queue of seven items while the agent is silent and
    the store answers: five items are sent, two remain. *)
Lemma retry_processor_round_is_bounded_witness :
  let st := queue_state calm_world (map (fun n => sample_item n 0) (seq 0 7)) in
  let r := retry_processor_round st in
  retry_queue st <> [] /\ background_paused st = false /\
  hd_error (probes_of (effects r)) = Some (EvInit InitReady) /\
  List.length (upserts_of (effects r)) = 5%nat /\
  List.length (retry_queue (final r)) = 2%nat.
Proof.
  intros st r.
  assert (Hne : retry_queue st <> []) by discriminate.
  assert (Hp : background_paused st = false) by reflexivity.
  destruct (retry_processor_round_is_bounded st) as (_ & _ & _ & _ & H).
  destruct (H Hne Hp) as (Hinit & _).
  split; [exact Hne |]. split; [exact Hp |]. split; [exact Hinit |].
  split; vm_compute; reflexivity.
Defined.

(** ** How fast a backlog drains *)

Lemma retry_item_sent (item : RetryItem) (n : nat) (st : State) :
  always_ready (world st) -> supabase st = true -> sendable item ->
  let r := retry_item item n st in
  value r = S n /\
  retry_queue (final r) = retry_queue st /\
  world (final r) = world st /\
  supabase (final r) = true /\
  agent (final r) = agent st /\
  List.length (stored_upserts (effects r)) = 1%nat.
Proof.
  intros (Hinit & Hprobe & Hups) Hsup (Hlive & Hser). cbv zeta.
  destruct (retry_item_run item n st Hlive) as (ok & sup & cp & ci & evs & Hh & Hr).
  rewrite (check_supabase_health_healthy st Hsup (Hprobe _)) in Hh.
  injection Hh. intros. subst ok evs sup.
  rewrite Hr. cbv zeta. unfold json_dumps. rewrite Hser, Hups.
  cbn [value final effects].
  repeat split; try reflexivity. exact Hsup.
Qed.

Lemma retry_items_sent (items : list RetryItem) :
  forall (n : nat) (st : State),
    always_ready (world st) -> supabase st = true -> Forall sendable items ->
    let r := fold_each retry_item items n st in
    value r = (n + List.length items)%nat /\
    retry_queue (final r) = retry_queue st /\
    world (final r) = world st /\
    supabase (final r) = true /\
    agent (final r) = agent st /\
    List.length (stored_upserts (effects r)) = List.length items.
Proof.
  induction items as [| item items IH]; intros n st Hw Hsup Hall.
  - cbn. repeat split; try reflexivity; try assumption. lia.
  - inversion Hall as [| ? ? Hitem Hrest]; subst.
    cbv zeta. rewrite fold_each_cons. cbv zeta. cbn [value final effects].
    destruct (retry_item_sent item n st Hw Hsup Hitem) as (Hv & Hq & Hwo & Hs & Ha & Hst).
    assert (Hw' : always_ready (world (final (retry_item item n st))))
      by (rewrite Hwo; exact Hw).
    destruct (IH (value (retry_item item n st)) (final (retry_item item n st))
                Hw' Hs Hrest) as (Hv2 & Hq2 & Hwo2 & Hs2 & Ha2 & Hst2).
    rewrite stored_upserts_app, length_app, Hst, Hst2, Hv2, Hq2, Hwo2, Ha2, Hs2,
      Hv, Hq, Hwo, Ha.
    repeat split; try reflexivity; try assumption. cbn [List.length]. lia.
Qed.

Lemma drain_sent (batch_size : nat) (st : State) :
  always_ready (world st) -> supabase st = true ->
  Forall sendable (retry_queue st) ->
  let r := process_retry_queue batch_size st in
  retry_queue (final r) = skipn batch_size (retry_queue st) /\
  world (final r) = world st /\
  agent (final r) = agent st /\
  List.length (stored_upserts (effects r))
  = Nat.min batch_size (List.length (retry_queue st)).
Proof.
  intros Hw Hsup Hall. cbv zeta.
  destruct (retry_queue st) as [| item0 q'] eqn:Hq.
  - unfold process_retry_queue, bind, get_state. cbn [value final effects].
    rewrite Hq. cbn. rewrite Hq, skipn_nil, Nat.min_0_r. repeat split; reflexivity.
  - assert (Hne : retry_queue st <> []) by (rewrite Hq; discriminate).
    pose proof (process_retry_queue_run batch_size st Hne Hsup) as Hrun.
    cbv zeta in Hrun. rewrite Hq in Hrun. rewrite Hrun. clear Hrun.
    cbn [value final effects].
    set (k := Nat.min batch_size (List.length (item0 :: q'))).
    set (st0 := set_queue (skipn k (item0 :: q')) st).
    assert (Hw0 : always_ready (world st0)) by exact Hw.
    assert (Hsup0 : supabase st0 = true) by exact Hsup.
    assert (Hall0 : Forall sendable (firstn k (item0 :: q')))
      by (apply Forall_firstn_keeps; exact Hall).
    destruct (retry_items_sent (firstn k (item0 :: q')) 0%nat st0 Hw0 Hsup0 Hall0)
      as (_ & Hqueue & Hwo & _ & Ha & Hst).
    assert (Hfl : List.length (firstn k (item0 :: q')) = k)
      by (rewrite length_firstn; unfold k; lia).
    assert (Hups : forall evs,
               stored_upserts (EvLog Info "Processing retry queue" :: evs
                               ++ [EvLog Info "Retry queue processing done"])
               = stored_upserts evs).
    { intros evs. unfold stored_upserts. cbn [upserts_of].
      rewrite upserts_of_app. cbn. rewrite app_nil_r. reflexivity. }
    rewrite Hups, Hst, Hfl, Hqueue, Hwo, Ha.
    cbn [st0 set_queue retry_queue world agent].
    split; [| repeat split; reflexivity].
    unfold k. destruct (Nat.le_gt_cases batch_size (List.length (item0 :: q'))) as [Hle | Hgt].
    + rewrite Nat.min_l by exact Hle. reflexivity.
    + rewrite Nat.min_r by lia. rewrite !skipn_all2 by lia. reflexivity.
Qed.

Lemma retry_processor_round_sent (st : State) :
  always_ready (world st) -> background_paused st = false ->
  Forall sendable (retry_queue st) ->
  let r := retry_processor_round st in
  retry_queue (final r) = skipn 5 (retry_queue st) /\
  world (final r) = world st /\
  agent (final r) = agent st /\
  List.length (stored_upserts (effects r))
  = Nat.min 5 (List.length (retry_queue st)).
Proof.
  intros Hw Hp Hall. cbv zeta.
  unfold retry_processor_round, bind, sleep, emit, get_state.
  cbn [value final effects].
  destruct (retry_queue st) as [| item0 q'] eqn:Hq.
  - cbn. rewrite Hq. repeat split; reflexivity.
  - rewrite Hp.
    pose proof (init_supabase_keeps st) as Hi. cbv zeta in Hi.
    destruct Hi as (Hwi & _ & Hqi & Hai & Hu & _ & Hsup & Hv).
    unfold next_init in Hv. rewrite (proj1 Hw) in Hv. cbn in Hv.
    destruct (init_supabase st) as [ok st1 e1]. cbn [value final effects] in *.
    subst ok.
    assert (Hw1 : always_ready (world st1)) by (rewrite Hwi; exact Hw).
    assert (Hall1 : Forall sendable (retry_queue st1)) by (rewrite Hqi, Hq; exact Hall).
    destruct (drain_sent 5 st1 Hw1 (Hsup eq_refl) Hall1) as (Hq2 & Hw2 & Ha2 & Hst).
    destruct (process_retry_queue 5 st1) as [v st2 e2].
    cbn [value final effects ret] in *.
    rewrite app_nil_r.
    assert (Hsu : stored_upserts (EvSleep 180000 :: e1 ++ e2) = stored_upserts e2).
    { unfold stored_upserts. cbn [upserts_of]. rewrite upserts_of_app, Hu. reflexivity. }
    cbn [app].
    rewrite Hsu, Hst, Hq2, Hw2, Ha2, Hqi, Hq, Hwi, Hai.
    repeat split; reflexivity.
Qed.

Lemma background_paused_agent (st st' : State) :
  agent st' = agent st -> background_paused st' = background_paused st.
Proof.
  intros H. unfold background_paused, should_pause_background_tasks, agent_is_speaking.
  rewrite H. reflexivity.
Qed.

Lemma retry_processor_rounds_sent (rounds : nat) :
  forall st : State,
    always_ready (world st) -> background_paused st = false ->
    Forall sendable (retry_queue st) ->
    let r := retry_processor_rounds rounds st in
    retry_queue (final r) = skipn (5 * rounds) (retry_queue st) /\
    List.length (stored_upserts (effects r))
    = Nat.min (5 * rounds) (List.length (retry_queue st)).
Proof.
  induction rounds as [| rounds IH]; intros st Hw Hp Hall.
  - cbn. split; reflexivity.
  - cbv zeta. cbn [retry_processor_rounds]. unfold bind.
    destruct (retry_processor_round_sent st Hw Hp Hall) as (Hq & Hwo & Ha & Hst).
    destruct (retry_processor_round st) as [v st1 e1].
    cbn [value final effects] in *.
    assert (Hw1 : always_ready (world st1)) by (rewrite Hwo; exact Hw).
    assert (Hp1 : background_paused st1 = false)
      by (rewrite (background_paused_agent st st1 Ha); exact Hp).
    assert (Hall1 : Forall sendable (retry_queue st1))
      by (rewrite Hq; apply Forall_skipn_keeps; exact Hall).
    destruct (IH st1 Hw1 Hp1 Hall1) as (Hq2 & Hst2).
    destruct (retry_processor_rounds rounds st1) as [v2 st2 e2].
    cbn [value final effects] in *.
    rewrite stored_upserts_app, length_app, Hst, Hst2, Hq2, Hq, skipn_skipn, length_skipn.
    split; [f_equal; lia | lia].
Qed.

(** X14.  A backlog drains at five items per round.  While the agent is
    silent and the store answers every call, [rounds] rounds of the
    periodic retry processor (one every 180 s) store the first
    [5 * rounds] items of the queue, each by one upsert, and leave the
    others queued, in order. *)
Theorem backlog_drains_five_per_round (rounds : nat) (st : State) :
  always_ready (world st) ->
  background_paused st = false ->
  Forall sendable (retry_queue st) ->
  let r := periodic_retry_processor rounds st in
  retry_queue (final r) = skipn (5 * rounds) (retry_queue st) /\
  List.length (stored_upserts (effects r))
  = Nat.min (5 * rounds) (List.length (retry_queue st)).
Proof.
  intros Hw Hp Hall. cbv zeta.
  unfold periodic_retry_processor, bind, sleep, emit. cbn [value final effects].
  destruct (retry_processor_rounds_sent rounds st Hw Hp Hall) as (Hq & Hst).
  destruct (retry_processor_rounds rounds st) as [v st1 e1] eqn:Hr.
  cbn [value final effects] in *.
  split; [exact Hq | exact Hst].
Qed.

(** Twelve queued items: after two rounds ten are stored and two wait. *)
Lemma backlog_drains_five_per_round_witness :
  let st := queue_state calm_world (map (fun n => sample_item n 0) (seq 0 12)) in
  let r := periodic_retry_processor 2 st in
  always_ready (world st) /\
  background_paused st = false /\
  Forall sendable (retry_queue st) /\
  retry_queue (final r) = [sample_item 10 0; sample_item 11 0] /\
  List.length (stored_upserts (effects r)) = 10%nat.
Proof.
  intros st r.
  assert (Hw : always_ready (world st)) by (repeat split).
  assert (Hp : background_paused st = false) by reflexivity.
  assert (Hall : Forall sendable (retry_queue st)).
  { apply Forall_forall. intros item Hin.
    apply in_map_iff in Hin. destruct Hin as (n & <- & _).
    split; [cbn; lia | reflexivity]. }
  destruct (backlog_drains_five_per_round 2 st Hw Hp Hall) as (Hq & Hst).
  split; [exact Hw |]. split; [exact Hp |]. split; [exact Hall |].
  split; [exact Hq | exact Hst].
Defined.
(** ** An entry whose metadata is not a dict *)

Lemma count_unstored_none (history : list dict) (msg : dict) :
  In msg history -> stored_flag msg = None -> count_unstored history = None.
Proof.
  induction history as [| m h IH]; intros Hin Hflag; [contradiction |].
  cbn [count_unstored].
  destruct Hin as [-> | Hin].
  - rewrite Hflag. reflexivity.
  - rewrite (IH Hin Hflag). destruct (stored_flag m); reflexivity.
Qed.

(** X16.  One entry with a metadata that is not a dict blocks every flush.
    [msg.get("metadata", {}).get("stored", False)] raises on it while the
    unstored messages are counted, so [store_full_conversation] logs the
    failure and ends before anything is collected: no message of the Log is
    sent, whatever its own state, and nothing is marked.
    [ensure_storage_completed] still returns True, and the periodic saver,
    which counts the same way and catches the error outside its loop, ends
    for good. *)
Theorem malformed_entry_blocks_flush (st : State) (sid : string) (msg : dict) :
  supabase st = true ->
  session_id st = Some sid -> sid <> EmptyString ->
  In msg (conversation_history st) ->
  stored_flag msg = None ->
  store_full_conversation st
  = mkRun tt st [EvLog Error "Failed to store full conversation"] /\
  value (ensure_storage_completed st) = true /\
  upserts_of (effects (ensure_storage_completed st)) = [] /\
  (background_paused st = false ->
     saver_round st
     = mkRun SaverLeft st
         [EvSleep 60000; EvLog Error "Error in periodic conversation saver"]).
Proof.
  intros Hsup Hsid Hne Hin Hflag.
  pose proof (count_unstored_none _ _ Hin Hflag) as Hcount.
  assert (Hflush : store_full_conversation st
                   = mkRun tt st [EvLog Error "Failed to store full conversation"]).
  { unfold store_full_conversation, bind, get_state. cbn [value final effects].
    rewrite Hsup, Hsid. cbn [negb].
    destruct sid as [| a sid']; [contradiction |].
    destruct (conversation_history st) as [| m h]; [contradiction |].
    rewrite Hcount. reflexivity. }
  split; [exact Hflush |].
  unfold ensure_storage_completed, bind. rewrite Hflush. cbn.
  split; [reflexivity |]. split; [reflexivity |].
  intros Hp. unfold saver_round, bind, sleep, emit, get_state.
  cbn [value final effects]. rewrite Hp.
  destruct (conversation_history st) as [| m h]; [contradiction |].
  rewrite Hcount. reflexivity.
Qed.

(** Three unstored messages and one whose metadata is None. *)
Lemma malformed_entry_blocks_flush_witness :
  let st := set_history (map user_message (seq 0 3) ++ [bare_message])
                        (idle_state calm_world) in
  stored_flag bare_message = None /\
  In bare_message (conversation_history st) /\
  store_full_conversation st
  = mkRun tt st [EvLog Error "Failed to store full conversation"] /\
  value (ensure_storage_completed st) = true /\
  saver_round st
  = mkRun SaverLeft st
      [EvSleep 60000; EvLog Error "Error in periodic conversation saver"].
Proof.
  intros st.
  assert (Hsup : supabase st = true) by reflexivity.
  assert (Hsid : session_id st = Some "session-1") by reflexivity.
  assert (Hne : "session-1" <> EmptyString) by discriminate.
  assert (Hin : In bare_message (conversation_history st)).
  { cbn. right. right. right. left. reflexivity. }
  assert (Hflag : stored_flag bare_message = None) by reflexivity.
  destruct (malformed_entry_blocks_flush st "session-1" bare_message
              Hsup Hsid Hne Hin Hflag) as (Hflush & Hens & _ & Hsaver).
  split; [exact Hflag |]. split; [exact Hin |]. split; [exact Hflush |].
  split; [exact Hens |]. exact (Hsaver eq_refl).
Defined.
(** ** What a single write does to the message it is handed *)

Lemma with_message_id_cases (conversation : dict) (fresh : string) :
  let message_id := get_or "message_id" (VStr fresh) conversation in
  (dict_get "message_id" conversation <> None /\
   with_message_id conversation message_id = conversation) \/
  (dict_get "message_id" conversation = None /\
   with_message_id conversation message_id
   = dict_set "message_id" (VStr fresh) conversation).
Proof.
  cbv zeta. unfold with_message_id, dict_has, get_or.
  destruct (dict_get "message_id" conversation) as [v |].
  - left. split; [discriminate | reflexivity].
  - right. split; reflexivity.
Qed.

(** X17.  A single-message write changes nothing in the message it is
    handed but its message_id: every other key is as before; a message_id
    that is there is kept; one that is missing is set to a fresh uuid, and
    only when the write got past the speaking test, the health probe and
    the empty-message test.  The write sends at most one upsert. *)
Theorem single_write_adds_message_id_only (sid pid : string)
  (conversation : dict) (st : State) :
  let r := store_conversation_message sid pid conversation st in
  let message := snd (value r) in
  let fresh := w_uuid (world st) (c_uuid (cursor st)) in
  (forall k, k <> "message_id" -> dict_get k message = dict_get k conversation) /\
  (dict_get "message_id" conversation <> None -> message = conversation) /\
  (message = conversation \/
   message = dict_set "message_id" (VStr fresh) conversation) /\
  (agent_is_speaking st && String.eqb pid "system" = true \/
   value (check_supabase_health st) = false \/ conversation = [] ->
   message = conversation) /\
  (List.length (upserts_of (effects r)) <= 1)%nat.
Proof.
  cbv zeta.
  assert (Hcase : forall conversation',
             conversation' = with_message_id conversation
                               (get_or "message_id"
                                  (VStr (w_uuid (world st) (c_uuid (cursor st))))
                                  conversation) ->
             (forall k, k <> "message_id" ->
                        dict_get k conversation' = dict_get k conversation) /\
             (dict_get "message_id" conversation <> None ->
              conversation' = conversation) /\
             (conversation' = conversation \/
              conversation' = dict_set "message_id"
                                (VStr (w_uuid (world st) (c_uuid (cursor st))))
                                conversation)).
  { intros conversation' ->.
    destruct (with_message_id_cases conversation
                (w_uuid (world st) (c_uuid (cursor st)))) as [(Hid & ->) | (Hid & ->)].
    - split; [reflexivity |]. split; [reflexivity | left; reflexivity].
    - split; [intros k Hk; apply dict_get_set_other; exact Hk |].
      split; [intros H; contradiction | right; reflexivity]. }
  assert (Hsame : (forall k, k <> "message_id" ->
                             dict_get k conversation = dict_get k conversation) /\
                  (dict_get "message_id" conversation <> None ->
                   conversation = conversation) /\
                  (conversation = conversation \/
                   conversation = dict_set "message_id"
                                    (VStr (w_uuid (world st) (c_uuid (cursor st))))
                                    conversation)).
  { split; [reflexivity |]. split; [reflexivity | left; reflexivity]. }
  destruct (store_conversation_message_spec sid pid conversation st)
    as [Hd | sup cp ci evs Hd Hh | cp ci evs Hd Hh Hc
        | cp ci evs conv1 mid st1 st2 e2 Hd Hh Hc Hmid Hconv Hst1 Hs
        | cp ci evs conv1 mid st1 st2 st3 e2 e3 prepared reply ok
            Hd Hh Hc Hmid Hconv Hst1 Hs Hreply Hr];
    cbn [value final effects fst snd].
  - destruct Hsame as (H1 & H2 & H3).
    split; [exact H1 |]. split; [exact H2 |]. split; [exact H3 |].
    split; [reflexivity | cbn; lia].
  - destruct (health_effects _ _ _ _ Hh) as (Hu & _ & _).
    destruct Hsame as (H1 & H2 & H3).
    split; [exact H1 |]. split; [exact H2 |]. split; [exact H3 |].
    split; [reflexivity |].
    rewrite upserts_of_app, Hu. cbn. lia.
  - destruct (health_effects _ _ _ _ Hh) as (Hu & _ & _).
    destruct Hsame as (H1 & H2 & H3).
    split; [exact H1 |]. split; [exact H2 |]. split; [exact H3 |].
    split; [reflexivity |].
    rewrite upserts_of_app, Hu. cbn. lia.
  - destruct (health_effects _ _ _ _ Hh) as (Hu & _ & _).
    destruct (serialize_message_upserts _ _ _ _ _ _ Hs) as (Hu2 & _).
    subst mid. destruct (Hcase conv1 Hconv) as (H1 & H2 & H3).
    split; [exact H1 |]. split; [exact H2 |]. split; [exact H3 |].
    split.
    + intros [H | [H | H]]; [congruence | | contradiction].
      rewrite Hh in H. discriminate H.
    + rewrite upserts_of_app, Hu, Hu2. cbn. lia.
  - destruct (health_effects _ _ _ _ Hh) as (Hu & _ & _).
    destruct (serialize_message_upserts _ _ _ _ _ _ Hs) as (Hu2 & _).
    destruct (on_upsert_reply_upserts _ _ _ _ _ _ _ _ Hr) as (Hu3 & _).
    subst mid. destruct (Hcase conv1 Hconv) as (H1 & H2 & H3).
    split; [exact H1 |]. split; [exact H2 |]. split; [exact H3 |].
    split.
    + intros [H | [H | H]]; [congruence | | contradiction].
      rewrite Hh in H. discriminate H.
    + rewrite !upserts_of_app, Hu, Hu2, Hu3. cbn. lia.
Qed.

(** A message without message_id, written on a healthy store, and the same
    message while the store is down. *)
Lemma single_write_adds_message_id_only_witness :
  let conversation := [("role", VStr "user"); ("content", VStr "Hello")] in
  let r := store_conversation_message "session-1" "user" conversation
             (idle_state calm_world) in
  let r' := store_conversation_message "session-1" "user" conversation
              (idle_state down_world) in
  value (check_supabase_health (idle_state down_world)) = false /\
  snd (value r') = conversation /\
  snd (value r)
  = [("role", VStr "user"); ("content", VStr "Hello"); ("message_id", VStr "uuid")].
Proof.
  intros conversation r r'.
  assert (Hdown : value (check_supabase_health (idle_state down_world)) = false)
    by reflexivity.
  destruct (single_write_adds_message_id_only "session-1" "user" conversation
              (idle_state down_world)) as (_ & _ & _ & Hsame & _).
  split; [exact Hdown |].
  split; [exact (Hsame (or_intror (or_introl Hdown))) |].
  vm_compute. reflexivity.
Defined.
Lemma ensure_storage_completed_run (st : State) :
  ensure_storage_completed st
  = mkRun true (final (store_full_conversation st))
      (effects (store_full_conversation st)
       ++ [EvLog Info "Storage operation completed"]).
Proof.
  unfold ensure_storage_completed, bind, log, emit, ret.
  destruct (store_full_conversation st) as [v st1 e1]. reflexivity.
Qed.

(** ** Shutdown *)

Lemma drain_queue_shape (batch_size : nat) (st : State) :
  let r := process_retry_queue batch_size st in
  exists (k : nat) (pushed : list RetryItem),
    (k <= batch_size)%nat /\
    retry_queue (final r) = skipn k (retry_queue st) ++ pushed /\
    (List.length pushed <= k)%nat.
Proof.
  cbv zeta.
  destruct (retry_queue st) as [| item0 q'] eqn:Hq.
  - exists 0%nat, []. unfold process_retry_queue, bind, get_state.
    cbn [value final effects]. rewrite Hq. cbn. rewrite Hq.
    repeat split; lia.
  - destruct (supabase st) eqn:Hsup.
    + assert (Hne : retry_queue st <> []) by (rewrite Hq; discriminate).
      pose proof (process_retry_queue_run batch_size st Hne Hsup) as Hrun.
      cbv zeta in Hrun. rewrite Hq in Hrun. rewrite Hrun. clear Hrun.
      cbn [value final effects].
      set (k := Nat.min batch_size (List.length (item0 :: q'))).
      pose proof (retry_items_account (firstn k (item0 :: q')) 0%nat
                    (set_queue (skipn k (item0 :: q')) st)) as H.
      cbv zeta in H.
      destruct H as (_ & _ & _ & _ & _ & _ & kept & Hsub & Hqueue & _ & Hcount).
      exists k, (map bump_retry kept).
      cbn [set_queue retry_queue] in Hqueue.
      split; [unfold k; lia |]. split; [exact Hqueue |].
      rewrite length_map.
      pose proof (subseq_length _ _ Hsub) as Hkept.
      pose proof (filter_length_le live (firstn k (item0 :: q'))) as Hlive.
      pose proof (firstn_le_length k (item0 :: q')) as Hfirst.
      lia.
    + exists 0%nat, []. unfold process_retry_queue, bind, get_state.
      cbn [value final effects]. rewrite Hq, Hsup. cbn. rewrite Hq.
      split; [lia |]. split; [rewrite app_nil_r; reflexivity | lia].
Qed.

Lemma process_retry_queue_empty (batch_size : nat) (st : State) :
  retry_queue st = [] -> process_retry_queue batch_size st = mkRun 0%nat st [].
Proof.
  intros Hq. unfold process_retry_queue, bind, get_state.
  cbn [value final effects]. rewrite Hq. reflexivity.
Qed.

Lemma final_storage_run (st : State) :
  let flush := store_full_conversation st in
  let drain := process_retry_queue 10 (final flush) in
  final_storage st
  = mkRun tt (final drain)
      (effects flush ++ [EvLog Info "Storage operation completed"]
       ++ effects drain ++ [EvLog Info "Agent shutdown complete"]).
Proof.
  cbv zeta. unfold final_storage.
  unfold bind at 1. rewrite ensure_storage_completed_run.
  unfold bind at 1. unfold get_state at 1. cbn [value final effects].
  set (st1 := final (store_full_conversation st)).
  destruct (retry_queue st1) as [| item0 q'] eqn:Hq1.
  - rewrite (process_retry_queue_empty 10 st1 Hq1).
    unfold bind, ret, log, emit. cbn [value final effects].
    rewrite <- app_assoc. reflexivity.
  - unfold bind, ret, log, emit.
    destruct (process_retry_queue 10 st1) as [v st2 e2].
    cbn [value final effects].
    rewrite <- !app_assoc. cbn [app]. reflexivity.
Qed.

(** X18.  At shutdown at most ten queued items get a last chance.  The
    storage steps of the [finally] block of [run_multimodal_agent] flush
    the Log once and drain the retry queue once, with the default batch
    size of 10: beyond the upserts of the flush at most 10 are made, and
    every item behind the tenth is still in the in-memory queue, untried,
    when the agent has shut down. *)
Theorem shutdown_retries_ten_items (st : State) :
  let r := final_storage st in
  let flush := store_full_conversation st in
  (List.length (upserts_of (effects r))
   <= List.length (upserts_of (effects flush)) + 10)%nat /\
  (exists (k : nat) (pushed : list RetryItem),
      (k <= 10)%nat /\
      retry_queue (final r) = skipn k (retry_queue st) ++ pushed) /\
  (List.length (retry_queue st) - 10 <= List.length (retry_queue (final r)))%nat.
Proof.
  cbv zeta. rewrite final_storage_run. cbv zeta. cbn [final effects].
  destruct (store_full_conversation_keeps st) as (_ & j & (_ & _ & _ & _ & Hq & _)).
  set (st1 := final (store_full_conversation st)) in *.
  destruct (drain_queue_shape 10 st1) as (k & pushed & Hk & Hfinal & _).
  pose proof (drain_bounds 10 st1) as Hb. cbv zeta in Hb.
  destruct Hb as (_ & _ & _ & _ & Hups).
  rewrite !upserts_of_app. cbn [upserts_of]. rewrite app_nil_r. cbn [app].
  rewrite length_app, Hfinal, Hq.
  split; [lia |].
  split; [exists k, pushed; split; [exact Hk | reflexivity] |].
  rewrite length_app, length_skipn. lia.
Qed.

(** Twelve queued items at shutdown on a store that answers: ten are
    sent, the last two stay in the queue. *)
Example shutdown_leaves_the_rest :
  let st := queue_state calm_world (map (fun n => sample_item n 0) (seq 0 12)) in
  let r := final_storage st in
  List.length (upserts_of (effects r)) = 10%nat /\
  retry_queue (final r) = [sample_item 10 0; sample_item 11 0].
Proof. cbv zeta. split; vm_compute; reflexivity. Qed.

(** * Whitespace clean-up (fix_whitespace.py) *)

Lemma rstrip_nil_iff (s : text) : rstrip s = [] <-> forallb isspace s = true.
Proof.
  induction s as [| c s IH]; cbn; [tauto |].
  destruct (rstrip s) as [| k kept] eqn:E.
  - destruct (isspace c); cbn.
    + split; [intros _; apply IH; reflexivity | reflexivity].
    + split; discriminate.
  - split; [discriminate |].
    intros H. apply andb_true_iff in H. destruct H as (_ & H).
    apply IH in H. discriminate H.
Qed.

(** [rstrip] takes a suffix of whitespace away and nothing else. *)
Lemma rstrip_split (s : text) :
  exists ws, s = rstrip s ++ ws /\ forallb isspace ws = true.
Proof.
  induction s as [| c s (ws & Hs & Hws)]; [exists []; split; reflexivity |].
  cbn [rstrip].
  destruct (rstrip s) as [| k kept] eqn:E.
  - destruct (isspace c) eqn:Hc.
    + exists (c :: s). split; [reflexivity |].
      cbn. rewrite Hc. apply rstrip_nil_iff. exact E.
    + exists ws. cbn in Hs. cbn. rewrite Hs at 1. split; [reflexivity | exact Hws].
  - exists ws. cbn. rewrite Hs at 1. split; [reflexivity | exact Hws].
Qed.

Lemma rstrip_ends_clean (s : text) : ends_clean (rstrip s).
Proof.
  unfold ends_clean.
  induction s as [| c s IH]; intros front d Hd.
  - destruct front; discriminate Hd.
  - cbn [rstrip] in Hd.
    destruct (rstrip s) as [| k kept] eqn:E.
    + destruct (isspace c) eqn:Hc.
      * destruct front; discriminate Hd.
      * destruct front as [| f front]; cbn in Hd.
        -- injection Hd as <-. exact Hc.
        -- injection Hd as _ Hd. destruct front; discriminate Hd.
    + destruct front as [| f front]; cbn in Hd.
      * injection Hd as _ Hd. discriminate Hd.
      * injection Hd as _ Hd. apply (IH front d). exact Hd.
Qed.

(** A text that ends clean is left alone, also when whitespace follows. *)
Lemma rstrip_app_spaces (body ws : text) :
  ends_clean body -> forallb isspace ws = true -> rstrip (body ++ ws) = body.
Proof.
  intros Hbody Hws.
  induction body as [| c body IH]; cbn [app].
  - apply rstrip_nil_iff. exact Hws.
  - cbn [rstrip].
    assert (Hrest : ends_clean body).
    { intros front d Hd. apply (Hbody (c :: front) d). cbn. rewrite Hd. reflexivity. }
    rewrite (IH Hrest).
    destruct body as [| k body']; [| reflexivity].
    rewrite (Hbody [] c eq_refl). reflexivity.
Qed.

Lemma lstrip_nil_iff (s : text) : lstrip s = [] <-> forallb isspace s = true.
Proof.
  induction s as [| c s IH]; cbn; [tauto |].
  destruct (isspace c); cbn; [exact IH | split; discriminate].
Qed.

Lemma strip_nil_iff (s : text) : strip s = [] <-> rstrip s = [].
Proof.
  unfold strip. split.
  - intros H. apply lstrip_nil_iff in H.
    destruct (rstrip s) as [| k kept] eqn:E; [reflexivity |].
    exfalso.
    pose proof (rstrip_ends_clean s) as Hc. rewrite E in Hc.
    destruct (@exists_last _ (k :: kept)) as (front & d & Hd); [discriminate |].
    pose proof (Hc front d Hd) as Hsp.
    rewrite Hd, forallb_app in H. cbn in H. rewrite Hsp in H.
    rewrite andb_false_r in H. discriminate H.
  - intros ->. reflexivity.
Qed.

(** The two branches of the loop agree. *)
Lemma cleaned_line_eq (line : text) : cleaned_line line = rstrip line ++ [newline].
Proof.
  unfold cleaned_line.
  destruct (strip line) as [| c s] eqn:E; [| reflexivity].
  apply strip_nil_iff in E. rewrite E. reflexivity.
Qed.

Lemma cleaned_line_fixed (body : text) :
  ends_clean body -> cleaned_line (body ++ [newline]) = body ++ [newline].
Proof.
  intros H. rewrite cleaned_line_eq.
  rewrite (rstrip_app_spaces body [newline] H eq_refl). reflexivity.
Qed.

(** X15.  [remove_trailing_whitespace] (fix_whitespace.py) writes one line
    for each line read: the line without its trailing whitespace (the
    characters [str.rstrip] removes, the line end among them), followed by
    one newline, also for a last line that had none.  Nothing but trailing
    whitespace is
    removed, no written line has whitespace before its newline, and
    cleaning what was written changes nothing more: the clean-up is
    idempotent. *)
Theorem trailing_whitespace_removed (lines : list text) :
  let cleaned := remove_trailing_whitespace lines in
  Forall2 (fun line out =>
             exists body ws,
               line = body ++ ws /\ forallb isspace ws = true /\
               ends_clean body /\ out = body ++ [newline]) lines cleaned /\
  remove_trailing_whitespace cleaned = cleaned.
Proof.
  cbv zeta. unfold remove_trailing_whitespace. split.
  - induction lines as [| line lines IH]; cbn [map]; constructor; [| exact IH].
    destruct (rstrip_split line) as (ws & Hs & Hws).
    exists (rstrip line), ws.
    split; [exact Hs |]. split; [exact Hws |].
    split; [apply rstrip_ends_clean | apply cleaned_line_eq].
  - rewrite map_map. apply map_ext. intros line.
    rewrite (cleaned_line_eq line).
    apply cleaned_line_fixed. apply rstrip_ends_clean.
Qed.

(** "a \t\n", a line of blanks, and a last line "x" without line end. *)
Example trailing_whitespace_removed_sample :
  remove_trailing_whitespace [[97; 32; 9; 10]; [32; 32; 10]; [120]]%N
  = [[97; 10]; [10]; [120; 10]]%N.
Proof. reflexivity. Qed.
